(** * PaddleNLP [paddlenlp/datasets/dataset.py]: datasets, sharding, builders

    A shallow embedding of [MapDataset], [IterDataset] and [DatasetBuilder]
    and the properties of their transform / filter / shard pipelines.

    Conventions of the embedding:
    - Python [int] is [Z]; [//] and [%] are [Z.div] and [Z.modulo] (both
      floor towards minus infinity, the sign of [%] follows the divisor),
      with the division by zero raised explicitly.  The one float
      computation of the code is kept for the exceptions it raises.
    - A raised exception is the [Raise] constructor of [result].
    - User callables handed to the datasets (transforms, predicates) are
      total deterministic functions.
    - A generator is traversed item by item: what it does to the state
      before an item happens when the consumer asks for that item, and
      does not happen when the consumer has stopped before.  The reading
      functions a user supplies ([_read], [read_func]) are given by their
      whole traversal: the items they hand out, after what they do to the
      state.
    - Mutable objects that the builder updates in place (record dicts and
      label lists) live in a [heap] indexed by object identity. *)

From stdpp Require Import base numbers list strings gmap.
From Stdlib Require Import ZArith Lia Permutation.

Local Open Scope Z_scope.

(** ** Python primitives *)

Module Py.

Inductive exn : Type :=
  | AssertionError
  | IndexError
  | KeyError
  | TypeError
  | ValueError
  | ZeroDivisionError
  | OverflowError
  | AttributeError
  | NotImplementedError
  | ReferenceError.

Inductive result (A : Type) : Type :=
  | Ok (a : A)
  | Raise (e : exn).
Arguments Ok {A} a.
Arguments Raise {A} e.

Definition bind {A B} (r : result A) (k : A -> result B) : result B :=
    match r with
    | Ok a => k a
    | Raise e => Raise e
    end.

#[global] Instance result_ret : MRet result := @Ok.
#[global] Instance result_bind : MBind result :=
    fun A B k r => bind r k.
#[global] Instance result_fmap : FMap result :=
    fun A B f r => bind r (fun a => Ok (f a)).

(** [len(l)] as a Python integer. *)
Definition len {A} (l : list A) : Z := Z.of_nat (length l).

(** [range(n)]: [0, 1, ..., n-1], empty when [n <= 0]. *)
Definition range (n : Z) : list Z := Z.of_nat <$> seq 0 (Z.to_nat n).

(** [l[idx]] on a list: a negative index counts from the end, an index
    outside [-len(l) <= idx < len(l)] raises [IndexError]. *)
Definition getitem {A} (l : list A) (idx : Z) : result A :=
    let i := if idx <? 0 then idx + len l else idx in
    if (i <? 0) || (len l <=? i) then Raise IndexError
    else match l !! Z.to_nat i with
         | Some x => Ok x
         | None => Raise IndexError
         end.

(** Bound adjustment of [l[start:end]]: a negative bound counts from the
    end, then the bound is clipped to [0 .. len(l)]. *)
Definition clip (n i : Z) : Z :=
    if i <? 0 then Z.max 0 (i + n) else Z.min i n.

(** [l[start:end]]; never raises. *)
Definition slice {A} (l : list A) (start stop : Z) : list A :=
    let s := clip (len l) start in
    let e := clip (len l) stop in
    take (Z.to_nat (e - s)) (drop (Z.to_nat s) l).

(** The integers that cannot be converted to a float: the conversion
    rounds to the nearest double, and from [2**1024 - 2**970] on (half
    way between the largest double and [2**1024]) it raises
    [OverflowError]; so does the conversion of the negatives of these. *)
Definition float_limit : Z := 2 ^ 1024 - 2 ^ 970.

(** [a * 1.0 / b] for [a] the length of a list (which a float always
    holds) and an integer [b]: the division converts [b] to a float.  Its
    value is a float that the code embedded here never uses; what is kept
    is that it raises [ZeroDivisionError] for [b = 0] and [OverflowError]
    for a [b] outside the float range. *)
Definition truediv_defined (b : Z) : result unit :=
    if b =? 0 then Raise ZeroDivisionError
    else if float_limit <=? Z.abs b then Raise OverflowError
    else Ok tt.

(** [a // b] and [a % b]. *)
Definition floordiv (a b : Z) : result Z :=
    if b =? 0 then Raise ZeroDivisionError else Ok (a / b).
Definition modulo (a b : Z) : result Z :=
    if b =? 0 then Raise ZeroDivisionError else Ok (a mod b).

(** [paddle.distributed]: the ambient [dist.get_world_size()] and
    [dist.get_rank()], read by the [shard] methods for their defaults. *)
Class dist : Type := {
    get_world_size : Z;
    get_rank : Z
  }.

End Py.
Import Py.

(** ** MapDataset *)

Module MapDataset.
Section MapDataset.

(** [A]: the samples; [L], [V]: whatever [label_list] and [vocab_info]
    carry. *)
Context {A L V : Type} {D : dist}.

Record t : Type := mk {
    data : list A;
    _transform_pipline : list (A -> A);
    new_data : list A;
    label_list : option L;
    vocab_info : option V
  }.

(** [__init__(self, data, **kwargs)] *)
Definition __init__ (d : list A) (ll : option L) (vi : option V) : t :=
    {| data := d; _transform_pipline := []; new_data := d;
       label_list := ll; vocab_info := vi |}.

Definition set_new_data (self : t) (nd : list A) : t :=
    {| data := data self; _transform_pipline := _transform_pipline self;
       new_data := nd;
       label_list := label_list self; vocab_info := vocab_info self |}.

(** [for fn in self._transform_pipline: data = fn(data)] *)
Fixpoint run_pipline (fns : list (A -> A)) (x : A) : A :=
    match fns with
    | [] => x
    | fn :: fns' => run_pipline fns' (fn x)
    end.

Definition _transform (self : t) (x : A) : A :=
    run_pipline (_transform_pipline self) x.

(** [return self._transform(self.new_data[idx])
     if self._transform_pipline else self.new_data[idx]] *)
Definition __getitem__ (self : t) (idx : Z) : result A :=
    match _transform_pipline self with
    | [] => getitem (new_data self) idx
    | _ :: _ => x ← getitem (new_data self) idx; mret (_transform self x)
    end.

Definition __len__ (self : t) : Z := len (new_data self).

(** [[f(self.new_data[idx]) for idx in range(len(self.new_data)) if c]]:
    the comprehension shared by [_filter], [shard] and [_map]; [idx]
    ranges over the valid positions, so the subscript cannot raise. *)
Definition comprehension {B} (l : list A) (c : Z -> A -> bool) (f : A -> B)
    : list B :=
    omap (fun idx => match l !! Z.to_nat idx with
                     | Some x => if c idx x then Some (f x) else None
                     | None => None
                     end)
         (range (len l)).

Definition _filter (self : t) (fn : A -> bool) : t :=
    set_new_data self (comprehension (new_data self) (fun _ x => fn x) id).

(** [shard(num_shards, index, contiguous)] *)
Definition shard (self : t) (num_shards index : option Z) (contiguous : bool)
    : result t :=
    let num_shards := default get_world_size num_shards in
    let index := default get_rank index in
    if contiguous then
      div ← floordiv (__len__ self) num_shards;
      md ← modulo (__len__ self) num_shards;
      let start := div * index + Z.min index md in
      let stop := start + div + (if index <? md then 1 else 0) in
      mret (set_new_data self (slice (new_data self) start stop))
    else
      (* num_samples = int(math.ceil(len(self.new_data) * 1.0 / num_shards)),
         a value that is not used afterwards *)
      _ ← truediv_defined num_shards;
      mret (set_new_data self
              (comprehension (new_data self)
                 (fun idx _ => idx mod num_shards =? index) id)).

(** [self.new_data = []; for i in range(num_workers):
     self.new_data += transformed_shards[i].new_data] *)
Definition join_shards (self : t) (shards : list t) : t :=
    set_new_data self
      (fold_left (fun acc s => acc ++ new_data s) shards []).

(** [filter(fn, num_workers)]: for [num_workers > 0] every worker runs
    [filter_shard] on its own copy of [self], and the parent joins the
    returned copies in rank order. *)
Definition filter_shard (self : t) (num_workers index : Z) (fn : A -> bool)
    : result t :=
    s ← shard self (Some num_workers) (Some index) true;
    mret (_filter s fn).

Definition filter (self : t) (fn : A -> bool) (num_workers : Z) : result t :=
    if num_workers <? 0 then Raise AssertionError
    else if 0 <? num_workers then
      transformed_shards ←
        mapM (fun rk => filter_shard self num_workers rk fn)
             (range num_workers);
      mret (join_shards self transformed_shards)
    else mret (_filter self fn).

(** [_map(fn, lazy, batched)]; the batched form hands the whole
    collection to its function. *)
Inductive map_fn : Type :=
  | PerSample (fn : A -> A)
  | Batched (fn : list A -> list A).

Definition _map (self : t) (fn : map_fn) (lazy : bool) : t :=
    match fn with
    | Batched f => set_new_data self (f (new_data self))
    | PerSample f =>
        if lazy then
          {| data := data self;
             _transform_pipline := _transform_pipline self ++ [f];
             new_data := new_data self;
             label_list := label_list self; vocab_info := vocab_info self |}
        else set_new_data self (comprehension (new_data self) (fun _ _ => true) f)
    end.

(** [map(fn, lazy, batched, num_workers)]: with workers, [map_shard] runs
    [_map] with [lazy=False] on every contiguous shard. *)
Definition map_shard (self : t) (num_workers index : Z) (fn : map_fn)
    : result t :=
    s ← shard self (Some num_workers) (Some index) true;
    mret (_map s fn false).

Definition map (self : t) (fn : map_fn) (lazy : bool) (num_workers : Z)
    : result t :=
    if num_workers <? 0 then Raise AssertionError
    else if 0 <? num_workers then
      transformed_shards ←
        mapM (fun rk => map_shard self num_workers rk fn) (range num_workers);
      mret (join_shards self transformed_shards)
    else mret (_map self fn lazy).

End MapDataset.
Arguments t : clear implicits.
End MapDataset.


(** ** IterDataset *)

(** What one traversal of an iterable hands out: the items drawn, and the
    exception that ended the traversal if one did. *)
Definition trace (A : Type) : Type := (list A * option exn)%type.

(** A generator between two items.  It is exhausted: its traversal has
    ended, by the exception [ending] if there is one.  Or it has handed
    out the item [x] and is suspended at that [yield]: asked for the next
    item, [resume] runs it from the current state up to its next [yield]
    or to its end. *)
#[local] Unset Elimination Schemes.
Inductive generator (A St : Type) : Type :=
  | Exhausted (ending : option exn)
  | Suspended (x : A) (resume : St -> St * generator A St).
#[local] Set Elimination Schemes.
Arguments Exhausted {A St} ending.
Arguments Suspended {A St} x resume.

(** [list(g)]: the generator asked for its items until it is exhausted. *)
Fixpoint exhaust {A St} (g : generator A St) (st : St) : St * trace A :=
    match g with
    | Exhausted ending => (st, ([], ending))
    | Suspended x resume =>
        let '(st', g') := resume st in
        let '(st'', (xs, ending)) := exhaust g' st' in
        (st'', (x :: xs, ending))
    end.

(** [for x in xs: yield x], ended by [ending]: items handed out one by
    one with nothing done in between. *)
Fixpoint hand_out {A St} (xs : list A) (ending : option exn)
    : generator A St :=
    match xs with
    | [] => Exhausted ending
    | x :: xs' => Suspended x (fun st => (st, hand_out xs' ending))
    end.

Module IterDataset.
Section IterDataset.

(** [A]: the samples.  [Pred]: the function objects registered as filters;
    Python calls them on whatever object they are handed, so their
    meaning [call] is defined on [arg]: a sample, or a list of function
    objects.  [St]: the state a source may read and update while it is
    traversed. *)
Context {A Pred St L V : Type} {D : dist}.

Inductive arg : Type :=
  | Sample (x : A)
  | Functions (fns : list Pred).

Variable call : Pred -> arg -> bool.

(** [self.data]: a function that returns an iterable
    ([inspect.isfunction]), an iterable such as a list, or a generator
    object (for which [__iter__] warns that it can be traversed once; the
    embedding describes that one traversal).  A function and a generator
    object are given by what the request for their first item does: it
    runs them up to their first [yield], or to their end. *)
Inductive source : Type :=
  | Function (f : St -> St * generator A St)
  | Iterable (l : list A)
  | Generator (g : St -> St * generator A St).

Record t : Type := mk {
    data : source;
    _transform_pipline : list (A -> A);
    _filter_pipline : list Pred;
    _shard_filter : Z -> result bool;
    label_list : option L;
    vocab_info : option V
  }.

(** [__init__]; [_shard_filter] starts as the method that returns [True]. *)
Definition __init__ (d : source) (ll : option L) (vi : option V) : t :=
    {| data := d; _transform_pipline := []; _filter_pipline := [];
       _shard_filter := fun _ => Ok true;
       label_list := ll; vocab_info := vi |}.

Fixpoint run_pipline (fns : list (A -> A)) (x : A) : A :=
    match fns with
    | [] => x
    | fn :: fns' => run_pipline fns' (fn x)
    end.

Definition _transform (self : t) (x : A) : A :=
    run_pipline (_transform_pipline self) x.

(** [for fn in self._filter_pipline: if not fn(data): return False] *)
Fixpoint all_pass (fns : list Pred) (d : arg) : bool :=
    match fns with
    | [] => true
    | fn :: fns' => if negb (call fn d) then false else all_pass fns' d
    end.

Definition _filter (self : t) (d : arg) : bool :=
    all_pass (_filter_pipline self) d.

(** The condition of the [if] in [__iter__]:
    [(not self._filter_pipline or self._filter(self._filter_pipline))
     and self._shard_filter(num_samples=num_samples)].
    The argument of [self._filter] is the pipeline, as in the source. *)
Definition passes (self : t) (num_samples : Z) : result bool :=
    if match _filter_pipline self with [] => true | _ :: _ => false end
       || _filter self (Functions (_filter_pipline self))
    then _shard_filter self num_samples
    else Ok false.

(** [yield self._transform(example) if self._transform_pipline else example] *)
Definition emit (self : t) (example : A) : A :=
    match _transform_pipline self with
    | [] => example
    | _ :: _ => _transform self example
    end.

(** The [for example in ...] loop, from the counter value [num_samples];
    [ending] is how the source's own traversal ended. *)
Fixpoint loop (self : t) (num_samples : Z) (examples : list A)
    (ending : option exn) : trace A :=
    match examples with
    | [] => ([], ending)
    | example :: rest =>
        match passes self num_samples with
        | Raise e => ([], Some e)
        | Ok true =>
            let '(ys, e) := loop self (num_samples + 1) rest ending in
            (emit self example :: ys, e)
        | Ok false => loop self (num_samples + 1) rest ending
        end
    end.

(** The same loop over a generator: the next sample is asked for after
    the body has run on the current one, and is not asked for when the
    body has raised. *)
Fixpoint traverse (self : t) (num_samples : Z) (g : generator A St)
    (st : St) : St * trace A :=
    match g with
    | Exhausted ending => (st, ([], ending))
    | Suspended example resume =>
        match passes self num_samples with
        | Raise e => (st, ([], Some e))
        | Ok true =>
            let '(st', g') := resume st in
            let '(st'', (ys, e)) := traverse self (num_samples + 1) g' st' in
            (st'', (emit self example :: ys, e))
        | Ok false =>
            let '(st', g') := resume st in
            traverse self (num_samples + 1) g' st'
        end
    end.

Definition __iter__ (self : t) (st : St) : St * trace A :=
    let num_samples := 0 in
    match data self with
    | Function f =>
        let '(st', g) := f st in traverse self num_samples g st'
    | Iterable l => (st, loop self num_samples l None)
    | Generator g =>
        let '(st', g') := g st in traverse self num_samples g' st'
    end.

(** [filter(fn)] *)
Definition filter (self : t) (fn : Pred) : t :=
    {| data := data self; _transform_pipline := _transform_pipline self;
       _filter_pipline := _filter_pipline self ++ [fn];
       _shard_filter := _shard_filter self;
       label_list := label_list self; vocab_info := vocab_info self |}.

(** [sharder(num_shards, index, num_samples)] *)
Definition sharder (num_shards index num_samples : Z) : result bool :=
    m ← modulo num_samples num_shards;
    if m =? index then mret true else mret false.

(** [shard(num_shards, index)] *)
Definition shard (self : t) (num_shards index : option Z) : t :=
    let num_shards := default get_world_size num_shards in
    let index := default get_rank index in
    let fn := sharder num_shards index in
    {| data := data self; _transform_pipline := _transform_pipline self;
       _filter_pipline := _filter_pipline self;
       _shard_filter := fn;
       label_list := label_list self; vocab_info := vocab_info self |}.

(** [map(fn)] *)
Definition map (self : t) (fn : A -> A) : t :=
    {| data := data self;
       _transform_pipline := _transform_pipline self ++ [fn];
       _filter_pipline := _filter_pipline self;
       _shard_filter := _shard_filter self;
       label_list := label_list self; vocab_info := vocab_info self |}.

End IterDataset.
Arguments t : clear implicits.
Arguments source : clear implicits.
Arguments arg : clear implicits.
End IterDataset.


(** ** DatasetBuilder *)

Module DatasetBuilder.

(** *** Objects

    [read] rewrites the label field of the records it is given, so the
    records are objects with an identity: a record is a reference to a
    dict in the heap, and a list-valued field is a reference to a list.
    Scalars are immutable and carried by value; the items of a list or
    tuple are scalars. *)

Definition loc : Type := nat.

Inductive atom : Type :=
  | ANone
  | ABool (b : bool)
  | AInt (n : Z)
  | AStr (s : string).

Inductive val : Type :=
  | VAtom (a : atom)
  | VRef (l : loc).

Inductive obj : Type :=
  | OList (items : list atom)
  | OTuple (items : list atom)
  | ODict (d : gmap string val).

Abbreviation heap := (gmap loc obj).

(** *** State and exceptions

    A computation runs from a heap to a heap and a result; what was
    written before an exception stays written. *)

Definition M (X : Type) : Type := heap -> heap * result X.

#[global] Instance M_ret : MRet M := fun X x h => (h, Ok x).
#[global] Instance M_bind : MBind M := fun X Y k m h =>
    match m h with
    | (h', Ok x) => k x h'
    | (h', Raise e) => (h', Raise e)
    end.

Definition raise {X} (e : exn) : M X := fun h => (h, Raise e).

(** A computation that does not touch the heap. *)
Definition lift {X} (r : result X) : M X := fun h => (h, r).

(** The object a reference points to.  Python has no dangling
    references; the embedding reports one as [ReferenceError] rather than
    inventing an object. *)
Definition deref (l : loc) : M obj := fun h =>
    match h !! l with
    | Some o => (h, Ok o)
    | None => (h, Raise ReferenceError)
    end.

Definition store (l : loc) (o : obj) : M unit := fun h => (<[l:=o]> h, Ok tt).

(** [for x in xs: body(x)] *)
Fixpoint for_each {X} (xs : list X) (body : X -> M unit) : M unit :=
    match xs with
    | [] => mret tt
    | x :: xs' => _ ← body x; for_each xs' body
    end.

(** *** Operations on objects *)

(** [example.keys()] *)
Definition keys (example : loc) : M (gmap string val) :=
    o ← deref example;
    match o with
    | ODict d => mret d
    | OList _ | OTuple _ => raise AttributeError
    end.

(** [example.get(key, None)]; [key] is [None] or a string, and the keys of
    a record are strings. *)
Definition dict_get (example : loc) (key : option string) : M val :=
    d ← keys example;
    mret (default (VAtom ANone) (key ≫= fun k => d !! k)).

(** [example[key]] *)
Definition subscript (example : loc) (key : string) : M val :=
    o ← deref example;
    match o with
    | ODict d =>
        match d !! key with
        | Some v => mret v
        | None => raise KeyError
        end
    | OList _ | OTuple _ => raise TypeError
    end.

(** [example[key] = v] *)
Definition dict_setitem (example : loc) (key : string) (v : val) : M unit :=
    o ← deref example;
    match o with
    | ODict d => store example (ODict (<[key:=v]> d))
    | OList _ | OTuple _ => raise TypeError
    end.

(** Truth value of an object, as tested by [if]. *)
Definition truthy (v : val) : M bool :=
    match v with
    | VAtom ANone => mret false
    | VAtom (ABool b) => mret b
    | VAtom (AInt n) => mret (negb (n =? 0))
    | VAtom (AStr s) => mret (negb (String.eqb s ""))
    | VRef l =>
        o ← deref l;
        match o with
        | OList items | OTuple items => mret (negb (Nat.eqb (length items) 0))
        | ODict d => mret (negb (Nat.eqb (size d) 0))
        end
    end.

(** [isinstance(v, list) or isinstance(v, tuple)] *)
Definition is_list_or_tuple (v : val) : M bool :=
    match v with
    | VAtom _ => mret false
    | VRef l =>
        o ← deref l;
        match o with
        | OList _ | OTuple _ => mret true
        | ODict _ => mret false
        end
    end.

(** [len(v)], [v[i]] and [v[i] = x] for a list or tuple [v]. *)
Definition seq_len (v : val) : M Z :=
    match v with
    | VAtom _ => raise TypeError
    | VRef l =>
        o ← deref l;
        match o with
        | OList items | OTuple items => mret (len items)
        | ODict d => mret (Z.of_nat (size d))
        end
    end.

Definition seq_getitem (v : val) (i : Z) : M atom :=
    match v with
    | VAtom _ => raise TypeError
    | VRef l =>
        o ← deref l;
        match o with
        | OList items | OTuple items => lift (getitem items i)
        | ODict _ => raise KeyError
        end
    end.

Definition seq_setitem (v : val) (i : Z) (x : atom) : M unit :=
    match v with
    | VAtom _ => raise TypeError
    | VRef l =>
        o ← deref l;
        match o with
        | OList items =>
            if (i <? 0) || (len items <=? i) then raise IndexError
            else store l (OList (<[Z.to_nat i:=x]> items))
        | OTuple _ => raise TypeError
        | ODict _ => raise TypeError
        end
    end.

(** [label_dict = {}; for i, label in enumerate(label_list):
     label_dict[label] = i] *)
Definition build_label_dict (label_list : list string) : gmap string nat :=
    fold_left (fun label_dict '(i, label) => <[label:=i]> label_dict)
              (zip (seq 0 (length label_list)) label_list) ∅.

(** [label_dict[x]]: the keys are strings; any other scalar is a missing
    key, a dict (the only reference that reaches the scalar branch) is
    unhashable. *)
Definition label_index (label_dict : gmap string nat) (x : atom) : M Z :=
    match x with
    | AStr s =>
        match label_dict !! s with
        | Some i => mret (Z.of_nat i)
        | None => raise KeyError
        end
    | ANone | ABool _ | AInt _ => raise KeyError
    end.

Definition label_index_val (label_dict : gmap string nat) (v : val) : M Z :=
    match v with
    | VAtom a => label_index label_dict a
    | VRef _ => raise TypeError
    end.

(** *** Label conversion *)

(** ['labels' in example.keys()], else ['label'], else [None]. *)
Definition label_column (example : loc) : M (option string) :=
    d ← keys example;
    if bool_decide (is_Some (d !! "labels")) then mret (Some "labels")
    else if bool_decide (is_Some (d !! "label")) then mret (Some "label")
    else mret None.

(** The block that rewrites the label field of one record, written twice
    in [read] (once on [example], once on [examples[idx]]):
<<
    if isinstance(example[label_col], list) or isinstance(example[label_col], tuple):
        for label_idx in range(len(example[label_col])):
            example[label_col][label_idx] = label_dict[example[label_col][label_idx]]
    else:
        example[label_col] = label_dict[example[label_col]]
>>
    It runs only after [x.get(label_col, None)] was found true, so
    [label_col] is a string there. *)
Definition convert_labels (label_dict : gmap string nat) (example : loc)
    (label_col : string) : M unit :=
    v ← subscript example label_col;
    sequence ← is_list_or_tuple v;
    if sequence : bool then
      v ← subscript example label_col;
      n ← seq_len v;
      for_each (range n) (fun label_idx =>
        v ← subscript example label_col;
        label ← seq_getitem v label_idx;
        i ← label_index label_dict label;
        target ← subscript example label_col;
        seq_setitem target label_idx (AInt i))
    else
      v ← subscript example label_col;
      i ← label_index_val label_dict v;
      dict_setitem example label_col (VAtom (AInt i)).

(** [label_list is not None and x.get(label_col, None)] *)
Definition wants_conversion (label_list : option (list string)) (x : loc)
    (label_col : option string) : M bool :=
    match label_list with
    | None => mret false
    | Some _ => v ← dict_get x label_col; truthy v
    end.

(** Body of the loop of the lazy [generate_examples], up to its [yield]. *)
Definition generate_step (label_list : option (list string)) (example : loc)
    : M unit :=
    label_col ← label_column example;
    c ← wants_conversion label_list example label_col;
    if c : bool then
      match label_list, label_col with
      | Some ll, Some col => convert_labels (build_label_dict ll) example col
      | _, _ => raise KeyError
      end
    else mret tt.

Section Builder.

(** [V]: what [get_vocab] returns; [Pred]: the function objects that may
    later be registered on a streaming dataset. *)
Context {V Pred : Type}.

Inductive dataset : Type :=
  | Map (ds : MapDataset.t loc (list string) V)
  | Iter (ds : IterDataset.t loc Pred heap (list string) V).

(** A concrete builder: its [lazy] flag, the hooks [get_labels] and
    [get_vocab], and the two methods a subclass supplies.  [_read] hands
    out records one by one and may end by raising;
    [_read_argcount] is [self._read.__code__.co_argcount]. *)
Record t : Type := mk {
    lazy : bool;
    get_labels : option (list string);
    get_vocab : option V;
    _read_argcount : nat;
    _read : string -> option string -> heap -> heap * trace loc;
    _get_data : string -> M string
  }.

(** [self._read(filename, split) if self._read.__code__.co_argcount > 2
     else self._read(filename)] *)
Definition call_read (self : t) (filename split : string)
    : heap -> heap * trace loc :=
    if (2 <? _read_argcount self)%nat then _read self filename (Some split)
    else _read self filename None.

(** The generator function [generate_examples] of the lazy branch,
    traversed to its end: the records it yields, and the heap after the
    conversions of all the records it got to. *)
Fixpoint generate_loop (label_list : option (list string))
    (examples : list loc) (ending : option exn) (h : heap)
    : heap * trace loc :=
    match examples with
    | [] => (h, ([], ending))
    | example :: rest =>
        match generate_step label_list example h with
        | (h', Raise e) => (h', ([], Some e))
        | (h', Ok _) =>
            let '(h'', (ys, e)) := generate_loop label_list rest ending h' in
            (h'', (example :: ys, e))
        end
    end.

Definition generate_examples (self : t) (filename split : string)
    : heap -> heap * trace loc := fun h =>
    let '(h', (examples, ending)) := call_read self filename split h in
    generate_loop (get_labels self) examples ending h'.

(** The generator [generate_examples()] item by item: asked for the next
    record, it converts that record and is suspended at the [yield]; the
    records after it are untouched until they are asked for. *)
Fixpoint generate_resume (label_list : option (list string))
    (examples : list loc) (ending : option exn) (h : heap)
    : heap * generator loc heap :=
    match examples with
    | [] => (h, Exhausted ending)
    | example :: rest =>
        match generate_step label_list example h with
        | (h', Raise e) => (h', Exhausted (Some e))
        | (h', Ok _) =>
            (h', Suspended example (generate_resume label_list rest ending))
        end
    end.

Definition generate_examples_call (self : t) (filename split : string)
    : heap -> heap * generator loc heap := fun h =>
    let '(h', (examples, ending)) := call_read self filename split h in
    generate_resume (get_labels self) examples ending h'.

(** [examples = list(self._read(...))] of the eager branch. *)
Definition materialize (self : t) (filename split : string) : M (list loc) :=
    fun h =>
    let '(h', (examples, ending)) := call_read self filename split h in
    match ending with
    | Some e => (h', Raise e)
    | None => (h', Ok examples)
    end.

(** [read(filename, split)] *)
Definition read (self : t) (filename split : string) : M dataset :=
    let label_list := get_labels self in
    let vocab_info := get_vocab self in
    if lazy self then
      mret (Iter (IterDataset.__init__
                    (IterDataset.Generator
                       (generate_examples_call self filename split))
                    label_list vocab_info))
    else
      examples ← materialize self filename split;
      match examples with
      | [] => raise ValueError
      | first :: _ =>
          label_col ← label_column first;
          c ← wants_conversion label_list first label_col;
          _ ← (if c : bool then
                 for_each (range (len examples)) (fun idx =>
                   example ← lift (getitem examples idx);
                   match label_list, label_col with
                   | Some ll, Some col =>
                       convert_labels (build_label_dict ll) example col
                   | _, _ => raise KeyError
                   end)
               else mret tt);
          mret (Map (MapDataset.__init__ examples label_list vocab_info))
      end.

(** *** read_datasets *)

(** The shapes [data_files] and [splits] may take.  A mapping is given
    by its items in insertion order.  [OtherFiles] and [OtherSplits]
    stand for an object of any other type, with its truth value. *)
Inductive data_files_arg : Type :=
  | FileStr (s : string)
  | FileList (l : list string)
  | FileTuple (l : list string)
  | FileDict (items : list (string * string))
  | OtherFiles (truth : bool).

Inductive splits_arg : Type :=
  | SplitStr (s : string)
  | SplitList (l : list string)
  | SplitTuple (l : list string)
  | OtherSplits (truth : bool).

Definition nonempty {X} (l : list X) : bool :=
    match l with [] => false | _ :: _ => true end.

Definition files_truth (data_files : option data_files_arg) : bool :=
    match data_files with
    | None => false
    | Some (FileStr s) => negb (String.eqb s "")
    | Some (FileList l) | Some (FileTuple l) => nonempty l
    | Some (FileDict items) => nonempty items
    | Some (OtherFiles b) => b
    end.

Definition splits_truth (splits : option splits_arg) : bool :=
    match splits with
    | None => false
    | Some (SplitStr s) => negb (String.eqb s "")
    | Some (SplitList l) | Some (SplitTuple l) => nonempty l
    | Some (OtherSplits b) => b
    end.

(** What [read_datasets] returns: [datasets[0]] or the list [datasets]. *)
Inductive datasets_result : Type :=
  | Single (d : dataset)
  | Several (ds : list dataset).

(** [for split in splits: filename = self._get_data(split);
     datasets.append(self.read(filename=filename, split=split))] *)
Definition read_split (self : t) (split : string) : M dataset :=
    filename ← _get_data self split;
    read self filename split.

(** The block [if data_files: ...] of [read_datasets]. *)
Definition read_data_files (self : t) (data_files : option data_files_arg)
    (datasets : list dataset) : M (list dataset) :=
    if files_truth data_files then
      match data_files with
      | Some (FileStr s) =>
          d ← read self s "train"; mret (datasets ++ [d])
      | Some (FileList l) | Some (FileTuple l) =>
          ds ← mapM (fun filename => read self filename "train") l;
          mret (datasets ++ ds)
      | Some (FileDict items) =>
          ds ← mapM (fun '(split, filename) => read self filename split) items;
          mret (datasets ++ ds)
      | Some (OtherFiles _) | None => raise AssertionError
      end
    else mret datasets.

(** The block [if splits: ...] of [read_datasets]. *)
Definition read_splits (self : t) (splits : option splits_arg)
    (datasets : list dataset) : M (list dataset) :=
    if splits_truth splits then
      match splits with
      | Some (SplitStr s) =>
          d ← read_split self s; mret (datasets ++ [d])
      | Some (SplitList l) | Some (SplitTuple l) =>
          ds ← mapM (read_split self) l; mret (datasets ++ ds)
      | Some (OtherSplits _) | None => raise AssertionError
      end
    else mret datasets.

Definition read_datasets (self : t) (splits : option splits_arg)
    (data_files : option data_files_arg) : M datasets_result :=
    let datasets : list dataset := [] in
    if negb (splits_truth splits || files_truth data_files)
    then raise AssertionError
    else
      datasets ← read_data_files self data_files datasets;
      datasets ← read_splits self splits datasets;
      if (1 <? length datasets)%nat then mret (Several datasets)
      else match datasets with
           | d :: _ => mret (Single d)
           | [] => raise IndexError
           end.

End Builder.
Arguments t : clear implicits.
Arguments dataset : clear implicits.
Arguments datasets_result : clear implicits.
End DatasetBuilder.


(** ** SimpleBuilder *)

Module SimpleBuilder.
Section SimpleBuilder.

(** [A]: the examples; [K]: the keyword arguments handed to the reading
    function; [St]: the state the reading function works on; [Pred], [L],
    [V] as for the datasets.  [_read] is the traversal of what
    [read_func( **kwargs)] returns. *)
Context {A K St Pred L V : Type}.

Record t : Type := mk {
    _read : K -> St -> St * trace A;
    lazy : bool
  }.

(** [__init__(self, lazy, read_func)] *)
Definition __init__ (lazy : bool) (read_func : K -> St -> St * trace A) : t :=
    {| _read := read_func; lazy := lazy |}.

Inductive dataset : Type :=
  | Map (ds : MapDataset.t A L V)
  | Iter (ds : IterDataset.t A Pred St L V).

(** [generator = self._read( **kwargs); for example in generator:
     yield example] *)
Definition generate_examples (self : t) (kwargs : K)
    : St -> St * generator A St :=
    fun st =>
    let '(st', (examples, ending)) := _read self kwargs st in
    (st', hand_out examples ending).

(** [read( **kwargs)]: the lazy branch wraps the function
    [generate_examples] itself, the eager branch the examples (a list as
    it is, anything else through [list(examples)]). *)
Definition read (self : t) (kwargs : K) : St -> St * result dataset :=
    fun st =>
    if lazy self then
      (st, Ok (Iter (IterDataset.__init__
                       (IterDataset.Function (generate_examples self kwargs))
                       None None)))
    else
      let '(st', (examples, ending)) := _read self kwargs st in
      match ending with
      | Some e => (st', Raise e)
      | None => (st', Ok (Map (MapDataset.__init__ examples None None)))
      end.

End SimpleBuilder.
Arguments t : clear implicits.
Arguments dataset : clear implicits.
End SimpleBuilder.

(** ** load_dataset *)

Module Loader.
Import DatasetBuilder.
Section Loader.

(** [A]: the examples of a custom reading function; [X]: the values of
    the extra keyword arguments; [V], [Pred], [L] as before. *)
Context {A X V Pred L : Type}.

(** The [splits] argument as [load_dataset] sees it.  [read_datasets]
    asks an object that is no string, list or tuple for its truth value
    only ([OtherSplits]); the membership test of [load_dataset] hashes it
    first, which a set, a dict or any other unhashable object refuses.
    [Plain (OtherSplits _)] is an object of another type that can be
    hashed. *)
Inductive splits_object : Type :=
  | Plain (splits : splits_arg)
  | Unhashable (truth : bool).

(** The same argument as [read_datasets] sees it. *)
Definition as_splits_arg (splits : splits_object) : splits_arg :=
    match splits with
    | Plain splits => splits
    | Unhashable truth => OtherSplits truth
    end.

(** A value in the keyword arguments of [load_dataset]. *)
Inductive kw : Type :=
  | KwName (name : option string)
  | KwFiles (data_files : option data_files_arg)
  | KwSplits (splits : option splits_object)
  | KwOther (x : X).

(** A custom reading function: the names in
    [inspect.signature(read_func).parameters], in order, and what the
    call does. *)
Record read_func : Type := {
    parameters : list string;
    call_func : gmap string kw -> heap -> heap * trace A
  }.

(** A subclass of [DatasetBuilder]: the class attribute [lazy], the
    tables [BUILDER_CONFIGS] (config name to the names of its splits) and
    [SPLITS] (the split names) when the class has them, and the instance
    that [reader_cls(lazy=lazy, name=name, **kwargs)] makes, apart from
    its [lazy] flag. *)
Record builder_class : Type := {
    class_lazy : bool;
    BUILDER_CONFIGS : option (gmap string (list string));
    SPLITS : option (list string);
    instance : option string -> gmap string kw -> DatasetBuilder.t V
  }.

(** [DatasetBuilder.__init__(self, lazy=None, name=None, **config)]:
    [if lazy is not None: self.lazy = lazy]. *)
Definition __init__ (reader_cls : builder_class) (lazy : option bool)
    (name : option string) (config : gmap string kw) : DatasetBuilder.t V :=
    let self := instance reader_cls name config in
    {| DatasetBuilder.lazy := default (class_lazy reader_cls) lazy;
       get_labels := get_labels self;
       get_vocab := get_vocab self;
       _read_argcount := _read_argcount self;
       DatasetBuilder._read := DatasetBuilder._read self;
       _get_data := _get_data self |}.

(** A member of a module: a class that passes
    [isinstance(obj, type) and issubclass(obj, DatasetBuilder)], or
    anything else. *)
Inductive member : Type :=
  | BuilderClass (cls : builder_class)
  | OtherMember.

Definition DATASETS_MODULE_PATH : string := "paddlenlp.datasets.".

(** [importlib.import_module]: the items of the [__dict__] of the module
    at a path, in order; the import is taken to succeed. *)
Variable import_module : string -> list (string * member).

(** The loop of [import_main_class] over [module.__dict__.items()]. *)
Fixpoint find_main_cls (items : list (string * member))
    : option builder_class :=
    match items with
    | [] => None
    | (name, obj) :: rest =>
        match obj with
        | BuilderClass cls =>
            if String.eqb name "DatasetBuilder" then find_main_cls rest
            else Some cls
        | OtherMember => find_main_cls rest
        end
    end.

Definition import_main_class (module_path : string) : option builder_class :=
    let module_path := (DATASETS_MODULE_PATH ++ module_path)%string in
    let module := import_module module_path in
    find_main_cls module.

(** [path_or_read_func]: a function, or the name of a module. *)
Inductive target : Type :=
  | ReadFunc (f : read_func)
  | Path (path : string).

(** [custom_kwargs = {}; for name in parameters:
     if name in kwargs.keys(): custom_kwargs[name] = kwargs[name]] *)
Definition select_kwargs (parameters : list string) (kwargs : gmap string kw)
    : gmap string kw :=
    fold_left (fun custom_kwargs name =>
                 match kwargs !! name with
                 | Some v => <[name:=v]> custom_kwargs
                 | None => custom_kwargs
                 end)
              parameters ∅.

(** The split names a builder declares: under [BUILDER_CONFIGS] those of
    the config [name], else the keys of [SPLITS]. *)
Definition split_names_of (reader_cls : builder_class) (name : option string)
    : result (list string) :=
    match BUILDER_CONFIGS reader_cls with
    | Some configs =>
        match name ≫= fun n => configs !! n with
        | Some splits => Ok splits
        | None => Raise ValueError
        end
    | None =>
        match SPLITS reader_cls with
        | Some splits => Ok splits
        | None => Raise AttributeError
        end
    end.

(** An element of [selected_splits]: a split name, [None], or an object
    of another type, which can be hashed or not. *)
Inductive selected : Type :=
  | Name (s : string)
  | NoName
  | Unnamed
  | Unhashed.

(** [selected_splits += data_files.keys() if isinstance(data_files, dict)
     else selected_splits], then [extend(splits)] for a list or tuple and
    [+= [splits]] otherwise. *)
Definition selected_splits (data_files : option data_files_arg)
    (splits : option splits_object) : list selected :=
    let selected_splits : list selected := [] in
    let selected_splits :=
      selected_splits ++
      match data_files with
      | Some (FileDict items) => (fun '(split, _) => Name split) <$> items
      | _ => selected_splits
      end in
    match splits with
    | Some (Plain (SplitList l)) | Some (Plain (SplitTuple l)) =>
        selected_splits ++ (Name <$> l)
    | Some (Plain (SplitStr s)) => selected_splits ++ [Name s]
    | None => selected_splits ++ [NoName]
    | Some (Plain (OtherSplits _)) => selected_splits ++ [Unnamed]
    | Some (Unhashable _) => selected_splits ++ [Unhashed]
    end.

(** [split_name not in split_names and split_name != None];
    [split_names] are the keys of a dict, so the membership test hashes
    [split_name] and raises [TypeError] when that cannot be done. *)
Definition invalid (split_names : list string) (split_name : selected)
    : result bool :=
    match split_name with
    | Name s => Ok (negb (bool_decide (s ∈ split_names)))
    | NoName => Ok false
    | Unnamed => Ok true
    | Unhashed => Raise TypeError
    end.

(** [for split_name in selected_splits: if ...: raise ValueError] *)
Fixpoint check_splits (split_names : list string) (sel : list selected)
    : result unit :=
    match sel with
    | [] => Ok tt
    | split_name :: rest =>
        bad ← invalid split_names split_name;
        if bad : bool then Raise ValueError
        else check_splits split_names rest
    end.

(** What [load_dataset] returns. *)
Inductive loaded : Type :=
  | Custom (d : SimpleBuilder.dataset A heap Pred L V)
  | Built (d : datasets_result V Pred).

Definition load_dataset (path_or_read_func : target) (name : option string)
    (data_files : option data_files_arg) (splits : option splits_object)
    (lazy : option bool) (kwargs : gmap string kw) : M loaded :=
    match path_or_read_func with
    | ReadFunc f =>
        match lazy with
        | None => raise AssertionError
        | Some lazy =>
            let kwargs := <["name":=KwName name]> kwargs in
            let kwargs := <["data_files":=KwFiles data_files]> kwargs in
            let kwargs := <["splits":=KwSplits splits]> kwargs in
            let custom_kwargs := select_kwargs (parameters f) kwargs in
            let reader_instance := SimpleBuilder.__init__ lazy (call_func f) in
            d ← (SimpleBuilder.read reader_instance custom_kwargs : M _);
            mret (Custom d)
        end
    | Path path =>
        match import_main_class path with
        | None => raise TypeError
        | Some reader_cls =>
            let reader_instance := __init__ reader_cls lazy name kwargs in
            split_names ← lift (split_names_of reader_cls name);
            _ ← lift (check_splits split_names
                        (selected_splits data_files splits));
            datasets ← read_datasets reader_instance
                          (as_splits_arg <$> splits) data_files;
            mret (Built datasets)
        end
    end.

End Loader.
Arguments kw : clear implicits.
Arguments read_func : clear implicits.
Arguments builder_class : clear implicits.
Arguments member : clear implicits.
Arguments target : clear implicits.
Arguments loaded : clear implicits.
End Loader.

(** ** Definitions used to state the properties *)

Module Spec.
Section Spec.
Context {A L V : Type} {D : dist}.

(** The comprehension as a walk along the list with its position. *)
Fixpoint select {B} (c : Z -> A -> bool) (f : A -> B) (p : Z) (l : list A)
    : list B :=
    match l with
    | [] => []
    | x :: l' =>
        if c p x then f x :: select c f (p + 1) l' else select c f (p + 1) l'
    end.

(** First position of shard [i] when [n] records go to [k] contiguous
    shards: [div * i + min(i, mod)]. *)
Definition bound (n k i : Z) : Z := n / k * i + Z.min i (n mod k).

(** The stored records of the shards [0 .. num_shards - 1] of a dataset,
    in shard order. *)
Definition all_shards (self : MapDataset.t A L V) (num_shards : Z)
    (contiguous : bool) : result (list (list A)) :=
    mapM (fun i => MapDataset.new_data <$>
                     MapDataset.shard self (Some num_shards) (Some i) contiguous)
         (range num_shards).

End Spec.

Section IterSpec.
Context {A Pred St L V : Type}.

(** The source of a streaming dataset asked for its first item. *)
Definition start (src : IterDataset.source A St) (st : St)
    : St * generator A St :=
    match src with
    | IterDataset.Function f | IterDataset.Generator f => f st
    | IterDataset.Iterable l => (st, hand_out l None)
    end.

(** What the source of a streaming dataset hands out when traversed to
    its end. *)
Definition draw (src : IterDataset.source A St) (st : St) : St * trace A :=
    match src with
    | IterDataset.Function f | IterDataset.Generator f =>
        let '(st', g) := f st in exhaust g st'
    | IterDataset.Iterable l => (st, (l, None))
    end.

(** The filter half of the condition in [__iter__]. *)
Definition filter_test (call : Pred -> IterDataset.arg A Pred -> bool)
    (self : IterDataset.t A Pred St L V) : bool :=
    match IterDataset._filter_pipline self with [] => true | _ :: _ => false end
    || IterDataset._filter call self
         (IterDataset.Functions (IterDataset._filter_pipline self)).

End IterSpec.

(** *** Records with labels

    How the properties of [DatasetBuilder.read] describe a record: the
    reference [rec] to its dict, the [fields] of that dict, the name
    [column] of its label field and the [value] held there: a label
    string, or a reference to a list of label strings. *)

Import DatasetBuilder.

Inductive label_value : Type :=
  | Scalar (s : string)
  | Sequence (q : loc) (ss : list string).

Record labelled : Type := {
    rec : loc;
    fields : gmap string val;
    column : string;
    value : label_value
  }.

Definition labels_of (v : label_value) : list string :=
    match v with
    | Scalar s => [s]
    | Sequence _ ss => ss
    end.

(** The name of the label field of a dict: ['labels'], else ['label']. *)
Definition column_of (d : gmap string val) : option string :=
    if bool_decide (is_Some (d !! "labels")) then Some "labels"
    else if bool_decide (is_Some (d !! "label")) then Some "label"
    else None.

(** In heap [h] the record is as described, with a non-empty label
    value. *)
Definition holds (h : heap) (x : labelled) : Prop :=
    h !! rec x = Some (ODict (fields x))
    /\ match value x with
       | Scalar s => fields x !! column x = Some (VAtom (AStr s)) /\ s <> ""
       | Sequence q ss =>
           fields x !! column x = Some (VRef q)
           /\ h !! q = Some (OList (AStr <$> ss)) /\ ss <> []
       end.

(** In heap [h] the record at [r] has no label field, or one that holds
    [None] or the empty string. *)
Definition unlabelled (h : heap) (r : loc) : Prop :=
    exists d,
      h !! r = Some (ODict d)
      /\ (column_of d = None
          \/ exists col,
               column_of d = Some col
               /\ (d !! col = Some (VAtom ANone)
                   \/ d !! col = Some (VAtom (AStr "")))).

(** Every label of the record stands in [label_list]. *)
Definition known (label_list : list string) (x : labelled) : Prop :=
    Forall (fun s => s ∈ label_list) (labels_of (value x)).

(** [i] is the 0-based index of the label [s] in [label_list]: the
    position where [s] stands, the last such position when the list has
    [s] more than once. *)
Definition index_in (label_list : list string) (s : string) (i : nat) : Prop :=
    label_list !! i = Some s
    /\ forall j : nat, (i < j)%nat -> label_list !! j <> Some s.

(** In heap [h] the labels of the record have been replaced by their
    indices in [label_list]: a scalar in the record's dict, the items
    of a list in the list object the record still refers to. *)
Definition mapped (label_list : list string) (h : heap) (x : labelled) : Prop :=
    match value x with
    | Scalar s =>
        exists i, index_in label_list s i
          /\ h !! rec x
             = Some (ODict (<[column x:=VAtom (AInt (Z.of_nat i))]> (fields x)))
    | Sequence q ss =>
        exists positions, Forall2 (index_in label_list) ss positions
          /\ h !! rec x = Some (ODict (fields x))
          /\ h !! q = Some (OList ((fun i => AInt (Z.of_nat i)) <$> positions))
    end.

(** The heap while the list [q] of a record is being rewritten: the
    items before the current position are indices, the others still
    labels. *)
Definition rewriting (h : heap) (q : loc) (positions : list nat)
    (todo : list string) : heap :=
    <[q:=OList (((fun i => AInt (Z.of_nat i)) <$> positions)
                ++ (AStr <$> todo))]> h.

(** The one object that converting the record writes to. *)
Definition touched (x : labelled) : loc :=
    match value x with
    | Scalar _ => rec x
    | Sequence q _ => q
    end.

(** The list objects the described records refer to. *)
Definition lists (xs : list labelled) : list loc :=
    omap (fun x => match value x with
                   | Scalar _ => None
                   | Sequence q _ => Some q
                   end) xs.

(** *** The reads of [read_datasets], in declaration order *)

Section ReadSpec.
Context {V Pred : Type}.

(** One dataset to read: from a data file under a split name, or from a
    split whose file [_get_data] fetches first. *)
Inductive job : Type :=
  | FromFile (split filename : string)
  | FromSplit (split : string).

Definition run_job (self : DatasetBuilder.t V) (j : job)
    : M (dataset V Pred) :=
    match j with
    | FromFile split filename => read self filename split
    | FromSplit split => read_split self split
    end.

(** The data files first (a mapping in the order of its items), then the
    splits; an empty argument contributes nothing. *)
Definition file_jobs (data_files : option data_files_arg) : list job :=
    match data_files with
    | Some (FileStr s) => if String.eqb s "" then [] else [FromFile "train" s]
    | Some (FileList l) | Some (FileTuple l) => FromFile "train" <$> l
    | Some (FileDict items) =>
        (fun '(split, filename) => FromFile split filename) <$> items
    | Some (OtherFiles _) | None => []
    end.

Definition split_jobs (splits : option splits_arg) : list job :=
    match splits with
    | Some (SplitStr s) => if String.eqb s "" then [] else [FromSplit s]
    | Some (SplitList l) | Some (SplitTuple l) => FromSplit <$> l
    | Some (OtherSplits _) | None => []
    end.

Definition jobs (splits : option splits_arg)
    (data_files : option data_files_arg) : list job :=
    file_jobs data_files ++ split_jobs splits.

(** The single dataset when exactly one was read, else the sequence. *)
Definition pack (ds : list (dataset V Pred)) : datasets_result V Pred :=
    match ds with
    | [d] => Single d
    | _ => Several ds
    end.

End ReadSpec.

End Spec.

(** ** Concrete inputs *)

Module Demo.

(** A single process: one trainer, rank 0. *)
Definition single : dist := {| get_world_size := 1; get_rank := 0 |}.

(** Five integer samples, no transform. *)
Definition five : MapDataset.t Z unit unit :=
    MapDataset.__init__ [10; 20; 30; 40; 50] None None.

(** The same five samples with the transform [x + 100] registered. *)
Definition five_shifted : MapDataset.t Z unit unit :=
    MapDataset._map five (MapDataset.PerSample (Z.add 100)) true.

(** A filter function object: [lambda x: x != n]. *)
Inductive pred : Type :=
  | NotEqual (n : Z).

(** An integer sample differs from [n] or not; a list of functions is
    never equal to an integer. *)
Definition call (fn : pred) (a : IterDataset.arg Z pred) : bool :=
    match fn, a with
    | NotEqual n, IterDataset.Sample x => negb (x =? n)
    | NotEqual n, IterDataset.Functions _ => true
    end.

(** [IterDataset([1, 2, 3]).filter(lambda x: x != 2)] *)
Definition one_two_three : IterDataset.t Z pred unit unit unit :=
    IterDataset.filter
      (IterDataset.__init__ (IterDataset.Iterable [1; 2; 3]) None None)
      (NotEqual 2).

(** A source of ten samples, no filter, no transform. *)
Definition ten : IterDataset.t Z pred unit unit unit :=
    IterDataset.__init__
      (IterDataset.Iterable [100; 101; 102; 103; 104; 105; 106; 107; 108; 109])
      None None.

(** A builder with [get_labels() = ["a", "b", "c"]] whose [_read] hands
    out the given record objects. *)
Definition labels_abc : list string := ["a"; "b"; "c"].

Definition builder (lazy : bool) (records : list DatasetBuilder.loc)
    : DatasetBuilder.t unit :=
    {| DatasetBuilder.lazy := lazy;
       DatasetBuilder.get_labels := Some labels_abc;
       DatasetBuilder.get_vocab := None;
       DatasetBuilder._read_argcount := 3;
       DatasetBuilder._read := fun _ _ h => (h, (records, None));
       DatasetBuilder._get_data := fun mode => mret mode |}.

(** [{"label": "b"}] at 0 and [{"labels": ["a", "c"]}] at 1, its list
    at 2. *)
Definition heap_labels : gmap DatasetBuilder.loc DatasetBuilder.obj :=
    {[ 0%nat := DatasetBuilder.ODict
                  {[ "label" := DatasetBuilder.VAtom (DatasetBuilder.AStr "b") ]};
       1%nat := DatasetBuilder.ODict {[ "labels" := DatasetBuilder.VRef 2%nat ]};
       2%nat := DatasetBuilder.OList
                  [DatasetBuilder.AStr "a"; DatasetBuilder.AStr "c"] ]}.

Definition record_b : Spec.labelled :=
    {| Spec.rec := 0%nat;
       Spec.fields := {[ "label" := DatasetBuilder.VAtom (DatasetBuilder.AStr "b") ]};
       Spec.column := "label";
       Spec.value := Spec.Scalar "b" |}.

Definition record_ac : Spec.labelled :=
    {| Spec.rec := 1%nat;
       Spec.fields := {[ "labels" := DatasetBuilder.VRef 2%nat ]};
       Spec.column := "labels";
       Spec.value := Spec.Sequence 2%nat ["a"; "c"] |}.

(** [{"label": 1}] at 0 and [{"labels": [0, 2]}] at 1, its list at 2. *)
Definition heap_indices : gmap DatasetBuilder.loc DatasetBuilder.obj :=
    {[ 0%nat := DatasetBuilder.ODict
                  {[ "label" := DatasetBuilder.VAtom (DatasetBuilder.AInt 1) ]};
       1%nat := DatasetBuilder.ODict {[ "labels" := DatasetBuilder.VRef 2%nat ]};
       2%nat := DatasetBuilder.OList
                  [DatasetBuilder.AInt 0; DatasetBuilder.AInt 2] ]}.

(** [{"text": "x"}] at 0 and [{"label": "b"}] at 1. *)
Definition heap_text_first : gmap DatasetBuilder.loc DatasetBuilder.obj :=
    {[ 0%nat := DatasetBuilder.ODict
                  {[ "text" := DatasetBuilder.VAtom (DatasetBuilder.AStr "x") ]};
       1%nat := DatasetBuilder.ODict
                  {[ "label" := DatasetBuilder.VAtom (DatasetBuilder.AStr "b") ]} ]}.

(** [{"labels": ("a", "c")}] at 0, its tuple at 1. *)
Definition heap_tuple : gmap DatasetBuilder.loc DatasetBuilder.obj :=
    {[ 0%nat := DatasetBuilder.ODict {[ "labels" := DatasetBuilder.VRef 1%nat ]};
       1%nat := DatasetBuilder.OTuple
                  [DatasetBuilder.AStr "a"; DatasetBuilder.AStr "c"] ]}.

End Demo.

(** ** Definitions used to state further properties *)

Module More.
Import DatasetBuilder.

(** The records of shard [i] when [l] goes to [k] contiguous shards. *)
Definition piece {A} (l : list A) (k i : Z) : list A :=
    take (Z.to_nat (Spec.bound (len l) k (i + 1) - Spec.bound (len l) k i))
         (drop (Z.to_nat (Spec.bound (len l) k i)) l).

(** The records [shard(num_shards, index, contiguous)] keeps of the
    stored list [l], for [num_shards] not zero. *)
Definition shard_records {A} (l : list A) (num_shards index : Z)
    (contiguous : bool) : list A :=
    if contiguous then
      let div := len l / num_shards in
      let md := len l mod num_shards in
      let start := div * index + Z.min index md in
      let stop := start + div + (if index <? md then 1 else 0) in
      slice l start stop
    else Spec.select (fun idx _ => idx mod num_shards =? index) id 0 l.

(** Truth value of a scalar. *)
Definition atom_truth (a : atom) : bool :=
    match a with
    | ANone => false
    | ABool b => b
    | AInt n => negb (n =? 0)
    | AStr s => negb (String.eqb s "")
    end.

(** The object is an empty list, tuple or dict. *)
Definition empty_container (o : obj) : bool :=
    match o with
    | OList items | OTuple items =>
        match items with [] => true | _ :: _ => false end
    | ODict d => bool_decide (d = ∅)
    end.

(** The value counts as false in an [if]: [None], [False], [0], the
    empty string, or an empty list, tuple or dict. *)
Definition falsy (h : heap) (v : val) : bool :=
    match v with
    | VAtom a => negb (atom_truth a)
    | VRef q =>
        match h !! q with
        | Some o => empty_container o
        | None => false
        end
    end.

(** In heap [h] the record at [r] is a dict with no label field, or with
    one whose value counts as false. *)
Definition without_label (h : heap) (r : loc) : bool :=
    match h !! r with
    | Some (ODict d) =>
        match Spec.column_of d ≫= fun col => d !! col with
        | Some v => falsy h v
        | None => true
        end
    | _ => false
    end.

(** The exception a label value that counts as true provokes when it is
    looked up in the label dictionary as it is: any scalar other than a
    string is no key of it, a dict cannot be hashed. *)
Definition refused (h : heap) (v : val) : option exn :=
    match v with
    | VAtom (AStr _) => None
    | VAtom a => if atom_truth a then Some KeyError else None
    | VRef q =>
        match h !! q with
        | Some (ODict d) => if bool_decide (d = ∅) then None else Some TypeError
        | _ => None
        end
    end.

(** The exception the first item of a tuple of labels provokes: its
    lookup fails, or the assignment to the tuple does. *)
Definition tuple_error (label_list : list string) (a : atom) : exn :=
    match a with
    | AStr s => if bool_decide (s ∈ label_list) then TypeError else KeyError
    | ANone | ABool _ | AInt _ => KeyError
    end.

(** [{"labels": ["a", "z", "c"]}] at 0, its list at 1. *)
Definition heap_unknown : heap :=
    {[ 0%nat := ODict {[ "labels" := VRef 1%nat ]};
       1%nat := OList [AStr "a"; AStr "z"; AStr "c"] ]}.

(** [{"label": "b"}] at 0 and [{"label": "c"}] at 1. *)
Definition heap_two : heap :=
    {[ 0%nat := ODict {[ "label" := VAtom (AStr "b") ]};
       1%nat := ODict {[ "label" := VAtom (AStr "c") ]} ]}.

Definition record_c : Spec.labelled :=
    {| Spec.rec := 1%nat;
       Spec.fields := {[ "label" := VAtom (AStr "c") ]};
       Spec.column := "label";
       Spec.value := Spec.Scalar "c" |}.

(** [{"label": 0}] at 0, [{"labels": []}] at 1 with its list at 2, and
    [{"text": "x"}] at 3. *)
Definition heap_falsy : heap :=
    {[ 0%nat := ODict {[ "label" := VAtom (AInt 0) ]};
       1%nat := ODict {[ "labels" := VRef 2%nat ]};
       2%nat := OList [];
       3%nat := ODict {[ "text" := VAtom (AStr "x") ]} ]}.

(** A builder without a label list ([get_labels()] returns [None])
    whose [_read] hands out the given record objects. *)
Definition plain_builder (lazy : bool) (records : list loc)
    : DatasetBuilder.t unit :=
    {| DatasetBuilder.lazy := lazy;
       DatasetBuilder.get_labels := None;
       DatasetBuilder.get_vocab := None;
       DatasetBuilder._read_argcount := 2;
       DatasetBuilder._read := fun _ _ h => (h, (records, None));
       DatasetBuilder._get_data := fun mode => mret mode |}.

(** The record [{"label": "b"}] at 1 of [Demo.heap_text_first]. *)
Definition record_b_second : Spec.labelled :=
    {| Spec.rec := 1%nat;
       Spec.fields := {[ "label" := VAtom (AStr "b") ]};
       Spec.column := "label";
       Spec.value := Spec.Scalar "b" |}.

(** An eager builder without a label list whose [_read] finds the
    record at 0 in every file but ["empty.tsv"], where it finds none. *)
Definition builder_by_file : DatasetBuilder.t unit :=
    {| DatasetBuilder.lazy := false;
       DatasetBuilder.get_labels := None;
       DatasetBuilder.get_vocab := None;
       DatasetBuilder._read_argcount := 2;
       DatasetBuilder._read := fun filename _ h =>
         (h, (if String.eqb filename "empty.tsv" then [] else [0%nat], None));
       DatasetBuilder._get_data := fun mode => mret mode |}.

(** The datasets a result of [read_datasets] holds. *)
Definition datasets_of {V Pred} (r : datasets_result V Pred)
    : list (dataset V Pred) :=
    match r with
    | Single d => [d]
    | Several ds => ds
    end.

(** A member of a module that [import_main_class] accepts under the
    name it is bound to. *)
Definition qualifies {X V} (item : string * Loader.member X V) : bool :=
    match item with
    | (name, Loader.BuilderClass _) => negb (String.eqb name "DatasetBuilder")
    | (_, Loader.OtherMember) => false
    end.

(** A builder class with the splits [train] and [dev] whose instances
    read the record at 0. *)
Definition demo_class (lazy : bool) : Loader.builder_class unit unit :=
    {| Loader.class_lazy := lazy;
       Loader.BUILDER_CONFIGS := None;
       Loader.SPLITS := Some ["train"; "dev"];
       Loader.instance := fun _ _ => Demo.builder false [0%nat] |}.

(** A module that binds the base class under its own name, then an
    object that is no class, then two builder classes. *)
Definition demo_module (path : string)
    : list (string * Loader.member unit unit) :=
    [("DatasetBuilder", Loader.BuilderClass (demo_class true));
     ("os", Loader.OtherMember);
     ("Demo", Loader.BuilderClass (demo_class false));
     ("Other", Loader.BuilderClass (demo_class true))].

(** What kind of dataset a builder with the given [lazy] flag makes. *)
Definition kind_of {V Pred} (lazy : bool) (d : dataset V Pred) : Prop :=
    match d with
    | Iter _ => lazy = true
    | Map _ => lazy = false
    end.

End More.

(** * Properties *)

(** ** Python primitives *)

Section PyFacts.
Context {A : Type}.
Implicit Types (l : list A) (idx : Z).

Lemma len_nonneg l : 0 <= len l.
Proof. unfold len. lia. Qed.

Lemma getitem_nonneg l idx :
  0 <= idx < len l ->
  exists x, l !! Z.to_nat idx = Some x /\ getitem l idx = Ok x.
Proof.
  intros Hi. unfold getitem.
  destruct (Z.ltb_spec idx 0) as [?|_]; [lia|].
  destruct (Z.ltb_spec idx 0) as [?|_]; [lia|].
  destruct (Z.leb_spec (len l) idx) as [?|_]; [lia|]. simpl.
  destruct (lookup_lt_is_Some_2 l (Z.to_nat idx)) as [x Hx].
  { unfold len in Hi. lia. }
  exists x. by rewrite Hx.
Qed.

Lemma getitem_negative l idx :
  - len l <= idx < 0 ->
  exists x, l !! Z.to_nat (len l + idx) = Some x /\ getitem l idx = Ok x.
Proof.
  intros Hi. unfold getitem.
  destruct (Z.ltb_spec idx 0) as [_|?]; [|lia].
  destruct (Z.ltb_spec (idx + len l) 0) as [?|_]; [lia|].
  destruct (Z.leb_spec (len l) (idx + len l)) as [?|_]; [lia|]. simpl.
  destruct (lookup_lt_is_Some_2 l (Z.to_nat (idx + len l))) as [x Hx].
  { unfold len in *. lia. }
  exists x. rewrite Hx. by rewrite (Z.add_comm (len l)).
Qed.

Lemma getitem_out_of_range l idx :
  len l <= idx \/ idx < - len l -> getitem l idx = Raise IndexError.
Proof.
  intros Hi. unfold getitem. pose proof (len_nonneg l).
  destruct (Z.ltb_spec idx 0).
  - destruct (Z.ltb_spec (idx + len l) 0); [done|lia].
  - destruct (Z.ltb_spec idx 0); [lia|].
    destruct (Z.leb_spec (len l) idx); [done|lia].
Qed.

Lemma range_len l : range (len l) = Z.of_nat <$> seq 0 (length l).
Proof. unfold range, len. by rewrite Nat2Z.id. Qed.

Lemma clip_inside n i : 0 <= i <= n -> clip n i = i.
Proof.
  intros Hi. unfold clip. destruct (Z.ltb_spec i 0); lia.
Qed.

Lemma slice_inside l start stop :
  0 <= start <= stop -> stop <= len l ->
  slice l start stop
  = take (Z.to_nat (stop - start)) (drop (Z.to_nat start) l).
Proof.
  intros Hs He. unfold slice. rewrite !clip_inside; [done|lia..].
Qed.

Lemma take_plus l (a c : nat) :
  take (a + c) l = take a l ++ take c (drop a l).
Proof.
  revert l. induction a as [|a IH]; intros [|x l]; simpl; try done.
  - by destruct c.
  - by rewrite IH.
Qed.

(** Consecutive pieces between non-decreasing cut points add up to a
    prefix. *)
Lemma concat_pieces l (cut : nat -> nat) (n : nat) :
  cut 0%nat = 0%nat ->
  (forall i, (i < n)%nat -> (cut i <= cut (S i))%nat) ->
  concat ((fun i => take (cut (S i) - cut i) (drop (cut i) l)) <$> seq 0 n)
  = take (cut n) l.
Proof.
  intros H0 Hmono. induction n as [|n IH].
  - simpl. by rewrite H0.
  - rewrite seq_S, fmap_app, concat_app, IH by (intros; apply Hmono; lia).
    simpl. rewrite app_nil_r.
    replace (cut (S n)) with (cut n + (cut (S n) - cut n))%nat at 2
      by (specialize (Hmono n); lia).
    by rewrite take_plus.
Qed.

End PyFacts.

(** ** The exception monad *)

Lemma bind_Ok {A B} (x : A) (k : A -> result B) : (Ok x ≫= k) = k x.
Proof. done. Qed.

Lemma fmap_Ok {A B} (f : A -> B) (x : A) : f <$> Ok x = Ok (f x).
Proof. done. Qed.

Lemma mapM_Ok {A B} (f : A -> result B) (g : A -> B) (l : list A) :
  Forall (fun x => f x = Ok (g x)) l -> mapM f l = Ok (g <$> l).
Proof.
  induction 1 as [|x l Hx _ IH]; [done|].
  simpl. rewrite Hx, bind_Ok, IH. done.
Qed.

Lemma Forall_range (P : Z -> Prop) (n : Z) :
  (forall i, 0 <= i < n -> P i) -> Forall P (range n).
Proof.
  intros HP. unfold range. apply Forall_fmap, Forall_forall.
  intros i Hi. apply elem_of_seq in Hi. simpl. apply HP. lia.
Qed.

(** ** MapDataset *)

Section MapDatasetFacts.
Context {A L V : Type} {D : dist}.
Implicit Types (self : MapDataset.t A L V) (l : list A).

Lemma comprehension_select_from {B} (c : Z -> A -> bool) (f : A -> B) l pre :
  omap (fun idx => match (pre ++ l) !! Z.to_nat idx with
                   | Some x => if c idx x then Some (f x) else None
                   | None => None
                   end)
       (Z.of_nat <$> seq (length pre) (length l))
  = Spec.select c f (Z.of_nat (length pre)) l.
Proof.
  unfold omap, fmap.
  revert pre. induction l as [|x l IH]; intros pre; [done|].
  simpl. rewrite Nat2Z.id, lookup_app_r, Nat.sub_diag by lia. simpl.
  specialize (IH (pre ++ [x])).
  rewrite <- app_assoc, length_app in IH. simpl in IH.
  rewrite Nat.add_1_r in IH. rewrite IH.
  replace (Z.of_nat (S (length pre))) with (Z.of_nat (length pre) + 1) by lia.
  by destruct (c _ x).
Qed.

Lemma comprehension_select {B} (c : Z -> A -> bool) (f : A -> B) l :
  MapDataset.comprehension l c f = Spec.select c f 0 l.
Proof.
  unfold MapDataset.comprehension. rewrite range_len.
  apply (comprehension_select_from c f l []).
Qed.

Lemma select_filter (fn : A -> bool) p l :
  Spec.select (fun _ x => fn x) id p l = List.filter fn l.
Proof.
  revert p. induction l as [|x l IH]; intros p; [done|].
  simpl. rewrite IH. done.
Qed.

Lemma select_map {B} (f : A -> B) p l :
  Spec.select (fun _ _ => true) f p l = f <$> l.
Proof.
  revert p. induction l as [|x l IH]; intros p; [done|].
  simpl. by rewrite IH.
Qed.

Lemma join_shards_concat self (shards : list (MapDataset.t A L V)) :
  MapDataset.new_data (MapDataset.join_shards self shards)
  = concat (MapDataset.new_data <$> shards).
Proof.
  unfold MapDataset.join_shards. simpl.
  rewrite <- (app_nil_l (concat _)). generalize (@nil A) as acc.
  induction shards as [|s shards IH]; intros acc; simpl.
  - by rewrite app_nil_r.
  - by rewrite IH, app_assoc.
Qed.

Lemma filter_concat (fn : A -> bool) (ls : list (list A)) :
  List.filter fn (concat ls) = concat (List.filter fn <$> ls).
Proof.
  induction ls as [|l ls IH]; [done|].
  simpl. by rewrite List.filter_app, IH.
Qed.

(** *** Arithmetic of the contiguous bounds *)

Lemma bound_0 n k : 0 < k -> 0 <= n -> Spec.bound n k 0 = 0.
Proof.
  intros Hk Hn. unfold Spec.bound.
  pose proof (Z.mod_pos_bound n k Hk). lia.
Qed.

Lemma bound_last n k : 0 < k -> Spec.bound n k k = n.
Proof.
  intros Hk. unfold Spec.bound.
  pose proof (Z.mod_pos_bound n k Hk).
  pose proof (Z.div_mod n k). lia.
Qed.

Lemma bound_step n k i :
  Spec.bound n k (i + 1)
  = Spec.bound n k i + n / k + (if i <? n mod k then 1 else 0).
Proof.
  unfold Spec.bound. destruct (Z.ltb_spec i (n mod k)); lia.
Qed.

Lemma bound_mono n k i :
  0 < k -> 0 <= n -> 0 <= i -> 0 <= Spec.bound n k i <= Spec.bound n k (i + 1).
Proof.
  intros Hk Hn Hi. rewrite bound_step. unfold Spec.bound.
  pose proof (Z.mod_pos_bound n k Hk).
  assert (0 <= n / k) by (apply Z.div_pos; lia).
  destruct (Z.ltb_spec i (n mod k)); nia.
Qed.

Lemma bound_le n k i :
  0 < k -> 0 <= n -> 0 <= i <= k -> Spec.bound n k i <= n.
Proof.
  intros Hk Hn Hi. rewrite <- (bound_last n k Hk) at 2. unfold Spec.bound.
  pose proof (Z.mod_pos_bound n k Hk).
  assert (0 <= n / k) by (apply Z.div_pos; lia).
  nia.
Qed.

(** The shard [i] of [k] contiguous shards, as a piece of the stored
    records. *)
Lemma shard_contiguous self k i :
  0 < k -> 0 <= i < k ->
  let l := MapDataset.new_data self in
  MapDataset.shard self (Some k) (Some i) true
  = Ok (MapDataset.set_new_data self
          (take (Z.to_nat (Spec.bound (len l) k (i + 1) - Spec.bound (len l) k i))
                (drop (Z.to_nat (Spec.bound (len l) k i)) l))).
Proof.
  intros Hk Hi l. unfold MapDataset.shard, floordiv, modulo. simpl.
  destruct (Z.eqb_spec k 0) as [?|_]; [lia|]. simpl.
  unfold MapDataset.__len__. fold l.
  pose proof (len_nonneg l) as Hl.
  pose proof (bound_mono (len l) k i Hk Hl (proj1 Hi)) as Hm.
  pose proof (bound_le (len l) k (i + 1) Hk Hl) as Hle.
  rewrite <- slice_inside by lia.
  rewrite bound_step. done.
Qed.

Lemma concat_contiguous l k :
  0 < k ->
  concat ((fun i => take (Z.to_nat (Spec.bound (len l) k (i + 1)
                                    - Spec.bound (len l) k i))
                         (drop (Z.to_nat (Spec.bound (len l) k i)) l))
          <$> range k) = l.
Proof.
  intros Hk. unfold range. rewrite <- list_fmap_compose.
  pose proof (len_nonneg l) as Hl.
  set (cut := fun i : nat => Z.to_nat (Spec.bound (len l) k (Z.of_nat i))).
  rewrite (list_fmap_ext _
    (fun i => take (cut (S i) - cut i) (drop (cut i) l)) (seq 0 (Z.to_nat k))).
  - rewrite concat_pieces.
    + unfold cut. rewrite Z2Nat.id, bound_last by lia.
      apply take_ge. unfold len. lia.
    + unfold cut. simpl. by rewrite bound_0.
    + intros i Hi. unfold cut.
      pose proof (bound_mono (len l) k (Z.of_nat i) Hk Hl).
      replace (Z.of_nat (S i)) with (Z.of_nat i + 1) by lia. lia.
  - intros j i Hji. simpl. unfold cut.
    pose proof (bound_mono (len l) k (Z.of_nat i) Hk Hl).
    replace (Z.of_nat (S i)) with (Z.of_nat i + 1) by lia.
    f_equal. lia.
Qed.

End MapDatasetFacts.

(** *** Striped shards *)

Section StripedFacts.
Context {A : Type}.
Implicit Types (l : list A).

Lemma mod_offset_zero k i p :
  0 < k -> 0 <= i < k -> (p mod k = i <-> (i - p) mod k = 0).
Proof.
  intros Hk Hi. pose proof (Z.div_mod p k ltac:(lia)) as Hp.
  pose proof (Z.mod_pos_bound p k Hk) as Hb. split; intros Hm.
  - symmetry. apply (Zmod_unique (i - p) k (- (p / k))); lia.
  - pose proof (Z.div_mod (i - p) k ltac:(lia)) as Hq. rewrite Hm in Hq.
    symmetry. apply (Zmod_unique p k (- ((i - p) / k))); lia.
Qed.

Lemma mod_offset_pred k q :
  0 < k ->
  (q - 1) mod k = if q mod k =? 0 then k - 1 else q mod k - 1.
Proof.
  intros Hk. pose proof (Z.div_mod q k ltac:(lia)) as Hq.
  pose proof (Z.mod_pos_bound q k Hk) as Hb.
  destruct (Z.eqb_spec (q mod k) 0) as [Hz|Hz]; symmetry.
  - apply (Zmod_unique (q - 1) k (q / k - 1)); lia.
  - apply (Zmod_unique (q - 1) k (q / k)); lia.
Qed.


(** Handing one more record to exactly one of several bins. *)
Lemma concat_one_more {I} (same : I -> bool) (g : I -> list A) (x : A)
    (bins : list I) :
  (exists a b i, bins = a ++ i :: b /\ same i = true
                 /\ Forall (fun i' => same i' = false) (a ++ b)) ->
  Permutation
    (concat ((fun i => if same i then x :: g i else g i) <$> bins))
    (x :: concat (g <$> bins)).
Proof.
  intros (a & b & i & -> & Hi & Hrest).
  apply Forall_app in Hrest as [Ha Hb].
  assert (forall c, Forall (fun i' => same i' = false) c ->
            (fun i => if same i then x :: g i else g i) <$> c = g <$> c) as Hsame.
  { intros c Hc. apply list_fmap_ext. intros n i' Hn.
    rewrite Forall_forall in Hc.
    rewrite (Hc i'); [done|]. eapply list_elem_of_lookup_2; done. }
  rewrite !fmap_app, !fmap_cons, !concat_app. simpl.
  rewrite Hi, (Hsame a Ha), (Hsame b Hb). simpl.
  symmetry. apply Permutation_middle.
Qed.

Lemma range_split k r :
  0 <= r < k ->
  exists a b, range k = a ++ r :: b /\ Forall (fun i => i <> r) (a ++ b).
Proof.
  intros Hr. exists (range r), (Z.of_nat <$> seq (S (Z.to_nat r)) (Z.to_nat (k - r - 1))).
  split.
  - unfold range.
    replace (Z.to_nat k) with (Z.to_nat r + S (Z.to_nat (k - r - 1)))%nat by lia.
    rewrite seq_app, fmap_app. simpl. rewrite Z2Nat.id by lia. done.
  - apply Forall_app. split; apply Forall_fmap, Forall_forall;
      intros i Hi; apply elem_of_seq in Hi; simpl; lia.
Qed.

Lemma striped_permutation k l p :
  0 < k ->
  Permutation
    (concat ((fun i => Spec.select (fun idx (_ : A) => idx mod k =? i) id p l)
             <$> range k))
    l.
Proof.
  intros Hk. revert p. induction l as [|x l IH]; intros p.
  - simpl. induction (range k) as [|i rest IHr]; [done|]. simpl. done.
  - simpl. etransitivity; [|apply perm_skip, (IH (p + 1))].
    apply (concat_one_more (fun i => p mod k =? i)
             (fun i => Spec.select (fun idx _ => idx mod k =? i) id (p + 1) l)).
    destruct (range_split k (p mod k)) as (a & b & Hab & Hne).
    { apply Z.mod_pos_bound. lia. }
    exists a, b, (p mod k). split; [done|]. split; [apply Z.eqb_refl|].
    eapply Forall_impl; [exact Hne|]. simpl. intros i Hi.
    apply Z.eqb_neq. congruence.
Qed.

End StripedFacts.

(** *** Filtering and sharding the stored records *)

Section MapDatasetShards.
Context {A L V : Type} {D : dist}.
Implicit Types (self : MapDataset.t A L V) (l : list A).

Lemma _filter_eq self (fn : A -> bool) :
  MapDataset._filter self fn
  = MapDataset.set_new_data self (List.filter fn (MapDataset.new_data self)).
Proof.
  unfold MapDataset._filter. by rewrite comprehension_select, select_filter.
Qed.

Lemma float_limit_gt_1 : 1 < float_limit.
Proof. vm_compute. reflexivity. Qed.

Lemma truediv_defined_Ok (b : Z) :
  b <> 0 -> Z.abs b < float_limit -> truediv_defined b = Ok tt.
Proof.
  intros Hb Hlim. unfold truediv_defined.
  destruct (Z.eqb_spec b 0) as [?|_]; [done|].
  destruct (Z.leb_spec float_limit (Z.abs b)) as [?|_]; [lia|done].
Qed.

Lemma truediv_defined_overflow (b : Z) :
  float_limit <= Z.abs b -> truediv_defined b = Raise OverflowError.
Proof.
  intros Hlim. pose proof float_limit_gt_1. unfold truediv_defined.
  destruct (Z.eqb_spec b 0) as [?|_]; [lia|].
  destruct (Z.leb_spec float_limit (Z.abs b)) as [_|?]; [done|lia].
Qed.

Lemma shard_striped self k i :
  k <> 0 -> Z.abs k < float_limit ->
  MapDataset.shard self (Some k) (Some i) false
  = Ok (MapDataset.set_new_data self
          (Spec.select (fun idx _ => idx mod k =? i) id 0
                       (MapDataset.new_data self))).
Proof.
  intros Hk Hlim. unfold MapDataset.shard. simpl.
  rewrite truediv_defined_Ok by done. simpl.
  by rewrite comprehension_select.
Qed.

(** Zero shards: both partition policies divide by [num_shards]. *)
Lemma shard_zero_raises self i contiguous :
  MapDataset.shard self (Some 0) i contiguous = Raise ZeroDivisionError.
Proof. by destruct contiguous. Qed.

Lemma all_shards_contiguous self k :
  0 < k ->
  Spec.all_shards self k true
  = Ok ((fun i => take (Z.to_nat (Spec.bound (len (MapDataset.new_data self)) k (i + 1)
                                  - Spec.bound (len (MapDataset.new_data self)) k i))
                       (drop (Z.to_nat (Spec.bound (len (MapDataset.new_data self)) k i))
                             (MapDataset.new_data self)))
        <$> range k).
Proof.
  intros Hk. unfold Spec.all_shards. apply mapM_Ok, Forall_range.
  intros i Hi. by rewrite shard_contiguous.
Qed.


Lemma filter_workers self (fn : A -> bool) k :
  0 < k ->
  MapDataset.filter self fn k
  = Ok (MapDataset.set_new_data self
          (List.filter fn (MapDataset.new_data self))).
Proof.
  intros Hk. unfold MapDataset.filter.
  destruct (Z.ltb_spec k 0) as [?|_]; [lia|].
  destruct (Z.ltb_spec 0 k) as [_|?]; [|lia].
  set (piece := fun i =>
    take (Z.to_nat (Spec.bound (len (MapDataset.new_data self)) k (i + 1)
                    - Spec.bound (len (MapDataset.new_data self)) k i))
         (drop (Z.to_nat (Spec.bound (len (MapDataset.new_data self)) k i))
               (MapDataset.new_data self))).
  rewrite (mapM_Ok _ (fun i => MapDataset.set_new_data self
                                 (List.filter fn (piece i)))).
  - rewrite bind_Ok. unfold mret, result_ret. f_equal.
    pose proof (join_shards_concat self
      ((fun i => MapDataset.set_new_data self (List.filter fn (piece i)))
       <$> range k)) as Hj.
    unfold MapDataset.join_shards in *. simpl in Hj. rewrite Hj.
    rewrite <- list_fmap_compose.
    replace (List.filter fn (MapDataset.new_data self))
      with (List.filter fn (concat (piece <$> range k)))
      by (f_equal; exact (concat_contiguous (MapDataset.new_data self) k Hk)).
    by rewrite filter_concat, <- list_fmap_compose.
  - apply Forall_range. intros i Hi. unfold MapDataset.filter_shard.
    rewrite shard_contiguous, bind_Ok by done.
    by rewrite _filter_eq.
Qed.

Lemma filter_sequential self (fn : A -> bool) :
  MapDataset.filter self fn 0
  = Ok (MapDataset.set_new_data self
          (List.filter fn (MapDataset.new_data self))).
Proof. unfold MapDataset.filter. simpl. by rewrite _filter_eq. Qed.

Lemma run_pipline_fold (fns : list (A -> A)) (x : A) :
  MapDataset.run_pipline fns x = fold_left (fun d fn => fn d) fns x.
Proof. revert x. induction fns as [|fn fns IH]; intros x; [done|]. apply IH. Qed.

Lemma __getitem___eq self idx :
  MapDataset.__getitem__ self idx
  = MapDataset._transform self <$> getitem (MapDataset.new_data self) idx.
Proof.
  unfold MapDataset.__getitem__, MapDataset._transform.
  destruct (MapDataset._transform_pipline self); [|done].
  by destruct (getitem _ idx).
Qed.

End MapDatasetShards.




(** C3. For a valid index, [__getitem__(index)] is the transform pipeline
    folded from left to right over the stored record at that index; with
    an empty pipeline it is the stored record itself; and [map(fn)]
    (lazy) appends [fn] after the transforms already registered, so the
    fold runs in the order of registration. *)
Theorem getitem_folds_pipeline {A L V : Type} {D : dist}
    (self : MapDataset.t A L V) (idx : Z) (fn : A -> A) :
  - len (MapDataset.new_data self) <= idx < len (MapDataset.new_data self) ->
  exists x,
    MapDataset.new_data self
      !! Z.to_nat (if idx <? 0 then len (MapDataset.new_data self) + idx else idx)
    = Some x
    /\ MapDataset.__getitem__ self idx
       = Ok (fold_left (fun d f => f d) (MapDataset._transform_pipline self) x)
    /\ (MapDataset._transform_pipline self = [] ->
        MapDataset.__getitem__ self idx = Ok x)
    /\ exists self',
         MapDataset.map self (MapDataset.PerSample fn) true 0 = Ok self'
         /\ MapDataset._transform_pipline self'
            = MapDataset._transform_pipline self ++ [fn]
         /\ MapDataset.__getitem__ self' idx
            = Ok (fn (fold_left (fun d f => f d)
                                (MapDataset._transform_pipline self) x)).
Proof.
  intros Hidx.
  assert (exists x,
    MapDataset.new_data self
      !! Z.to_nat (if idx <? 0 then len (MapDataset.new_data self) + idx else idx)
    = Some x /\ getitem (MapDataset.new_data self) idx = Ok x) as (x & Hx & Hget).
  { destruct (Z.ltb_spec idx 0).
    - apply getitem_negative. lia.
    - apply getitem_nonneg. lia. }
  exists x. split; [done|].
  assert (MapDataset.__getitem__ self idx
          = Ok (fold_left (fun d f => f d) (MapDataset._transform_pipline self) x))
    as Hfold.
  { rewrite __getitem___eq, Hget, fmap_Ok. unfold MapDataset._transform.
    by rewrite run_pipline_fold. }
  split; [done|]. split.
  - intros Hnil. rewrite Hfold, Hnil. done.
  - eexists. split; [reflexivity|]. split; [done|].
    rewrite __getitem___eq. simpl. rewrite Hget, fmap_Ok.
    unfold MapDataset._transform. simpl.
    by rewrite run_pipline_fold, fold_left_app.
Qed.

Lemma getitem_folds_pipeline_witness :
  - len (MapDataset.new_data Demo.five) <= 1 < len (MapDataset.new_data Demo.five)
  /\ exists x,
       MapDataset.new_data Demo.five !! 1%nat = Some x
       /\ MapDataset.__getitem__ Demo.five 1 = Ok x.
Proof.
  assert (- len (MapDataset.new_data Demo.five) <= 1
          < len (MapDataset.new_data Demo.five)) as Hidx
    by (vm_compute; split; [discriminate|reflexivity]).
  split; [exact Hidx|].
  destruct (@getitem_folds_pipeline Z unit unit Demo.single Demo.five 1 (Z.add 1) Hidx)
    as (x & Hx & Hget & _).
  exists x. split; [exact Hx | exact Hget].
Defined.

(** C9. For a dataset of length [n], [__getitem__(idx)] raises exactly
    when [idx >= n] or [idx < -n], and then it raises [IndexError]; for
    [-n <= idx < 0] it returns the record stored at position [n + idx]
    with the registered transforms applied to it from left to right. *)
Theorem getitem_index_range {A L V : Type}
    (self : MapDataset.t A L V) (idx : Z) :
  let n := MapDataset.__len__ self in
  ((exists e, MapDataset.__getitem__ self idx = Raise e)
   <-> (n <= idx \/ idx < - n))
  /\ (n <= idx \/ idx < - n ->
      MapDataset.__getitem__ self idx = Raise IndexError)
  /\ (- n <= idx < 0 ->
      exists x,
        MapDataset.new_data self !! Z.to_nat (n + idx) = Some x
        /\ MapDataset.__getitem__ self idx
           = Ok (fold_left (fun d fn => fn d)
                           (MapDataset._transform_pipline self) x)).
Proof.
  intros n. unfold MapDataset.__len__ in n.
  assert (n <= idx \/ idx < - n ->
          MapDataset.__getitem__ self idx = Raise IndexError) as Hout.
  { intros Ho. rewrite __getitem___eq, getitem_out_of_range; done. }
  assert (- n <= idx < 0 ->
      exists x,
        MapDataset.new_data self !! Z.to_nat (n + idx) = Some x
        /\ MapDataset.__getitem__ self idx
           = Ok (fold_left (fun d fn => fn d)
                           (MapDataset._transform_pipline self) x))
    as Hneg.
  { intros Hi. destruct (getitem_negative (MapDataset.new_data self) idx Hi)
      as (x & Hx & Hget).
    exists x. split; [done|]. rewrite __getitem___eq, Hget, fmap_Ok.
    unfold MapDataset._transform. by rewrite run_pipline_fold. }
  split; [|split; done].
  split; [|intros Ho; eexists; by apply Hout].
  intros [e He].
  destruct (Z.le_gt_cases n idx) as [?|Hlt]; [by left|].
  destruct (Z.lt_ge_cases idx (- n)) as [?|Hge]; [by right|].
  exfalso. destruct (Z.lt_ge_cases idx 0) as [Hn|Hn].
  - destruct Hneg as (x & _ & Hx); [lia|]. congruence.
  - destruct (getitem_nonneg (MapDataset.new_data self) idx) as (x & _ & Hx);
      [fold n; lia|].
    rewrite __getitem___eq, Hx in He. done.
Qed.

Lemma getitem_index_range_witness :
  MapDataset.__getitem__ Demo.five_shifted 5 = Raise IndexError
  /\ MapDataset.__getitem__ Demo.five_shifted (-6) = Raise IndexError
  /\ MapDataset.__getitem__ Demo.five_shifted (-1) = Ok 150.
Proof.
  pose proof (@getitem_index_range Z unit unit Demo.five_shifted 5)
    as (_ & Hhigh & _).
  pose proof (@getitem_index_range Z unit unit Demo.five_shifted (-6))
    as (_ & Hlow & _).
  pose proof (@getitem_index_range Z unit unit Demo.five_shifted (-1))
    as (_ & _ & Hneg).
  split; [apply Hhigh; left; vm_compute; discriminate|].
  split; [apply Hlow; right; vm_compute; reflexivity|].
  destruct Hneg as (x & Hx & Hget);
    [vm_compute; split; [discriminate|reflexivity]|].
  rewrite Hget. vm_compute in Hx. injection Hx as <-. reflexivity.
Defined.

(** C4. For a deterministic predicate, [filter] with [num_workers = k > 0]
    (contiguous shards filtered one by one on copies of the dataset and
    joined in rank order) returns the same dataset as [filter] with
    [num_workers = 0]: the records that satisfy the predicate, in their
    stored order. *)
Theorem filter_workers_agree {A L V : Type} {D : dist}
    (self : MapDataset.t A L V) (fn : A -> bool) (k : Z) :
  0 < k ->
  MapDataset.filter self fn k = MapDataset.filter self fn 0
  /\ exists s,
       MapDataset.filter self fn k = Ok s
       /\ MapDataset.new_data s = List.filter fn (MapDataset.new_data self).
Proof.
  intros Hk. rewrite filter_workers by done. rewrite filter_sequential.
  split; [done|]. eexists. split; [reflexivity|done].
Qed.

Lemma filter_workers_agree_witness :
  0 < 3
  /\ MapDataset.filter (D := Demo.single) Demo.five (Z.ltb 15) 3
     = MapDataset.filter (D := Demo.single) Demo.five (Z.ltb 15) 0.
Proof.
  assert (0 < 3) as Hk by lia. split; [exact Hk|].
  exact (proj1 (@filter_workers_agree Z unit unit Demo.single Demo.five
                  (Z.ltb 15) 3 Hk)).
Defined.

(** C10. [filter] evaluates its predicate on the stored records, whatever
    transforms are registered, and keeps the stored records that satisfy
    it; [filter] and [shard] replace the stored records only: whenever
    they return, the transform pipeline, [label_list] and [vocab_info]
    (and [data]) are as they were.  [shard] returns for every
    [num_shards] other than zero, under the striped policy as long as a
    float can hold [num_shards]. *)
Theorem filter_shard_frame {A L V : Type} {D : dist}
    (self : MapDataset.t A L V) (fn : A -> bool) (num_workers : Z)
    (num_shards index : option Z) (contiguous : bool) :
  0 <= num_workers ->
  (exists s,
     MapDataset.filter self fn num_workers = Ok s
     /\ MapDataset.new_data s = List.filter fn (MapDataset.new_data self)
     /\ MapDataset._transform_pipline s = MapDataset._transform_pipline self
     /\ MapDataset.label_list s = MapDataset.label_list self
     /\ MapDataset.vocab_info s = MapDataset.vocab_info self
     /\ MapDataset.data s = MapDataset.data self)
  /\ (forall s,
        MapDataset.shard self num_shards index contiguous = Ok s ->
        MapDataset._transform_pipline s = MapDataset._transform_pipline self
        /\ MapDataset.label_list s = MapDataset.label_list self
        /\ MapDataset.vocab_info s = MapDataset.vocab_info self
        /\ MapDataset.data s = MapDataset.data self)
  /\ (default get_world_size num_shards <> 0 ->
      contiguous = true
      \/ Z.abs (default get_world_size num_shards) < float_limit ->
      exists s, MapDataset.shard self num_shards index contiguous = Ok s).
Proof.
  intros Hw. split; [|split].
  - exists (MapDataset.set_new_data self
              (List.filter fn (MapDataset.new_data self))).
    split; [|done].
    destruct (Z.eq_dec num_workers 0) as [->|?].
    + apply filter_sequential.
    + apply filter_workers. lia.
  - intros s. unfold MapDataset.shard, floordiv, modulo.
    destruct contiguous.
    + destruct (_ =? 0); [done|]. simpl. by intros [= <-].
    + destruct (truediv_defined _) as [[]|e]; [|done]. simpl. by intros [= <-].
  - intros Hn Hlim. unfold MapDataset.shard, floordiv, modulo.
    destruct contiguous.
    + destruct (Z.eqb_spec (default get_world_size num_shards) 0) as [?|_];
        [done|]. simpl. by eexists.
    + destruct Hlim as [?|Hlim]; [done|].
      rewrite truediv_defined_Ok by done. simpl. by eexists.
Qed.

Lemma filter_shard_frame_witness :
  0 <= 2
  /\ (exists s,
        MapDataset.filter (D := Demo.single) Demo.five_shifted (Z.ltb 15) 2
        = Ok s
        /\ MapDataset.new_data s = [20; 30; 40; 50])
  /\ exists s,
       MapDataset.shard (D := Demo.single) Demo.five_shifted (Some 2) (Some 0)
                        false = Ok s.
Proof.
  assert (0 <= 2) as Hw by lia.
  split; [exact Hw|].
  destruct (@filter_shard_frame Z unit unit Demo.single Demo.five_shifted
              (Z.ltb 15) 2 (Some 2) (Some 0) false Hw)
    as [(s & Hs & Hd & _) [_ Hshard]].
  split; [exists s; split; [exact Hs | exact Hd]|].
  apply Hshard; [simpl; lia|]. right. vm_compute. reflexivity.
Defined.

(** ** IterDataset *)

Section IterDatasetFacts.
Context {A Pred St L V : Type} {D : dist}.
Variable call : Pred -> IterDataset.arg A Pred -> bool.
Implicit Types (self : IterDataset.t A Pred St L V) (examples : list A).

Lemma generator_induction (P : generator A St -> Prop) :
  (forall ending, P (Exhausted ending)) ->
  (forall x resume,
     (forall st, P (snd (resume st))) -> P (Suspended x resume)) ->
  forall g, P g.
Proof.
  intros Hend Hyield. fix IH 1. intros [ending|x resume].
  - apply Hend.
  - apply Hyield. intros st. apply IH.
Qed.

Lemma exhaust_hand_out examples ending st :
  exhaust (St:=St) (hand_out examples ending) st = (st, (examples, ending)).
Proof.
  induction examples as [|x examples IH]; [done|]. simpl. by rewrite IH.
Qed.

Lemma draw_start (src : IterDataset.source A St) st :
  Spec.draw src st = let '(st', g) := Spec.start src st in exhaust g st'.
Proof.
  destruct src as [f|l|f]; simpl; [done| |done]. by rewrite exhaust_hand_out.
Qed.

Lemma passes_filter_test self num_samples :
  IterDataset.passes call self num_samples
  = if Spec.filter_test call self
    then IterDataset._shard_filter self num_samples
    else Ok false.
Proof. done. Qed.

(** The condition of the loop does not raise when the shard predicate
    does not. *)
Lemma passes_total self :
  (forall p, exists b, IterDataset._shard_filter self p = Ok b) ->
  forall p, exists b, IterDataset.passes call self p = Ok b.
Proof.
  intros Hshard p. rewrite passes_filter_test.
  destruct (Spec.filter_test call self); [apply Hshard|by exists false].
Qed.

(** As long as the condition of the loop does not raise, the loop asks
    the generator for all its items: it does what the loop over the list
    of these items does. *)
Lemma traverse_exhaust self num_samples g st :
  (forall p, exists b, IterDataset.passes call self p = Ok b) ->
  IterDataset.traverse call self num_samples g st
  = let '(st', (examples, ending)) := exhaust g st in
    (st', IterDataset.loop call self num_samples examples ending).
Proof.
  intros Hp. revert num_samples st.
  induction g as [ending|x resume IH] using generator_induction;
    intros p st; [done|].
  simpl. destruct (Hp p) as [b Hb]. rewrite Hb. specialize (IH st).
  destruct (resume st) as [st1 g1]. simpl in IH. rewrite IH.
  destruct (exhaust g1 st1) as [st2 [examples ending]].
  simpl. rewrite Hb. destruct b; [|done].
  by destruct (IterDataset.loop call self (p + 1) examples ending).
Qed.

Lemma __iter___draw self st :
  (forall p, exists b, IterDataset.passes call self p = Ok b) ->
  IterDataset.__iter__ call self st
  = let '(st', (examples, ending)) := Spec.draw (IterDataset.data self) st in
    (st', IterDataset.loop call self 0 examples ending).
Proof.
  intros Hp. unfold IterDataset.__iter__, Spec.draw.
  destruct (IterDataset.data self) as [f|l|f]; [|done|];
    destruct (f st) as [st1 g]; by apply traverse_exhaust.
Qed.

(** When the condition of the loop raises, the loop stops at the first
    sample, and the generator stays suspended there. *)
Lemma traverse_raises self num_samples g st e :
  (forall p, IterDataset.passes call self p = Raise e) ->
  IterDataset.traverse call self num_samples g st
  = (st, ([], match g with
              | Exhausted ending => ending
              | Suspended _ _ => Some e
              end)).
Proof. intros Hp. destruct g as [ending|x resume]; simpl; by rewrite ?Hp. Qed.

Lemma sharder_defined num_shards index num_samples :
  num_shards <> 0 ->
  IterDataset.sharder num_shards index num_samples
  = Ok (num_samples mod num_shards =? index).
Proof.
  intros Hn. unfold IterDataset.sharder, modulo.
  destruct (Z.eqb_spec num_shards 0) as [?|_]; [done|]. simpl.
  by destruct (_ =? index).
Qed.

(** With [num_shards = 0] the installed predicate raises on every
    position. *)
Lemma sharder_zero_raises index num_samples :
  IterDataset.sharder 0 index num_samples = Raise ZeroDivisionError.
Proof. done. Qed.

(** When the filter test fails nothing is yielded, whatever the
    samples. *)
Lemma loop_filter_fails self num_samples examples ending :
  Spec.filter_test call self = false ->
  IterDataset.loop call self num_samples examples ending = ([], ending).
Proof.
  intros Hg. revert num_samples.
  induction examples as [|x examples IH]; intros p; [done|].
  simpl. rewrite passes_filter_test, Hg. apply IH.
Qed.

(** With a positional predicate that never raises, the loop keeps the
    samples whose position is selected. *)
Lemma loop_positions self (keep : Z -> bool) num_samples examples ending :
  Spec.filter_test call self = true ->
  (forall p, IterDataset._shard_filter self p = Ok (keep p)) ->
  IterDataset.loop call self num_samples examples ending
  = (IterDataset.emit self
       <$> Spec.select (fun p _ => keep p) id num_samples examples,
     ending).
Proof.
  intros Hg Hk. revert num_samples.
  induction examples as [|x examples IH]; intros p; [done|].
  simpl. rewrite passes_filter_test, Hg, Hk, IH. by destruct (keep p).
Qed.

(** The filter half of the condition never looks at the sample: a
    dataset whose shard predicate lets everything pass yields all the
    samples of its source or none of them. *)
Lemma loop_all_or_nothing self num_samples examples ending :
  (forall p, IterDataset._shard_filter self p = Ok true) ->
  IterDataset.loop call self num_samples examples ending
  = (if Spec.filter_test call self
     then IterDataset.emit self <$> examples else [],
     ending).
Proof.
  intros Hshard. destruct (Spec.filter_test call self) eqn:Hg.
  - rewrite (loop_positions self (fun _ => true)) by done.
    by rewrite select_map, list_fmap_id.
  - by apply loop_filter_fails.
Qed.

End IterDatasetFacts.

(** C1 (the code departs from it). [__iter__] hands the filter pipeline
    itself, not the sample, to the registered functions
    ([self._filter(self._filter_pipline)]): over [[1, 2, 3]] with the
    filter [lambda x: x != 2] every sample is yielded, the sample [2]
    included, on which the predicate is false. *)
Theorem iter_filter_tests_pipeline :
  IterDataset.__iter__ Demo.call Demo.one_two_three tt
  = (tt, ([1; 2; 3], None))
  /\ Demo.call (Demo.NotEqual 2) (IterDataset.Sample 2) = false.
Proof. split; reflexivity. Qed.

(** C5. After [shard(num_shards, index)] with [num_shards] not zero, the
    installed predicate passes exactly the positions [p] with
    [p % num_shards == index]; iteration counts every sample drawn from
    the source from zero and yields (transformed) those at the passing
    positions, provided the filter condition holds; over a ten-sample
    source with an empty filter pipeline, [shard(2, 0)] yields the samples
    at positions 0, 2, 4, 6, 8; and a later [shard] call replaces the
    predicate of an earlier one. *)
Theorem iter_shard_positions {A Pred St L V : Type} {D : dist}
    (call : Pred -> IterDataset.arg A Pred -> bool)
    (self : IterDataset.t A Pred St L V) (num_shards index : option Z)
    (st st' : St) (examples : list A) :
  let n := default get_world_size num_shards in
  let i := default get_rank index in
  let sharded := IterDataset.shard self num_shards index in
  n <> 0 ->
  Spec.draw (IterDataset.data self) st = (st', (examples, None)) ->
  (forall p, IterDataset._shard_filter sharded p = Ok (p mod n =? i))
  /\ IterDataset.__iter__ call sharded st
     = (st', (if Spec.filter_test call self
              then IterDataset.emit self
                     <$> Spec.select (fun p _ => p mod n =? i) id 0 examples
              else [],
              None))
  /\ (forall x0 x1 x2 x3 x4 x5 x6 x7 x8 x9,
        examples = [x0; x1; x2; x3; x4; x5; x6; x7; x8; x9] ->
        IterDataset._filter_pipline self = [] ->
        IterDataset.__iter__ call (IterDataset.shard self (Some 2) (Some 0)) st
        = (st', (IterDataset.emit self <$> [x0; x2; x4; x6; x8], None)))
  /\ (forall num_shards' index',
        IterDataset.shard (IterDataset.shard self num_shards' index')
                          num_shards index
        = sharded).
Proof.
  intros n i sharded Hn Hdraw.
  assert (forall p, IterDataset._shard_filter sharded p = Ok (p mod n =? i))
    as Hpred by (intros p; by apply sharder_defined).
  split; [done|]. split; [|split].
  - rewrite __iter___draw
      by (apply passes_total; intros p; rewrite Hpred; by eexists).
    change (IterDataset.data sharded) with (IterDataset.data self).
    rewrite Hdraw.
    destruct (Spec.filter_test call self) eqn:Hg.
    + by rewrite (loop_positions call sharded (fun p => p mod n =? i)).
    + by rewrite loop_filter_fails.
  - intros x0 x1 x2 x3 x4 x5 x6 x7 x8 x9 -> Hnil.
    rewrite __iter___draw
      by (apply passes_total; intros p; simpl;
          rewrite sharder_defined by done; by eexists).
    simpl. rewrite Hdraw.
    rewrite (loop_positions call _ (fun p => p mod 2 =? 0)).
    + done.
    + unfold Spec.filter_test. simpl. by rewrite Hnil.
    + intros p. by apply sharder_defined.
  - done.
Qed.

Lemma iter_shard_positions_witness :
  default (get_world_size (dist := Demo.single)) (Some 2) <> 0
  /\ IterDataset.__iter__ Demo.call
       (IterDataset.shard (D := Demo.single) Demo.ten (Some 2) (Some 0)) tt
     = (tt, ([100; 102; 104; 106; 108], None)).
Proof.
  assert (default (get_world_size (dist := Demo.single)) (Some 2) <> 0)
    as Hn by (simpl; lia).
  split; [exact Hn|].
  exact (proj1 (proj2 (@iter_shard_positions Z Demo.pred unit unit unit
    Demo.single Demo.call Demo.ten (Some 2) (Some 0) tt tt
    [100; 101; 102; 103; 104; 105; 106; 107; 108; 109] Hn eq_refl))).
Defined.

(** ** DatasetBuilder *)

Import DatasetBuilder.

(** *** The state monad *)

Section MonadFacts.
Context {X Y : Type}.

Lemma run_bind (m : M X) (k : X -> M Y) (h : heap) :
  (m ≫= k) h = match m h with
               | (h', Ok x) => k x h'
               | (h', Raise e) => (h', Raise e)
               end.
Proof. done. Qed.

Lemma run_bind_Ok (m : M X) (k : X -> M Y) (h h' : heap) (x : X) :
  m h = (h', Ok x) -> (m ≫= k) h = k x h'.
Proof. intros Hm. by rewrite run_bind, Hm. Qed.

Lemma run_ret (x : X) (h : heap) : (mret x : M X) h = (h, Ok x).
Proof. done. Qed.

End MonadFacts.

Lemma for_each_app {X} (xs ys : list X) (body : X -> M unit) (h h' : heap) :
  for_each xs body h = (h', Ok tt) ->
  for_each (xs ++ ys) body h = for_each ys body h'.
Proof.
  revert h. induction xs as [|x xs IH]; intros h Hxs; simpl in *.
  - by injection Hxs as ->.
  - rewrite run_bind in *. destruct (body x h) as [h1 [[]|e]]; [|done].
    by apply IH.
Qed.

(** *** Reading and writing objects *)

Section ObjectFacts.
Implicit Types (h : heap) (r q : loc) (d : gmap string val).

Lemma deref_Some h l o : h !! l = Some o -> deref l h = (h, Ok o).
Proof. intros Hl. unfold deref. by rewrite Hl. Qed.

Lemma keys_dict h r d : h !! r = Some (ODict d) -> keys r h = (h, Ok d).
Proof.
  intros Hr. unfold keys. by rewrite (run_bind_Ok _ _ _ _ _ (deref_Some _ _ _ Hr)).
Qed.

Lemma dict_get_dict h r d key :
  h !! r = Some (ODict d) ->
  dict_get r key h = (h, Ok (default (VAtom ANone) (key ≫= fun k => d !! k))).
Proof.
  intros Hr. unfold dict_get.
  by rewrite (run_bind_Ok _ _ _ _ _ (keys_dict _ _ _ Hr)).
Qed.

Lemma subscript_Some h r d key v :
  h !! r = Some (ODict d) -> d !! key = Some v ->
  subscript r key h = (h, Ok v).
Proof.
  intros Hr Hk. unfold subscript.
  rewrite (run_bind_Ok _ _ _ _ _ (deref_Some _ _ _ Hr)). by rewrite Hk.
Qed.

Lemma dict_setitem_dict h r d key v :
  h !! r = Some (ODict d) ->
  dict_setitem r key v h = (<[r:=ODict (<[key:=v]> d)]> h, Ok tt).
Proof.
  intros Hr. unfold dict_setitem.
  by rewrite (run_bind_Ok _ _ _ _ _ (deref_Some _ _ _ Hr)).
Qed.

End ObjectFacts.

(** *** The label dictionary *)

Section LabelDict.
Implicit Types (ll : list string) (s : string) (i : nat).

Lemma build_from ll (base : gmap string nat) (start : nat) s :
  fold_left (fun label_dict '(i, label) => <[label:=i]> label_dict)
            (zip (seq start (length ll)) ll) base !! s
  = match last (filter (fun '(i, label) => label = s)
                       (zip (seq start (length ll)) ll)) with
    | Some (i, _) => Some i
    | None => base !! s
    end.
Proof.
  revert base start. induction ll as [|label ll IH]; intros base start; [done|].
  simpl. rewrite IH. rewrite filter_cons. simpl.
  destruct (decide (label = s)) as [->|Hne].
  - rewrite last_cons. destruct (last _) as [[i l]|]; [done|].
    by rewrite lookup_insert_eq.
  - destruct (last _) as [[i l]|]; [done|]. by rewrite lookup_insert_ne.
Qed.

(** The entry of a label is a position at which it stands in
    [label_list]. *)
Lemma build_label_dict_Some ll s i :
  build_label_dict ll !! s = Some i -> ll !! i = Some s.
Proof.
  unfold build_label_dict. rewrite build_from, lookup_empty.
  destruct (last _) as [[j l]|] eqn:Hlast; [|done].
  intros [= ->]. apply last_Some_elem_of in Hlast.
  apply list_elem_of_filter in Hlast as [-> Hin].
  apply list_elem_of_lookup in Hin as [n Hn].
  apply lookup_zip_Some in Hn as [Hseq Hl].
  apply lookup_seq in Hseq as [-> _]. done.
Qed.

(** Every label of [label_list] has an entry, no other string has. *)
Lemma build_label_dict_None ll s :
  build_label_dict ll !! s = None <-> s ∉ ll.
Proof.
  unfold build_label_dict. rewrite build_from, lookup_empty. split.
  - destruct (last _) as [[j l]|] eqn:Hlast; [done|]. intros _ Hin.
    apply last_None in Hlast.
    apply list_elem_of_lookup in Hin as [n Hn].
    assert ((n, s) ∈ filter (fun '(i, label) => label = s)
                        (zip (seq 0 (length ll)) ll)) as Hf.
    { apply list_elem_of_filter. split; [done|].
      apply list_elem_of_lookup. exists n. apply lookup_zip_Some.
      split; [|done]. apply lookup_seq. split; [done|].
      by apply lookup_lt_Some in Hn. }
    rewrite Hlast in Hf. by apply not_elem_of_nil in Hf.
  - intros Hnin. destruct (last _) as [[j l]|] eqn:Hlast; [|done].
    exfalso. apply Hnin. apply last_Some_elem_of in Hlast.
    apply list_elem_of_filter in Hlast as [-> Hin].
    apply list_elem_of_lookup in Hin as [n Hn].
    apply lookup_zip_Some in Hn as [_ Hl].
    eapply list_elem_of_lookup_2. done.
Qed.

Lemma build_label_dict_elem ll s :
  s ∈ ll -> exists i, build_label_dict ll !! s = Some i /\ ll !! i = Some s.
Proof.
  intros Hin. destruct (build_label_dict ll !! s) as [i|] eqn:Hd.
  - exists i. split; [done|]. by apply build_label_dict_Some.
  - by apply build_label_dict_None in Hd.
Qed.

(** One more label at the end of the list is one more assignment. *)
Lemma build_label_dict_snoc ll s :
  build_label_dict (ll ++ [s]) = <[s:=length ll]> (build_label_dict ll).
Proof.
  unfold build_label_dict.
  rewrite length_app, Nat.add_1_r, seq_S. simpl.
  rewrite zip_with_app by (by rewrite length_seq).
  by rewrite fold_left_app.
Qed.

(** The entry of a label is the last position where it stands. *)
Lemma build_label_dict_last ll s i :
  build_label_dict ll !! s = Some i
  <-> ll !! i = Some s /\ forall j : nat, (i < j)%nat -> ll !! j <> Some s.
Proof.
  revert i. induction ll as [|x ll IH] using rev_ind; intros i.
  - unfold build_label_dict. simpl. rewrite lookup_empty, lookup_nil.
    split; [done|by intros [? _]].
  - rewrite build_label_dict_snoc. destruct (decide (x = s)) as [->|Hne].
    + rewrite lookup_insert_eq. split.
      * intros [= <-]. split; [by apply list_lookup_middle|].
        intros j Hj. rewrite lookup_ge_None_2; [done|].
        rewrite length_app. simpl. lia.
      * intros [Hi Hlast]. f_equal.
        destruct (Nat.lt_trichotomy i (length ll)) as [Hlt|[->|Hgt]]; [|done|].
        -- exfalso. apply (Hlast (length ll) Hlt). by apply list_lookup_middle.
        -- apply lookup_lt_Some in Hi. rewrite length_app in Hi. simpl in Hi. lia.
    + rewrite lookup_insert_ne by done. rewrite IH. split.
      * intros [Hi Hlast]. split.
        -- by apply lookup_app_l_Some.
        -- intros j Hj. destruct (decide (j < length ll)%nat) as [Hlt|Hge].
           ++ rewrite lookup_app_l by done. by apply Hlast.
           ++ intros Hj'. apply lookup_lt_Some in Hj' as Hlen.
              rewrite length_app in Hlen. simpl in Hlen.
              assert (j = length ll) as -> by lia.
              rewrite list_lookup_middle in Hj' by done. congruence.
      * intros [Hi Hlast].
        assert (i < length ll)%nat as Hlt.
        { apply lookup_lt_Some in Hi as Hlen. rewrite length_app in Hlen.
          simpl in Hlen. destruct (decide (i = length ll)) as [->|?]; [|lia].
          rewrite list_lookup_middle in Hi by done. congruence. }
        rewrite lookup_app_l in Hi by done. split; [done|].
        intros j Hj Hj'. apply (Hlast j Hj). by apply lookup_app_l_Some.
Qed.

(** A listed label has an entry: its index. *)
Lemma build_label_dict_index ll s :
  s ∈ ll ->
  exists i, build_label_dict ll !! s = Some i /\ Spec.index_in ll s i.
Proof.
  intros Hin. destruct (build_label_dict_elem ll s Hin) as (i & Hi & _).
  exists i. split; [done|]. by apply build_label_dict_last.
Qed.

End LabelDict.

(** *** Converting the labels of one record *)

Lemma getitem_middle {X} (pre post : list X) (x : X) :
  getitem (pre ++ x :: post) (Z.of_nat (length pre)) = Ok x.
Proof.
  destruct (getitem_nonneg (pre ++ x :: post) (Z.of_nat (length pre)))
    as (y & Hy & ->).
  - unfold len. rewrite length_app. simpl. lia.
  - rewrite Nat2Z.id, list_lookup_middle in Hy by done. congruence.
Qed.

Section ConvertFacts.
Variable label_dict : gmap string nat.
Implicit Types (h : heap) (r q : loc) (d : gmap string val) (col s : string).

Lemma label_column_dict h r d :
  h !! r = Some (ODict d) -> label_column r h = (h, Ok (Spec.column_of d)).
Proof.
  intros Hr. unfold label_column, Spec.column_of.
  rewrite (run_bind_Ok _ _ _ _ _ (keys_dict _ _ _ Hr)).
  by repeat case_bool_decide.
Qed.

Lemma convert_scalar h r d col s :
  h !! r = Some (ODict d) -> d !! col = Some (VAtom (AStr s)) ->
  convert_labels label_dict r col h
  = match label_dict !! s with
    | Some i => (<[r:=ODict (<[col:=VAtom (AInt (Z.of_nat i))]> d)]> h, Ok tt)
    | None => (h, Raise KeyError)
    end.
Proof.
  intros Hr Hc. unfold convert_labels.
  rewrite (run_bind_Ok _ _ _ _ _ (subscript_Some _ _ _ _ _ Hr Hc)). simpl.
  rewrite run_bind, run_ret.
  rewrite (run_bind_Ok _ _ _ _ _ (subscript_Some _ _ _ _ _ Hr Hc)).
  rewrite run_bind. simpl. destruct (label_dict !! s) as [i|]; [|done].
  rewrite run_ret. by apply dict_setitem_dict.
Qed.

Lemma rewriting_step h r d col q positions s todo :
  h !! r = Some (ODict d) -> d !! col = Some (VRef q) -> r <> q ->
  let idx := Z.of_nat (length positions) in
  (v ← subscript r col;
   label ← seq_getitem v idx;
   i ← label_index label_dict label;
   target ← subscript r col;
   seq_setitem target idx (AInt i)) (Spec.rewriting h q positions (s :: todo))
  = match label_dict !! s with
    | Some i => (Spec.rewriting h q (positions ++ [i]) todo, Ok tt)
    | None => (Spec.rewriting h q positions (s :: todo), Raise KeyError)
    end.
Proof.
  intros Hr Hc Hne idx. set (hk := Spec.rewriting h q positions (s :: todo)).
  assert (hk !! r = Some (ODict d)) as Hr'
    by (unfold hk, Spec.rewriting; by rewrite lookup_insert_ne).
  assert (hk !! q = Some (OList (((fun i => AInt (Z.of_nat i)) <$> positions)
                                 ++ (AStr <$> s :: todo)))) as Hq
    by (unfold hk, Spec.rewriting; by rewrite lookup_insert_eq).
  rewrite (run_bind_Ok _ _ _ _ _ (subscript_Some _ _ _ _ _ Hr' Hc)).
  unfold seq_getitem at 1.
  rewrite run_bind, (run_bind_Ok _ _ _ _ _ (deref_Some _ _ _ Hq)).
  unfold lift, idx. rewrite fmap_cons.
  replace (length positions)
    with (length ((fun i => AInt (Z.of_nat i)) <$> positions))
    by apply length_fmap.
  rewrite getitem_middle. rewrite run_bind. simpl.
  destruct (label_dict !! s) as [i|]; [|done]. rewrite run_ret.
  rewrite (run_bind_Ok _ _ _ _ _ (subscript_Some _ _ _ _ _ Hr' Hc)).
  unfold seq_setitem. rewrite (run_bind_Ok _ _ _ _ _ (deref_Some _ _ _ Hq)).
  rewrite fmap_cons.
  destruct (Z.ltb_spec (Z.of_nat (length ((fun i => AInt (Z.of_nat i)) <$> positions))) 0)
    as [?|_]; [lia|].
  destruct (Z.leb_spec
              (len (((fun i => AInt (Z.of_nat i)) <$> positions)
                    ++ AStr s :: (AStr <$> todo)))
              (Z.of_nat (length ((fun i => AInt (Z.of_nat i)) <$> positions))))
    as [Hle|_].
  { unfold len in Hle. rewrite length_app in Hle. simpl in Hle. lia. }
  simpl. unfold store, hk, Spec.rewriting. rewrite insert_insert_eq.
  rewrite Nat2Z.id, insert_app_r_alt, Nat.sub_diag by done.
  rewrite fmap_app, <- app_assoc. done.
Qed.

Lemma rewriting_loop h r d col q positions todo :
  h !! r = Some (ODict d) -> d !! col = Some (VRef q) -> r <> q ->
  let body := fun label_idx =>
    v ← subscript r col;
    label ← seq_getitem v label_idx;
    i ← label_index label_dict label;
    target ← subscript r col;
    seq_setitem target label_idx (AInt i) in
  exists h',
    for_each (Z.of_nat <$> seq (length positions) (length todo)) body
             (Spec.rewriting h q positions todo)
    = (h', match mapM (fun s => label_dict !! s) todo with
           | Some _ => Ok tt
           | None => Raise KeyError
           end)
    /\ forall more, mapM (fun s => label_dict !! s) todo = Some more ->
                    h' = Spec.rewriting h q (positions ++ more) [].
Proof.
  intros Hr Hc Hne body. revert positions.
  induction todo as [|s todo IH]; intros positions.
  - eexists. split; [done|]. intros more [= <-]. by rewrite app_nil_r.
  - simpl. rewrite run_bind.
    pose proof (rewriting_step h r d col q positions s todo Hr Hc Hne) as Hs.
    simpl in Hs. unfold body at 1. rewrite Hs.
    destruct (label_dict !! s) as [i|] eqn:Hi; simpl.
    + destruct (IH (positions ++ [i])) as (h' & Hrun & Hfin).
      rewrite length_app, Nat.add_1_r in Hrun. exists h'.
      destruct (mapM _ todo) as [more|]; simpl; (split; [exact Hrun|]).
      * intros ? [= <-]. rewrite (Hfin more eq_refl). by rewrite <- app_assoc.
      * done.
    + eexists. split; [done|]. done.
Qed.

Lemma convert_sequence h r d col q ss :
  h !! r = Some (ODict d) -> d !! col = Some (VRef q) ->
  h !! q = Some (OList (AStr <$> ss)) ->
  exists h',
    convert_labels label_dict r col h
    = (h', match mapM (fun s => label_dict !! s) ss with
           | Some _ => Ok tt
           | None => Raise KeyError
           end)
    /\ forall positions, mapM (fun s => label_dict !! s) ss = Some positions ->
                         h' = Spec.rewriting h q positions [].
Proof.
  intros Hr Hc Hq. assert (r <> q) as Hne by congruence.
  unfold convert_labels.
  rewrite (run_bind_Ok _ _ _ _ _ (subscript_Some _ _ _ _ _ Hr Hc)).
  unfold is_list_or_tuple.
  rewrite run_bind, (run_bind_Ok _ _ _ _ _ (deref_Some _ _ _ Hq)), run_ret.
  rewrite (run_bind_Ok _ _ _ _ _ (subscript_Some _ _ _ _ _ Hr Hc)).
  unfold seq_len.
  rewrite run_bind, (run_bind_Ok _ _ _ _ _ (deref_Some _ _ _ Hq)), run_ret.
  rewrite range_len, length_fmap.
  pose proof (rewriting_loop h r d col q [] ss Hr Hc Hne) as Hloop.
  assert (Spec.rewriting h q [] ss = h) as Hid
    by (unfold Spec.rewriting; simpl; by apply insert_id).
  simpl in Hloop. rewrite Hid in Hloop. exact Hloop.
Qed.

End ConvertFacts.

(** *** Converting the records of a source, one after the other *)

Section ProcessFacts.
Variable label_list : list string.
Implicit Types (h : heap) (x y : Spec.labelled) (xs : list Spec.labelled).

Lemma known_positions x :
  Spec.known label_list x ->
  exists positions,
    mapM (fun s => build_label_dict label_list !! s) (Spec.labels_of (Spec.value x))
    = Some positions
    /\ Forall2 (Spec.index_in label_list) (Spec.labels_of (Spec.value x)) positions.
Proof.
  unfold Spec.known. generalize (Spec.labels_of (Spec.value x)) as ss.
  induction 1 as [|s ss Hs _ (positions & Hm & Hp)].
  - exists []. split; [done|constructor].
  - destruct (build_label_dict_index label_list s Hs) as (i & Hi & Hl).
    exists (i :: positions). split.
    + simpl. rewrite Hi. simpl. by rewrite Hm.
    + by constructor.
Qed.

Lemma unknown_positions x :
  ~ Spec.known label_list x ->
  mapM (fun s => build_label_dict label_list !! s) (Spec.labels_of (Spec.value x))
  = None.
Proof.
  intros Hk. apply mapM_None. apply not_Forall_Exists in Hk; [|apply _].
  eapply Exists_impl; [exact Hk|]. simpl. intros s Hs.
  by apply build_label_dict_None.
Qed.

(** One record whose labels are all known: the conversion succeeds,
    leaves the record mapped, and writes to one object only. *)
Lemma convert_known h x :
  Spec.holds h x -> Spec.known label_list x ->
  exists h',
    convert_labels (build_label_dict label_list) (Spec.rec x) (Spec.column x) h
    = (h', Ok tt)
    /\ Spec.mapped label_list h' x
    /\ forall l, l <> Spec.touched x -> h' !! l = h !! l.
Proof.
  intros [Hr Hv] Hk. destruct (known_positions x Hk) as (positions & Hm & Hp).
  unfold Spec.mapped, Spec.touched. destruct (Spec.value x) as [s|q ss].
  - destruct Hv as [Hc _]. simpl in Hm, Hp.
    destruct (build_label_dict label_list !! s) as [i|] eqn:Hi; [|done].
    injection Hm as <-. apply Forall2_cons_1 in Hp as [Hp _].
    eexists. rewrite (convert_scalar _ h _ _ _ s Hr Hc), Hi.
    split; [done|]. split.
    + exists i. by rewrite lookup_insert_eq.
    + intros l Hl. by rewrite lookup_insert_ne.
  - destruct Hv as (Hc & Hq & _). simpl in Hm, Hp.
    destruct (convert_sequence (build_label_dict label_list) h _ _ _ q ss Hr Hc Hq)
      as (h' & Hrun & Hfin).
    rewrite Hm in Hrun. rewrite (Hfin positions Hm) in *.
    eexists. split; [exact Hrun|]. unfold Spec.rewriting. split.
    + exists positions. split; [done|].
      rewrite lookup_insert_ne, lookup_insert_eq, app_nil_r by congruence. done.
    + intros l Hl. by rewrite lookup_insert_ne.
Qed.

(** One record with a label that is not in [label_list]: [KeyError]. *)
Lemma convert_unknown h x :
  Spec.holds h x -> ~ Spec.known label_list x ->
  exists h',
    convert_labels (build_label_dict label_list) (Spec.rec x) (Spec.column x) h
    = (h', Raise KeyError).
Proof.
  intros [Hr Hv] Hk. pose proof (unknown_positions x Hk) as Hm.
  destruct (Spec.value x) as [s|q ss].
  - destruct Hv as [Hc _]. simpl in Hm.
    destruct (build_label_dict label_list !! s) as [i|] eqn:Hi; [done|].
    eexists. by rewrite (convert_scalar _ h _ _ _ s Hr Hc), Hi.
  - destruct Hv as (Hc & Hq & _). simpl in Hm.
    destruct (convert_sequence (build_label_dict label_list) h _ _ _ q ss Hr Hc Hq)
      as (h' & Hrun & _).
    rewrite Hm in Hrun. by exists h'.
Qed.

(** A description stays true when the record's objects are untouched. *)
Lemma holds_frame h h' y :
  Spec.holds h y ->
  h' !! Spec.rec y = h !! Spec.rec y ->
  (forall q ss, Spec.value y = Spec.Sequence q ss -> h' !! q = h !! q) ->
  Spec.holds h' y.
Proof.
  intros [Hr Hv] Hrec Hlist. split; [congruence|].
  destruct (Spec.value y) as [s|q ss]; [done|].
  destruct Hv as (Hc & Hq & Hne). rewrite (Hlist q ss eq_refl). done.
Qed.

Lemma mapped_frame h h' x :
  Spec.mapped label_list h x ->
  h' !! Spec.rec x = h !! Spec.rec x ->
  (forall q ss, Spec.value x = Spec.Sequence q ss -> h' !! q = h !! q) ->
  Spec.mapped label_list h' x.
Proof.
  unfold Spec.mapped. intros Hm Hrec Hlist.
  destruct (Spec.value x) as [s|q ss].
  - destruct Hm as (i & Hi & Hr). exists i. split; [done|congruence].
  - destruct Hm as (positions & Hp & Hr & Hq). exists positions.
    rewrite (Hlist q ss eq_refl). split; [done|]. split; congruence.
Qed.

Lemma lists_cons x xs :
  Spec.lists (x :: xs)
  = match Spec.value x with
    | Spec.Scalar _ => Spec.lists xs
    | Spec.Sequence q _ => q :: Spec.lists xs
    end.
Proof. unfold Spec.lists. simpl. by destruct (Spec.value x). Qed.

Lemma list_in_lists y xs q ss :
  y ∈ xs -> Spec.value y = Spec.Sequence q ss -> q ∈ Spec.lists xs.
Proof.
  intros Hy Hv. unfold Spec.lists. apply list_elem_of_omap.
  exists y. split; [done|]. by rewrite Hv.
Qed.

(** Two described records that are different objects with different
    lists: neither conversion writes to an object of the other. *)
Lemma apart h x y :
  Spec.holds h x -> Spec.holds h y ->
  Spec.rec x <> Spec.rec y ->
  (forall q ss q' ss', Spec.value x = Spec.Sequence q ss ->
                       Spec.value y = Spec.Sequence q' ss' -> q <> q') ->
  Spec.rec y <> Spec.touched x
  /\ forall q' ss', Spec.value y = Spec.Sequence q' ss' -> q' <> Spec.touched x.
Proof.
  intros [Hrx Hvx] [Hry Hvy] Hne Hlists. unfold Spec.touched.
  destruct (Spec.value x) as [s|q ss] eqn:Hx.
  - split; [done|]. intros q' ss' Hy. rewrite Hy in Hvy.
    destruct Hvy as (_ & Hq' & _). congruence.
  - destruct Hvx as (_ & Hq & _). split; [congruence|].
    intros q' ss' Hy. intros ->. by eapply Hlists.
Qed.

End ProcessFacts.

Section ProcessAll.
Variable label_list : list string.
Variable step : loc -> M unit.
Implicit Types (h : heap) (x y : Spec.labelled) (xs : list Spec.labelled).

(** The later records of a source keep their description while an
    earlier one is converted. *)
Lemma holds_after h h1 x xs :
  NoDup (Spec.rec <$> (x :: xs)) -> NoDup (Spec.lists (x :: xs)) ->
  Spec.holds h x -> Forall (Spec.holds h) xs ->
  (forall l, l <> Spec.touched x -> h1 !! l = h !! l) ->
  Forall (Spec.holds h1) xs.
Proof.
  intros Hrecs Hlists Hx Hxs Hframe.
  rewrite fmap_cons in Hrecs. apply NoDup_cons in Hrecs as [Hnin _].
  rewrite lists_cons in Hlists.
  apply Forall_forall. intros y Hy.
  rewrite Forall_forall in Hxs. pose proof (Hxs y Hy) as Hhy.
  destruct (apart h x y Hx Hhy) as [Hrec Hlist].
  - intros Heq. apply Hnin. rewrite Heq. apply list_elem_of_fmap. eauto.
  - intros q ss q' ss' Hvx Hvy ->. rewrite Hvx in Hlists.
    apply NoDup_cons in Hlists as [Hq _]. apply Hq.
    by eapply list_in_lists.
  - apply (holds_frame h); [done|by apply Hframe|].
    intros q ss Hv. apply Hframe. by eapply Hlist.
Qed.

(** An object of one record is none of the objects written to when
    other, separate records are converted. *)
Lemma untouched h x xs :
  Spec.holds h x -> Forall (Spec.holds h) xs ->
  Spec.rec x ∉ Spec.rec <$> xs ->
  (forall q ss, Spec.value x = Spec.Sequence q ss -> q ∉ Spec.lists xs) ->
  (Spec.rec x ∉ Spec.touched <$> xs)
  /\ forall q ss, Spec.value x = Spec.Sequence q ss -> q ∉ Spec.touched <$> xs.
Proof.
  intros Hx Hxs Hrec Hlist. rewrite Forall_forall in Hxs.
  assert (forall y, y ∈ xs ->
            Spec.rec x <> Spec.touched y
            /\ forall q ss, Spec.value x = Spec.Sequence q ss ->
                            q <> Spec.touched y) as Hapart.
  { intros y Hy. apply (apart h y x (Hxs y Hy) Hx).
    - intros Heq. apply Hrec. rewrite <- Heq. apply list_elem_of_fmap. eauto.
    - intros q ss q' ss' Hvy Hvx ->. apply (Hlist q' ss' Hvx).
      by eapply list_in_lists. }
  split.
  - intros Hin. apply list_elem_of_fmap in Hin as (y & Heq & Hy).
    by destruct (Hapart y Hy) as [? _].
  - intros q ss Hv Hin. apply list_elem_of_fmap in Hin as (y & Heq & Hy).
    destruct (Hapart y Hy) as [_ Hq]. by eapply Hq.
Qed.

Lemma process_all xs h :
  NoDup (Spec.rec <$> xs) -> NoDup (Spec.lists xs) ->
  Forall (Spec.holds h) xs -> Forall (Spec.known label_list) xs ->
  (forall x h0, x ∈ xs -> Spec.holds h0 x ->
     step (Spec.rec x) h0
     = convert_labels (build_label_dict label_list) (Spec.rec x) (Spec.column x) h0) ->
  exists h',
    for_each (Spec.rec <$> xs) step h = (h', Ok tt)
    /\ Forall (Spec.mapped label_list h') xs
    /\ forall l, l ∉ Spec.touched <$> xs -> h' !! l = h !! l.
Proof.
  revert h. induction xs as [|x xs IH]; intros h Hrecs Hlists Hh Hk Hstep.
  - exists h. split; [done|]. split; [constructor|done].
  - apply Forall_cons in Hh as [Hx Hxs]. apply Forall_cons in Hk as [Hkx Hkxs].
    destruct (convert_known label_list h x Hx Hkx) as (h1 & Hrun & Hm & Hframe).
    pose proof (holds_after h h1 x xs Hrecs Hlists Hx Hxs Hframe) as Hxs1.
    rewrite fmap_cons in Hrecs. apply NoDup_cons in Hrecs as [Hnin Hrecs].
    assert (NoDup (Spec.lists xs)
            /\ forall q ss, Spec.value x = Spec.Sequence q ss -> q ∉ Spec.lists xs)
      as [Hlists' Hq].
    { rewrite lists_cons in Hlists. destruct (Spec.value x); [done|].
      apply NoDup_cons in Hlists as [? ?]. split; [done|]. by intros ? ? [= <- _]. }
    destruct (IH h1 Hrecs Hlists' Hxs1 Hkxs) as (h' & Hrest & Hms & Hframe').
    { intros y h0 Hy. apply Hstep. by right. }
    destruct (untouched h x xs Hx Hxs Hnin Hq) as [Hrec Hlist].
    exists h'. split; [|split].
    + simpl. rewrite run_bind, (Hstep x h (list_elem_of_here _ _) Hx), Hrun.
      exact Hrest.
    + constructor; [|done]. apply (mapped_frame label_list h1); [done|..].
      * by apply Hframe'.
      * intros q ss Hv. apply Hframe'. by eapply Hlist.
    + intros l Hl. rewrite fmap_cons in Hl. apply not_elem_of_cons in Hl as [? ?].
      rewrite Hframe' by done. by apply Hframe.
Qed.

(** The records before the first one with an unknown label are
    converted, and that one raises [KeyError]. *)
Lemma process_until pre bad post h :
  NoDup (Spec.rec <$> (pre ++ bad :: post)) ->
  NoDup (Spec.lists (pre ++ bad :: post)) ->
  Forall (Spec.holds h) (pre ++ bad :: post) ->
  Forall (Spec.known label_list) pre -> ~ Spec.known label_list bad ->
  (forall x h0, x ∈ pre ++ bad :: post -> Spec.holds h0 x ->
     step (Spec.rec x) h0
     = convert_labels (build_label_dict label_list) (Spec.rec x) (Spec.column x) h0) ->
  exists h1 h2,
    for_each (Spec.rec <$> pre) step h = (h1, Ok tt)
    /\ step (Spec.rec bad) h1 = (h2, Raise KeyError).
Proof.
  intros Hrecs Hlists Hh Hk Hbad Hstep.
  apply Forall_app in Hh as [Hpre Hb]. apply Forall_cons in Hb as [Hb _].
  rewrite fmap_app in Hrecs. apply NoDup_app in Hrecs as (Hrecs & Hdisj & _).
  assert (NoDup (Spec.lists pre)
          /\ forall q ss, Spec.value bad = Spec.Sequence q ss -> q ∉ Spec.lists pre)
    as [Hlists' Hq].
  { unfold Spec.lists in *. rewrite omap_app in Hlists.
    apply NoDup_app in Hlists as (? & Hd & _). split; [done|].
    intros q ss Hv Hin. apply (Hd q Hin). simpl. rewrite Hv. left. }
  destruct (process_all pre h Hrecs Hlists' Hpre Hk) as (h1 & Hrun & _ & Hframe).
  { intros x h0 Hx. apply Hstep. apply elem_of_app. by left. }
  destruct (untouched h bad pre Hb Hpre) as [Hrec Hlist]; [|done|].
  { intros Hin. apply (Hdisj _ Hin). simpl. left. }
  assert (Spec.holds h1 bad) as Hb1.
  { apply (holds_frame h); [done|by apply Hframe|].
    intros q ss Hv. apply Hframe. by eapply Hlist. }
  destruct (convert_unknown label_list h1 bad Hb1 Hbad) as (h2 & Hfail).
  exists h1, h2. split; [done|].
  rewrite Hstep; [done| |done]. apply elem_of_app. right. left.
Qed.

End ProcessAll.

(** *** The two branches of [read] *)

Section ReadFacts.
Implicit Types (h : heap) (x : Spec.labelled) (ll : list string).

Lemma truthy_holds h x :
  Spec.holds h x ->
  (v ← dict_get (Spec.rec x) (Some (Spec.column x)); truthy v) h = (h, Ok true).
Proof.
  intros [Hr Hv]. rewrite (run_bind_Ok _ _ _ _ _ (dict_get_dict _ _ _ _ Hr)).
  simpl. destruct (Spec.value x) as [s|q ss].
  - destruct Hv as [-> Hs]. simpl. rewrite run_ret. do 2 f_equal.
    apply negb_true_iff, String.eqb_neq. done.
  - destruct Hv as (-> & Hq & Hss). simpl.
    rewrite (run_bind_Ok _ _ _ _ _ (deref_Some _ _ _ Hq)), run_ret.
    rewrite length_fmap. by destruct ss.
Qed.

(** The step of the lazy generator on a record described with its own
    label column. *)
Lemma generate_step_holds ll h x :
  Spec.holds h x ->
  Spec.column_of (Spec.fields x) = Some (Spec.column x) ->
  generate_step (Some ll) (Spec.rec x) h
  = convert_labels (build_label_dict ll) (Spec.rec x) (Spec.column x) h.
Proof.
  intros Hx Hcol. unfold generate_step.
  rewrite (run_bind_Ok _ _ _ _ _ (label_column_dict _ _ _ (proj1 Hx))), Hcol.
  unfold wants_conversion. by rewrite (run_bind_Ok _ _ _ _ _ (truthy_holds _ _ Hx)).
Qed.

Lemma generate_loop_Ok label_list rs ending h h' :
  for_each rs (generate_step label_list) h = (h', Ok tt) ->
  generate_loop label_list rs ending h = (h', (rs, ending)).
Proof.
  revert h. induction rs as [|r rs IH]; intros h Hrun; simpl in *.
  - by injection Hrun as ->.
  - rewrite run_bind in Hrun.
    destruct (generate_step label_list r h) as [h1 [[]|e]]; [|done].
    by rewrite (IH h1 Hrun).
Qed.

Lemma generate_loop_Raise label_list pre bad post ending h h1 h2 e :
  for_each pre (generate_step label_list) h = (h1, Ok tt) ->
  generate_step label_list bad h1 = (h2, Raise e) ->
  generate_loop label_list (pre ++ bad :: post) ending h = (h2, (pre, Some e)).
Proof.
  revert h. induction pre as [|r pre IH]; intros h Hrun Hbad; simpl in *.
  - injection Hrun as ->. by rewrite Hbad.
  - rewrite run_bind in Hrun.
    destruct (generate_step label_list r h) as [h0 [[]|e']]; [|done].
    by rewrite (IH h0 Hrun Hbad).
Qed.

(** The eager loop over the positions of [examples] visits the records
    in order. *)
Lemma for_each_positions (examples pre : list loc) (body : loc -> M unit) h :
  for_each (Z.of_nat <$> seq (length pre) (length examples))
           (fun idx => example ← lift (getitem (pre ++ examples) idx);
                       body example) h
  = for_each examples body h.
Proof.
  revert pre h. induction examples as [|r examples IH]; intros pre h; [done|].
  simpl. rewrite !run_bind. unfold lift at 1. rewrite getitem_middle.
  destruct (body r h) as [h1 [[]|e]]; [|done].
  specialize (IH (pre ++ [r]) h1).
  rewrite <- app_assoc, length_app, Nat.add_1_r in IH. exact IH.
Qed.

Lemma for_each_range (examples : list loc) (body : loc -> M unit) h :
  for_each (range (len examples))
           (fun idx => example ← lift (getitem examples idx); body example) h
  = for_each examples body h.
Proof. rewrite range_len. apply (for_each_positions examples []). Qed.

(** A streaming dataset to which nothing was registered hands on what
    its source hands out. *)
Lemma loop_fresh {A Pred St L V : Type}
    (call : Pred -> IterDataset.arg A Pred -> bool)
    (src : IterDataset.source A St) (ll : option L) (vi : option V)
    (p : Z) (examples : list A) (ending : option exn) :
  IterDataset.loop call (IterDataset.__init__ src ll vi) p examples ending
  = (examples, ending).
Proof.
  revert p. induction examples as [|x examples IH]; intros p; [done|].
  simpl. unfold IterDataset.passes. simpl. by rewrite IH.
Qed.

Lemma iter_fresh {A Pred St L V : Type}
    (call : Pred -> IterDataset.arg A Pred -> bool)
    (src : IterDataset.source A St) (ll : option L) (vi : option V) (st : St) :
  IterDataset.__iter__ call (IterDataset.__init__ src ll vi) st
  = Spec.draw src st.
Proof.
  rewrite __iter___draw by (intros p; by exists true). simpl.
  destruct (Spec.draw src st) as [st' [examples ending]].
  by rewrite loop_fresh.
Qed.

(** The generator of the lazy branch, asked for all its records, does
    what [generate_loop] describes. *)
Lemma exhaust_generate_resume label_list rs ending h :
  (let '(h', g) := generate_resume label_list rs ending h in exhaust g h')
  = generate_loop label_list rs ending h.
Proof.
  revert h. induction rs as [|r rs IH]; intros h; [done|]. simpl.
  destruct (generate_step label_list r h) as [h1 [[]|e]]; [|done]. simpl.
  specialize (IH h1).
  destruct (generate_resume label_list rs ending h1) as [h2 g].
  by rewrite IH.
Qed.

Lemma draw_generate_examples {V : Type} (self : DatasetBuilder.t V)
    (filename split : string) h :
  Spec.draw (IterDataset.Generator (generate_examples_call self filename split)) h
  = generate_examples self filename split h.
Proof.
  unfold Spec.draw, generate_examples_call, generate_examples.
  destruct (call_read self filename split h) as [h' [examples ending]].
  apply exhaust_generate_resume.
Qed.

End ReadFacts.

(** C6 (amended). [read] with a supplied [label_list], on a source of
    separate record objects (no record and no label list handed out
    twice) whose label fields hold a non-empty label string or a
    non-empty list of label strings.
    - Lazy: each record is looked at on its own; its label field is
      ['labels'] if it has that key, else ['label'].  Iterating the
      returned dataset yields every record with its label replaced by its
      0-based index in [label_list] (the last position of the label when
      [label_list] has it more than once): a scalar in the record, the
      items of a list in place, in the list object the record refers to.
    - Eager: the label field name is taken from the first record and used
      for every record; the returned dataset holds every record, converted
      in the same way under that name.  When the first record has no
      label field, or [None] or an empty string in it, no record is
      converted.
    - In both modes the first record with a label that is not in
      [label_list] makes the conversion fail with [KeyError] (on
      iteration in lazy mode, after the earlier records were yielded). *)
Theorem read_label_mapping {V Pred : Type}
    (call : Pred -> IterDataset.arg loc Pred -> bool)
    (self : DatasetBuilder.t V) (filename split : string)
    (label_list : list string) (xs : list Spec.labelled) (h h0 : heap) :
  get_labels self = Some label_list ->
  call_read self filename split h = (h0, (Spec.rec <$> xs, None)) ->
  NoDup (Spec.rec <$> xs) -> NoDup (Spec.lists xs) ->
  Forall (Spec.holds h0) xs ->
  (lazy self = true ->
   Forall (fun x => Spec.column_of (Spec.fields x) = Some (Spec.column x)) xs ->
   exists ds,
     (forall h_any,
        read (Pred:=Pred) self filename split h_any = (h_any, Ok (Iter ds)))
     /\ (Forall (Spec.known label_list) xs ->
         exists h',
           IterDataset.__iter__ call ds h = (h', (Spec.rec <$> xs, None))
           /\ Forall (Spec.mapped label_list h') xs)
     /\ (forall pre bad post,
           xs = pre ++ bad :: post ->
           Forall (Spec.known label_list) pre -> ~ Spec.known label_list bad ->
           exists h',
             IterDataset.__iter__ call ds h
             = (h', (Spec.rec <$> pre, Some KeyError))))
  /\ (lazy self = false ->
      (exists first,
         head xs = Some first
         /\ Spec.column_of (Spec.fields first) = Some (Spec.column first)
         /\ Forall (fun x => Spec.column x = Spec.column first) xs) ->
      (Forall (Spec.known label_list) xs ->
       exists h',
         read (Pred:=Pred) self filename split h
         = (h', Ok (Map (MapDataset.__init__ (Spec.rec <$> xs)
                           (Some label_list) (get_vocab self))))
         /\ Forall (Spec.mapped label_list h') xs)
      /\ (forall pre bad post,
            xs = pre ++ bad :: post ->
            Forall (Spec.known label_list) pre -> ~ Spec.known label_list bad ->
            exists h',
              read (Pred:=Pred) self filename split h = (h', Raise KeyError)))
  /\ (lazy self = false ->
      forall ha hb first rest,
        call_read self filename split ha = (hb, (first :: rest, None)) ->
        Spec.unlabelled hb first ->
        read (Pred:=Pred) self filename split ha
        = (hb, Ok (Map (MapDataset.__init__ (first :: rest)
                          (Some label_list) (get_vocab self))))).
Proof.
  intros Hll Hread Hrecs Hlists Hh. split; [|split].
  - intros Hlazy Hcols.
    assert (forall x h1, x ∈ xs -> Spec.holds h1 x ->
              generate_step (Some label_list) (Spec.rec x) h1
              = convert_labels (build_label_dict label_list)
                               (Spec.rec x) (Spec.column x) h1) as Hstep.
    { intros x h1 Hx Hx1. apply generate_step_holds; [done|].
      rewrite Forall_forall in Hcols. by apply Hcols. }
    eexists. split; [|split].
    + intros h_any. unfold read. rewrite Hlazy. reflexivity.
    + intros Hk.
      destruct (process_all label_list (generate_step (Some label_list))
                  xs h0 Hrecs Hlists Hh Hk Hstep) as (h' & Hrun & Hm & _).
      exists h'. split; [|done].
      rewrite iter_fresh, draw_generate_examples. unfold generate_examples.
      by rewrite Hread, Hll, (generate_loop_Ok _ _ _ _ _ Hrun).
    + intros pre bad post -> Hk Hbad.
      destruct (process_until label_list (generate_step (Some label_list))
                  pre bad post h0 Hrecs Hlists Hh Hk Hbad Hstep)
        as (h1 & h2 & Hrun & Hfail).
      exists h2. rewrite iter_fresh, draw_generate_examples.
      unfold generate_examples. rewrite Hread, Hll, fmap_app, fmap_cons.
      by rewrite (generate_loop_Raise _ _ _ _ _ _ _ _ _ Hrun Hfail).
  - intros Hlazy (first & Hfirst & Hcol & Hcols).
    destruct xs as [|x xs']; [done|]. injection Hfirst as ->.
    set (xs := first :: xs') in *.
    set (step := fun example : loc =>
           convert_labels (build_label_dict label_list) example
                          (Spec.column first)).
    assert (forall y h1, y ∈ xs -> Spec.holds h1 y ->
              step (Spec.rec y) h1
              = convert_labels (build_label_dict label_list)
                               (Spec.rec y) (Spec.column y) h1) as Hstep.
    { intros y h1 Hy _. unfold step. rewrite Forall_forall in Hcols.
      by rewrite (Hcols y Hy). }
    pose proof (Forall_inv Hh) as Hhf.
    assert (forall outcome : heap * result unit,
              for_each (Spec.rec <$> xs) step h0 = outcome ->
              read (Pred:=Pred) self filename split h
              = match outcome with
                | (h', Ok _) =>
                    (h', Ok (Map (MapDataset.__init__ (Spec.rec <$> xs)
                                    (Some label_list) (get_vocab self))))
                | (h', Raise e) => (h', Raise e)
                end) as Hreadeq.
    { intros outcome <-. unfold read. rewrite Hlazy, Hll.
      unfold materialize at 1. rewrite run_bind, Hread.
      change (Spec.rec <$> xs) with (Spec.rec first :: (Spec.rec <$> xs')) at 1.
      cbv iota beta.
      rewrite (run_bind_Ok _ _ _ _ _ (label_column_dict _ _ _ (proj1 Hhf))), Hcol.
      unfold wants_conversion.
      rewrite (run_bind_Ok _ _ _ _ _ (truthy_holds _ _ Hhf)).
      rewrite run_bind, for_each_range. fold step.
      change (Spec.rec first :: (Spec.rec <$> xs')) with (Spec.rec <$> xs).
      by destruct (for_each (Spec.rec <$> xs) step h0) as [h' [[]|e]]. }
    split.
    + intros Hk.
      destruct (process_all label_list step xs h0 Hrecs Hlists Hh Hk Hstep)
        as (h' & Hrun & Hm & _).
      exists h'. split; [|done]. by rewrite (Hreadeq _ Hrun).
    + intros pre bad post Hsplit Hk Hbad. rewrite Hsplit in *.
      destruct (process_until label_list step pre bad post h0
                  Hrecs Hlists Hh Hk Hbad Hstep) as (h1 & h2 & Hrun & Hfail).
      exists h2. rewrite (Hreadeq (h2, Raise KeyError)); [done|].
      rewrite fmap_app, fmap_cons, (for_each_app _ _ _ _ _ Hrun). simpl.
      by rewrite run_bind, Hfail.
  - intros Hlazy ha hb first rest Hra (d & Hd & Hcol).
    unfold read. rewrite Hlazy, Hll.
    unfold materialize at 1. rewrite run_bind, Hra. cbv iota beta.
    rewrite (run_bind_Ok _ _ _ _ _ (label_column_dict _ _ _ Hd)).
    unfold wants_conversion.
    rewrite run_bind, (run_bind_Ok _ _ _ _ _ (dict_get_dict _ _ _ _ Hd)).
    destruct Hcol as [->|(col & -> & [Hv|Hv])]; simpl; by rewrite ?Hv.
Qed.

Lemma read_label_mapping_witness :
  exists ds h',
    read (Pred:=Demo.pred) (Demo.builder true [0%nat; 1%nat]) "f" "train"
         Demo.heap_labels
    = (Demo.heap_labels, Ok (Iter ds))
    /\ IterDataset.__iter__ (fun _ _ => true) ds Demo.heap_labels
       = (h', ([0%nat; 1%nat], None))
    /\ Forall (Spec.mapped Demo.labels_abc h') [Demo.record_b; Demo.record_ac].
Proof.
  destruct (@read_label_mapping unit Demo.pred (fun _ _ => true)
              (Demo.builder true [0%nat; 1%nat]) "f" "train" Demo.labels_abc
              [Demo.record_b; Demo.record_ac] Demo.heap_labels Demo.heap_labels)
    as [Hlazy _].
  - reflexivity.
  - reflexivity.
  - apply (bool_decide_unpack _). vm_compute. exact I.
  - apply (bool_decide_unpack _). vm_compute. exact I.
  - repeat constructor; vm_compute; congruence.
  - destruct Hlazy as (ds & Hread & Hiter & _).
    + reflexivity.
    + repeat constructor.
    + destruct Hiter as (h' & Hrun & Hmapped).
      * repeat constructor; apply (bool_decide_unpack _); vm_compute; exact I.
      * exists ds, h'. split; [apply Hread|]. split; [exact Hrun | exact Hmapped].
Defined.

(** The two examples of C6, in both modes: with
    [label_list = ["a", "b", "c"]], [{"label": "b"}] becomes
    [{"label": 1}] and [{"labels": ["a", "c"]}] becomes
    [{"labels": [0, 2]}], the list rewritten in place. *)
Lemma read_label_examples :
  fst (read (Pred:=Demo.pred) (Demo.builder false [0%nat]) "f" "train"
            Demo.heap_labels) !! 0%nat
  = Demo.heap_indices !! 0%nat
  /\ fst (read (Pred:=Demo.pred) (Demo.builder false [1%nat]) "f" "train"
               Demo.heap_labels) !! 2%nat
     = Demo.heap_indices !! 2%nat
  /\ generate_examples (Demo.builder true [0%nat; 1%nat]) "f" "train"
                       Demo.heap_labels
     = (Demo.heap_indices, ([0%nat; 1%nat], None)).
Proof. split; [|split]; vm_compute; reflexivity. Qed.

(** C6 as stated fails in eager mode: with [label_list] supplied and the
    records [{"text": "x"}], [{"label": "b"}], [read] returns the dataset
    and the second record still holds the label ["b"], not its index. *)
Lemma read_eager_first_record_decides :
  exists h',
    read (Pred:=Demo.pred) (Demo.builder false [0%nat; 1%nat]) "f" "train"
         Demo.heap_text_first
    = (h', Ok (Map (MapDataset.__init__ [0%nat; 1%nat]
                      (Some Demo.labels_abc) None)))
    /\ h' !! 1%nat = Some (ODict {[ "label" := VAtom (AStr "b") ]})
    /\ ~ Spec.mapped Demo.labels_abc h'
           {| Spec.rec := 1%nat;
              Spec.fields := {[ "label" := VAtom (AStr "b") ]};
              Spec.column := "label";
              Spec.value := Spec.Scalar "b" |}.
Proof.
  exists Demo.heap_text_first. split; [vm_compute; reflexivity|].
  split; [reflexivity|].
  unfold Spec.mapped. cbn [Spec.value Spec.rec Spec.column Spec.fields].
  intros (i & _ & Hm).
  assert (Demo.heap_text_first !! 1%nat
          = Some (ODict {[ "label" := VAtom (AStr "b") ]})) as Hl by reflexivity.
  pose proof (eq_trans (eq_sym Hl) Hm) as Hd.
  apply (f_equal (fun o => match o with
                           | Some (ODict d) => d !! "label"
                           | _ => None
                           end)) in Hd.
  cbv beta iota in Hd.
  rewrite lookup_insert_eq, lookup_singleton_eq in Hd. discriminate.
Qed.

(** A tuple of labels is taken into the element-wise branch, whose item
    assignment a tuple refuses: [{"labels": ("a", "c")}] raises
    [TypeError] in both modes. *)
Lemma read_tuple_raises :
  read (Pred:=Demo.pred) (Demo.builder false [0%nat]) "f" "train" Demo.heap_tuple
  = (Demo.heap_tuple, Raise TypeError)
  /\ generate_examples (Demo.builder true [0%nat]) "f" "train" Demo.heap_tuple
     = (Demo.heap_tuple, ([], Some TypeError)).
Proof. split; vm_compute; reflexivity. Qed.

(** A record object handed out twice is converted twice: the second
    time its label is already an index, which is no key of the label
    dictionary. *)
Lemma read_shared_record_raises :
  snd (read (Pred:=Demo.pred) (Demo.builder false [0%nat; 0%nat]) "f" "train"
            Demo.heap_labels)
  = Raise KeyError
  /\ snd (generate_examples (Demo.builder true [0%nat; 0%nat]) "f" "train"
                            Demo.heap_labels)
     = ([0%nat], Some KeyError).
Proof. split; vm_compute; reflexivity. Qed.

(** C7. When the source hands out no record, eager [read] raises
    [ValueError]; lazy [read] returns a streaming dataset, and iterating
    it yields nothing and raises nothing. *)
Theorem read_empty_source {V Pred : Type}
    (call : Pred -> IterDataset.arg loc Pred -> bool)
    (self : DatasetBuilder.t V) (filename split : string) (h : heap) :
  (forall h0, exists h1, call_read self filename split h0 = (h1, ([], None))) ->
  (lazy self = false ->
   exists h1, read (Pred:=Pred) self filename split h = (h1, Raise ValueError))
  /\ (lazy self = true ->
      exists ds,
        read (Pred:=Pred) self filename split h = (h, Ok (Iter ds))
        /\ forall h0, exists h1,
             IterDataset.__iter__ call ds h0 = (h1, ([], None))).
Proof.
  intros Hempty. split; intros Hlazy; unfold read; rewrite Hlazy.
  - destruct (Hempty h) as [h1 Hread]. exists h1.
    unfold materialize. by rewrite run_bind, Hread.
  - eexists. split; [reflexivity|]. intros h0.
    destruct (Hempty h0) as [h1 Hread]. exists h1.
    rewrite iter_fresh, draw_generate_examples. unfold generate_examples.
    by rewrite Hread.
Qed.

Lemma read_empty_source_witness :
  (exists h1,
     read (Pred:=Demo.pred) (Demo.builder false []) "f" "train" Demo.heap_labels
     = (h1, Raise ValueError))
  /\ exists ds,
       read (Pred:=Demo.pred) (Demo.builder true []) "f" "train" Demo.heap_labels
       = (Demo.heap_labels, Ok (Iter ds))
       /\ forall h0, exists h1,
            IterDataset.__iter__ (fun _ _ => true) ds h0 = (h1, ([], None)).
Proof.
  split.
  - apply (@read_empty_source unit Demo.pred (fun _ _ => true)
             (Demo.builder false []) "f" "train" Demo.heap_labels).
    + intros h0. exists h0. reflexivity.
    + reflexivity.
  - apply (@read_empty_source unit Demo.pred (fun _ _ => true)
             (Demo.builder true []) "f" "train" Demo.heap_labels).
    + intros h0. exists h0. reflexivity.
    + reflexivity.
Defined.

(** *** read_datasets *)

Section MapMFacts.
Context {X Y : Type}.
Implicit Types (f : X -> M Y) (l : list X) (h : heap).

Lemma mapM_run_app f l1 l2 h :
  mapM f (l1 ++ l2) h
  = match mapM f l1 h with
    | (h1, Ok ds1) =>
        match mapM f l2 h1 with
        | (h2, Ok ds2) => (h2, Ok (ds1 ++ ds2))
        | (h2, Raise e) => (h2, Raise e)
        end
    | (h1, Raise e) => (h1, Raise e)
    end.
Proof.
  revert h. induction l1 as [|x l1 IH]; intros h.
  - simpl. rewrite ?run_ret. by destruct (mapM f l2 h) as [h2 [ds2|e]].
  - simpl. rewrite !run_bind. destruct (f x h) as [h0 [y|e]]; [|done].
    rewrite !run_bind, IH. destruct (mapM f l1 h0) as [h1 [ds1|e]]; [|done].
    rewrite ?run_ret. by destruct (mapM f l2 h1) as [h2 [ds2|e]].
Qed.

Lemma mapM_run_length f l h h' ds :
  mapM f l h = (h', Ok ds) -> length ds = length l.
Proof.
  revert h ds. induction l as [|x l IH]; intros h ds; simpl.
  - rewrite ?run_ret. intros [= ? ?]. by subst.
  - rewrite run_bind. destruct (f x h) as [h0 [y|e]]; [|done].
    rewrite run_bind. destruct (mapM f l h0) as [h1 [ds1|e]] eqn:Hl; [|done].
    rewrite ?run_ret. intros [= ? ?]. subst. simpl. f_equal. by eapply IH.
Qed.

Lemma mapM_run_ext f (g : X -> M Y) l h :
  (forall x h0, f x h0 = g x h0) -> mapM f l h = mapM g l h.
Proof.
  intros Hext. revert h. induction l as [|x l IH]; intros h; [done|].
  simpl. rewrite !run_bind, Hext. destruct (g x h) as [h0 [y|e]]; [|done].
  by rewrite !run_bind, IH.
Qed.

Lemma mapM_run_fmap {W} (g : W -> X) f (l : list W) h :
  mapM f (g <$> l) h = mapM (fun w => f (g w)) l h.
Proof.
  revert h. induction l as [|w l IH]; intros h; [done|].
  simpl. rewrite !run_bind. destruct (f (g w) h) as [h0 [y|e]]; [|done].
  by rewrite !run_bind, IH.
Qed.

End MapMFacts.

(** Case analysis on the outcome of the [mapM] run in the goal. *)
Ltac case_mapM :=
  match goal with
  | |- context [@mapM M _ _ _ _ ?g ?l ?h] =>
      destruct (@mapM M _ _ _ _ g l h) as [? [?|?]]
  end.

Section ReadDatasetsFacts.
Context {V Pred : Type}.
Implicit Types (self : DatasetBuilder.t V) (h : heap)
  (datasets : list (dataset V Pred)).

Lemma read_data_files_jobs self data_files datasets h :
  data_files <> Some (OtherFiles true) ->
  read_data_files self data_files datasets h
  = match mapM (Spec.run_job self) (Spec.file_jobs data_files) h with
    | (h', Ok ds) => (h', Ok (datasets ++ ds))
    | (h', Raise e) => (h', Raise e)
    end.
Proof.
  intros Htype. unfold read_data_files, Spec.file_jobs.
  destruct data_files as [[s|l|l|items|[]]|]; simpl; try done.
  - destruct (String.eqb s ""); simpl; [by rewrite app_nil_r|].
    rewrite !run_bind. by destruct (read self s "train" h) as [h' [d|e]].
  - destruct l as [|f l]; [simpl; by rewrite app_nil_r|]. cbn [nonempty].
    rewrite run_bind, mapM_run_fmap. cbn [Spec.run_job].
    by case_mapM.
  - destruct l as [|f l]; [simpl; by rewrite app_nil_r|]. cbn [nonempty].
    rewrite run_bind, mapM_run_fmap. cbn [Spec.run_job].
    by case_mapM.
  - destruct items as [|it items]; [simpl; by rewrite app_nil_r|].
    cbn [nonempty]. rewrite run_bind.
    assert (mapM (Spec.run_job (Pred:=Pred) self)
                 ((fun '(split, filename) => Spec.FromFile split filename)
                  <$> it :: items) h
            = mapM (fun '(split, filename) => read self filename split)
                   (it :: items) h) as ->.
    { rewrite mapM_run_fmap. apply mapM_run_ext. by intros [??] ?. }
    by case_mapM.
  - by rewrite app_nil_r.
  - by rewrite app_nil_r.
Qed.

Lemma read_splits_jobs self splits datasets h :
  splits <> Some (OtherSplits true) ->
  read_splits self splits datasets h
  = match mapM (Spec.run_job self) (Spec.split_jobs splits) h with
    | (h', Ok ds) => (h', Ok (datasets ++ ds))
    | (h', Raise e) => (h', Raise e)
    end.
Proof.
  intros Htype. unfold read_splits, Spec.split_jobs.
  destruct splits as [[s|l|l|[]]|]; simpl; try done.
  - destruct (String.eqb s ""); simpl; [by rewrite app_nil_r|].
    rewrite !run_bind. by destruct (read_split self s h) as [h' [d|e]].
  - destruct l as [|f l]; [simpl; by rewrite app_nil_r|]. cbn [nonempty].
    rewrite run_bind, mapM_run_fmap. cbn [Spec.run_job].
    by case_mapM.
  - destruct l as [|f l]; [simpl; by rewrite app_nil_r|]. cbn [nonempty].
    rewrite run_bind, mapM_run_fmap. cbn [Spec.run_job].
    by case_mapM.
  - by rewrite app_nil_r.
  - by rewrite app_nil_r.
Qed.

Lemma jobs_nonempty splits data_files :
  splits_truth splits || files_truth data_files = true ->
  data_files <> Some (OtherFiles true) -> splits <> Some (OtherSplits true) ->
  Spec.jobs splits data_files <> [].
Proof.
  intros Htruth Hf Hs. unfold Spec.jobs, Spec.file_jobs, Spec.split_jobs.
  destruct data_files as [[s|[|? l]|[|? l]|[|? items]|[]]|];
    destruct splits as [[s'|[|? l']|[|? l']|[]]|]; simpl in *;
    repeat match goal with
           | |- context [String.eqb ?s ""] => destruct (String.eqb s "")
           end;
    simpl in *; try done.
Qed.

End ReadDatasetsFacts.



(** * Further properties *)

(** ** MapDataset: map, shard and filter together *)

Section MoreMapDataset.
Context {A L V : Type} {D : dist}.
Implicit Types (self : MapDataset.t A L V) (l : list A).

Lemma set_new_data_same self :
  MapDataset.set_new_data self (MapDataset.new_data self) = self.
Proof. by destruct self. Qed.

Lemma shard_piece self k i :
  0 < k -> 0 <= i < k ->
  MapDataset.shard self (Some k) (Some i) true
  = Ok (MapDataset.set_new_data self (More.piece (MapDataset.new_data self) k i)).
Proof. intros Hk Hi. by rewrite shard_contiguous. Qed.

Lemma piece_concat l k : 0 < k -> concat (More.piece l k <$> range k) = l.
Proof. intros Hk. by apply concat_contiguous. Qed.

Lemma fmap_concat {B} (f : A -> B) (ls : list (list A)) :
  f <$> concat ls = concat ((fun x : list A => f <$> x) <$> ls).
Proof.
  induction ls as [|x ls IH]; [done|]. simpl. by rewrite fmap_app, IH.
Qed.

(** The fork-join of [filter] and [map]: an operation that rewrites the
    stored records of a shard by [F] leaves, after the join, the pieces
    rewritten by [F] one after the other. *)
Lemma fork_join self k (op : MapDataset.t A L V -> MapDataset.t A L V)
    (F : list A -> list A) :
  0 < k ->
  (forall p, op (MapDataset.set_new_data self p)
             = MapDataset.set_new_data self (F p)) ->
  (transformed_shards ←
     mapM (fun rk => s ← MapDataset.shard self (Some k) (Some rk) true;
                     mret (op s)) (range k);
   mret (MapDataset.join_shards self transformed_shards))
  = Ok (MapDataset.set_new_data self
          (concat ((fun i => F (More.piece (MapDataset.new_data self) k i))
                   <$> range k))).
Proof.
  intros Hk Hop.
  rewrite (mapM_Ok _ (fun i => MapDataset.set_new_data self
                     (F (More.piece (MapDataset.new_data self) k i)))).
  - rewrite bind_Ok. unfold mret, result_ret. f_equal.
    pose proof (join_shards_concat self
      ((fun i => MapDataset.set_new_data self
                   (F (More.piece (MapDataset.new_data self) k i)))
       <$> range k)) as Hj.
    unfold MapDataset.join_shards in *. simpl in Hj. rewrite Hj.
    by rewrite <- list_fmap_compose.
  - apply Forall_range. intros i Hi.
    by rewrite shard_piece, bind_Ok, <- Hop.
Qed.

Lemma _map_eager self (f : A -> A) :
  MapDataset._map self (MapDataset.PerSample f) false
  = MapDataset.set_new_data self (f <$> MapDataset.new_data self).
Proof.
  unfold MapDataset._map. by rewrite comprehension_select, select_map.
Qed.

Lemma filter_filter (f g : A -> bool) l :
  List.filter g (List.filter f l) = List.filter (fun x => f x && g x) l.
Proof.
  induction l as [|x l IH]; [done|]. simpl.
  destruct (f x); simpl; [|done]. destruct (g x); by rewrite IH.
Qed.

Lemma filter_any_workers self (fn : A -> bool) n :
  0 <= n ->
  MapDataset.filter self fn n
  = Ok (MapDataset.set_new_data self
          (List.filter fn (MapDataset.new_data self))).
Proof.
  intros Hn. destruct (Z.eq_dec n 0) as [->|?].
  - apply filter_sequential.
  - apply filter_workers. lia.
Qed.

Lemma select_fmap {B} (c : Z -> bool) (f : A -> B) p l :
  Spec.select (fun idx _ => c idx) id p (f <$> l)
  = f <$> Spec.select (fun idx _ => c idx) id p l.
Proof.
  revert p. induction l as [|x l IH]; intros p; [done|].
  simpl. rewrite IH. by destruct (c p).
Qed.

Lemma slice_fmap {B} (f : A -> B) l start stop :
  slice (f <$> l) start stop = f <$> slice l start stop.
Proof.
  unfold slice, len. by rewrite length_fmap, fmap_take, fmap_drop.
Qed.

Lemma select_nothing {B} (c : Z -> A -> bool) (f : A -> B) p l :
  (forall idx x, c idx x = false) -> Spec.select c f p l = [].
Proof.
  intros Hc. revert p. induction l as [|x l IH]; intros p; [done|].
  simpl. by rewrite Hc.
Qed.

Lemma select_everything (c : Z -> A -> bool) p l :
  (forall idx x, c idx x = true) -> Spec.select c id p l = l.
Proof.
  intros Hc. revert p. induction l as [|x l IH]; intros p; [done|].
  simpl. by rewrite Hc, IH.
Qed.

End MoreMapDataset.

(** X1. [map] with workers ignores [lazy]: for a per-sample function it
    applies the function to every stored record at once, as [map] with
    [lazy=False] and no workers does, and registers nothing. *)
Theorem map_workers_per_sample {A L V : Type} {D : dist}
    (self : MapDataset.t A L V) (f : A -> A) (lazy : bool) (k : Z) :
  0 < k ->
  MapDataset.map self (MapDataset.PerSample f) lazy k
  = Ok (MapDataset.set_new_data self (f <$> MapDataset.new_data self))
  /\ MapDataset.map self (MapDataset.PerSample f) lazy k
     = MapDataset.map self (MapDataset.PerSample f) false 0.
Proof.
  intros Hk.
  assert (MapDataset.map self (MapDataset.PerSample f) lazy k
          = Ok (MapDataset.set_new_data self (f <$> MapDataset.new_data self)))
    as Hmap.
  { unfold MapDataset.map, MapDataset.map_shard.
    destruct (Z.ltb_spec k 0) as [?|_]; [lia|].
    destruct (Z.ltb_spec 0 k) as [_|?]; [|lia].
    rewrite (fork_join self k _ (fun p => f <$> p)); [|done|].
    - do 2 f_equal.
      replace (f <$> MapDataset.new_data self)
        with (f <$> concat (More.piece (MapDataset.new_data self) k <$> range k))
        by (by rewrite piece_concat).
      by rewrite fmap_concat, <- list_fmap_compose.
    - intros p. by rewrite _map_eager. }
  split; [done|]. rewrite Hmap. unfold MapDataset.map.
  by rewrite Z.ltb_irrefl, _map_eager.
Qed.

Lemma map_workers_per_sample_witness :
  0 < 2
  /\ MapDataset.map (D := Demo.single) Demo.five
       (MapDataset.PerSample (Z.add 1)) true 2
     = Ok (MapDataset.set_new_data Demo.five [11; 21; 31; 41; 51]).
Proof.
  assert (0 < 2) as Hk by lia. split; [exact Hk|].
  exact (proj1 (@map_workers_per_sample Z unit unit Demo.single Demo.five
                  (Z.add 1) true 2 Hk)).
Defined.

(** X2. [map] with workers and [batched=True] hands every contiguous
    shard to the function on its own and joins the results in shard
    order; that is the result of the call without workers whenever the
    function distributes over concatenation. *)
Theorem map_workers_batched {A L V : Type} {D : dist}
    (self : MapDataset.t A L V) (g : list A -> list A) (lazy : bool) (k : Z) :
  0 < k ->
  exists parts,
    Spec.all_shards self k true = Ok parts
    /\ MapDataset.map self (MapDataset.Batched g) lazy k
       = Ok (MapDataset.set_new_data self (concat (g <$> parts)))
    /\ ((forall ls, g (concat ls) = concat (g <$> ls)) ->
        MapDataset.map self (MapDataset.Batched g) lazy k
        = MapDataset.map self (MapDataset.Batched g) lazy 0).
Proof.
  intros Hk. exists (More.piece (MapDataset.new_data self) k <$> range k).
  assert (MapDataset.map self (MapDataset.Batched g) lazy k
          = Ok (MapDataset.set_new_data self
                  (concat (g <$> (More.piece (MapDataset.new_data self) k
                                  <$> range k))))) as Hmap.
  { unfold MapDataset.map, MapDataset.map_shard.
    destruct (Z.ltb_spec k 0) as [?|_]; [lia|].
    destruct (Z.ltb_spec 0 k) as [_|?]; [|lia].
    rewrite (fork_join self k _ g); [|done|done].
    by rewrite <- list_fmap_compose. }
  split; [by apply all_shards_contiguous|]. split; [done|].
  intros Hg. rewrite Hmap, <- Hg, piece_concat by done. done.
Qed.

Lemma map_workers_batched_witness :
  0 < 2
  /\ MapDataset.map (D := Demo.single) Demo.five
       (MapDataset.Batched (List.filter (Z.ltb 15))) true 2
     = MapDataset.map (D := Demo.single) Demo.five
         (MapDataset.Batched (List.filter (Z.ltb 15))) true 0.
Proof.
  assert (0 < 2) as Hk by lia. split; [exact Hk|].
  destruct (@map_workers_batched Z unit unit Demo.single Demo.five
              (List.filter (Z.ltb 15)) true 2 Hk) as (parts & _ & _ & Hsame).
  apply Hsame. intros ls. apply filter_concat.
Defined.

(** X3. An eager [map(fn, lazy=False)] rewrites the stored records, so
    [fn] runs before the transforms registered earlier, while a lazy
    [map(fn)] runs after them: on a dataset with pipeline [p] and stored
    record [x], [__getitem__] gives [p(fn(x))] after the eager call and
    [fn(p(x))] after the lazy one; the two agree when nothing was
    registered before. *)
Theorem map_eager_runs_first {A L V : Type} {D : dist}
    (self : MapDataset.t A L V) (fn : A -> A) (idx : Z) (x : A) :
  0 <= idx ->
  MapDataset.new_data self !! Z.to_nat idx = Some x ->
  let p := MapDataset._transform_pipline self in
  (exists eager,
     MapDataset.map self (MapDataset.PerSample fn) false 0 = Ok eager
     /\ MapDataset.__getitem__ eager idx
        = Ok (fold_left (fun d f => f d) p (fn x)))
  /\ (exists lazy,
        MapDataset.map self (MapDataset.PerSample fn) true 0 = Ok lazy
        /\ MapDataset.__getitem__ lazy idx
           = Ok (fn (fold_left (fun d f => f d) p x)))
  /\ (p = [] ->
      forall eager lazy,
        MapDataset.map self (MapDataset.PerSample fn) false 0 = Ok eager ->
        MapDataset.map self (MapDataset.PerSample fn) true 0 = Ok lazy ->
        MapDataset.__getitem__ eager idx = MapDataset.__getitem__ lazy idx).
Proof.
  intros Hidx Hx p.
  assert (0 <= idx < len (MapDataset.new_data self)) as Hin.
  { apply lookup_lt_Some in Hx. unfold len. lia. }
  destruct (getitem_nonneg (MapDataset.new_data self) idx Hin) as (y & Hy & Hget).
  assert (y = x) as -> by congruence.
  assert (getitem (fn <$> MapDataset.new_data self) idx = Ok (fn x)) as Hget'.
  { destruct (getitem_nonneg (fn <$> MapDataset.new_data self) idx)
      as (z & Hz & ->).
    - unfold len in *. by rewrite length_fmap.
    - rewrite list_lookup_fmap, Hx in Hz. simpl in Hz. congruence. }
  assert (MapDataset.__getitem__
            (MapDataset.set_new_data self (fn <$> MapDataset.new_data self)) idx
          = Ok (fold_left (fun d f => f d) p (fn x))) as Heager.
  { rewrite __getitem___eq. simpl. rewrite Hget', fmap_Ok.
    unfold MapDataset._transform. simpl. by rewrite run_pipline_fold. }
  assert (MapDataset.__getitem__
            (MapDataset._map self (MapDataset.PerSample fn) true) idx
          = Ok (fn (fold_left (fun d f => f d) p x))) as Hlazy.
  { rewrite __getitem___eq. simpl. rewrite Hget, fmap_Ok.
    unfold MapDataset._transform. simpl.
    by rewrite run_pipline_fold, fold_left_app. }
  split; [|split].
  - eexists. split; [|exact Heager].
    unfold MapDataset.map. by rewrite Z.ltb_irrefl, _map_eager.
  - eexists. split; [|exact Hlazy]. unfold MapDataset.map.
    by rewrite Z.ltb_irrefl.
  - intros Hp eager lazy. unfold MapDataset.map.
    rewrite Z.ltb_irrefl, _map_eager. intros [= <-] [= <-].
    etrans; [exact Heager|]. symmetry. etrans; [exact Hlazy|].
    unfold p in *. by rewrite Hp.
Qed.

Lemma map_eager_runs_first_witness :
  0 <= 1
  /\ MapDataset.new_data Demo.five_shifted !! Z.to_nat 1 = Some 20
  /\ exists eager,
       MapDataset.map (D := Demo.single) Demo.five_shifted
         (MapDataset.PerSample (Z.mul 2)) false 0 = Ok eager
       /\ MapDataset.__getitem__ eager 1 = Ok 140.
Proof.
  assert (0 <= 1) as Hidx by lia.
  assert (MapDataset.new_data Demo.five_shifted !! Z.to_nat 1 = Some 20)
    as Hx by reflexivity.
  split; [exact Hidx|]. split; [exact Hx|].
  exact (proj1 (@map_eager_runs_first Z unit unit Demo.single
                  Demo.five_shifted (Z.mul 2) 1 20 Hidx Hx)).
Defined.

(** X4. Contiguous shards are balanced: shard [i] of [num_shards] holds
    [len // num_shards] records, and one more if
    [i < len % num_shards]. *)
Theorem contiguous_shard_len {A L V : Type} {D : dist}
    (self : MapDataset.t A L V) (num_shards i : Z) :
  0 < num_shards -> 0 <= i < num_shards ->
  exists s,
    MapDataset.shard self (Some num_shards) (Some i) true = Ok s
    /\ MapDataset.__len__ s
       = MapDataset.__len__ self / num_shards
         + (if i <? MapDataset.__len__ self mod num_shards then 1 else 0).
Proof.
  intros Hk Hi. eexists. split; [by apply shard_contiguous|].
  unfold MapDataset.__len__. simpl. set (l := MapDataset.new_data self).
  pose proof (len_nonneg l) as Hl.
  pose proof (bound_mono (len l) num_shards i Hk Hl (proj1 Hi)) as Hm.
  pose proof (bound_le (len l) num_shards (i + 1) Hk Hl) as Hle.
  pose proof (bound_step (len l) num_shards i) as Hs.
  unfold len in *. rewrite length_take, length_drop. lia.
Qed.

Lemma contiguous_shard_len_witness :
  0 < 2 /\ 0 <= 0 < 2
  /\ exists s,
       MapDataset.shard (D := Demo.single) Demo.five (Some 2) (Some 0) true
       = Ok s
       /\ MapDataset.__len__ s = 3.
Proof.
  assert (0 < 2) as Hk by lia. assert (0 <= 0 < 2) as Hi by lia.
  split; [exact Hk|]. split; [exact Hi|].
  exact (@contiguous_shard_len Z unit unit Demo.single Demo.five 2 0 Hk Hi).
Defined.

Section MoreShards.
Context {A L V : Type} {D : dist}.
Implicit Types (self : MapDataset.t A L V) (l : list A).

Lemma select_striped_length k i l p :
  0 < k -> 0 <= i < k ->
  len (Spec.select (fun idx (_ : A) => idx mod k =? i) id p l)
  = (len l - (i - p) mod k + k - 1) / k.
Proof.
  intros Hk Hi. revert p. induction l as [|x l IH]; intros p.
  - pose proof (Z.mod_pos_bound (i - p) k Hk). unfold len. simpl.
    symmetry. apply Z.div_small. lia.
  - pose proof (mod_offset_zero k i p Hk Hi) as Hz.
    pose proof (mod_offset_pred k (i - p) Hk) as Hpred.
    pose proof (Z.mod_pos_bound (i - p) k Hk) as Hb.
    specialize (IH (p + 1)).
    replace (i - (p + 1)) with (i - p - 1) in IH by lia. rewrite Hpred in IH.
    unfold len in *. simpl.
    destruct (Z.eqb_spec (p mod k) i) as [Heq|Hne].
    + apply Hz in Heq. rewrite Heq in *. simpl in IH. simpl length.
      rewrite Nat2Z.inj_succ, IH.
      replace (Z.of_nat (S (length l)) - 0 + k - 1)
        with (Z.of_nat (length l) - (k - 1) + k - 1 + 1 * k) by lia.
      rewrite Z.div_add by lia. lia.
    + assert ((i - p) mod k <> 0) as Hnz by (intros ?; apply Hne, Hz; done).
      destruct (Z.eqb_spec ((i - p) mod k) 0) as [?|_]; [done|].
      rewrite IH. f_equal. lia.
Qed.

Lemma slice_past_end l start stop :
  len l <= start -> slice l start stop = [].
Proof.
  intros Hs. pose proof (len_nonneg l) as Hl. unfold slice, clip.
  destruct (Z.ltb_spec start 0); [lia|].
  rewrite (Z.min_r start) by lia.
  replace (Z.to_nat (_ - len l)) with 0%nat; [done|].
  destruct (Z.ltb_spec stop 0); lia.
Qed.

Lemma shard_eq self num_shards index contiguous :
  default get_world_size num_shards <> 0 ->
  contiguous = true
  \/ Z.abs (default get_world_size num_shards) < float_limit ->
  MapDataset.shard self num_shards index contiguous
  = Ok (MapDataset.set_new_data self
          (More.shard_records (MapDataset.new_data self)
             (default get_world_size num_shards)
             (default get_rank index) contiguous)).
Proof.
  intros Hn Hlim.
  unfold MapDataset.shard, floordiv, modulo, More.shard_records,
    MapDataset.__len__.
  destruct contiguous.
  - by destruct (Z.eqb_spec (default get_world_size num_shards) 0).
  - destruct Hlim as [?|Hlim]; [done|].
    rewrite truediv_defined_Ok by done. simpl.
    by rewrite comprehension_select.
Qed.

Lemma map_eager_eq self (fn : A -> A) :
  MapDataset.map self (MapDataset.PerSample fn) false 0
  = Ok (MapDataset.set_new_data self (fn <$> MapDataset.new_data self)).
Proof. unfold MapDataset.map. by rewrite Z.ltb_irrefl, _map_eager. Qed.

Lemma shard_records_fmap (fn : A -> A) l k i contiguous :
  More.shard_records (fn <$> l) k i contiguous
  = fn <$> More.shard_records l k i contiguous.
Proof.
  unfold More.shard_records. destruct contiguous.
  - unfold len. by rewrite length_fmap, slice_fmap.
  - apply (select_fmap (fun idx => idx mod k =? i)).
Qed.

End MoreShards.

(** X5. For a [num_shards] that a float can hold, shard [i] of
    [num_shards] striped shards of [len] records holds
    [ceil((len - i) / num_shards)] of them (the integer quotient of
    [len - i + num_shards - 1] by [num_shards]). *)
Theorem striped_shard_len {A L V : Type} {D : dist}
    (self : MapDataset.t A L V) (num_shards i : Z) :
  0 < num_shards < float_limit -> 0 <= i < num_shards ->
  exists s,
    MapDataset.shard self (Some num_shards) (Some i) false = Ok s
    /\ MapDataset.__len__ s
       = (MapDataset.__len__ self - i + num_shards - 1) / num_shards.
Proof.
  intros [Hk Hlim] Hi. eexists. split; [apply shard_striped; lia|].
  unfold MapDataset.__len__. simpl.
  rewrite select_striped_length by done.
  by rewrite Z.sub_0_r, Z.mod_small.
Qed.

Lemma striped_shard_len_witness :
  0 < 2 < float_limit /\ 0 <= 1 < 2
  /\ exists s,
       MapDataset.shard (D := Demo.single) Demo.five (Some 2) (Some 1) false
       = Ok s
       /\ MapDataset.__len__ s = 2.
Proof.
  assert (0 < 2 < float_limit) as Hk
    by (split; vm_compute; reflexivity).
  assert (0 <= 1 < 2) as Hi by lia.
  split; [exact Hk|]. split; [exact Hi|].
  exact (@striped_shard_len Z unit unit Demo.single Demo.five 2 1 Hk Hi).
Defined.

(** X6. A shard index outside [0 .. num_shards-1] is no error: with
    [index >= num_shards] the contiguous policy leaves an empty dataset,
    and so does the striped policy, for an index past the last shard or
    a negative one, whenever a float can hold [num_shards]. *)
Theorem shard_index_out_of_range {A L V : Type} {D : dist}
    (self : MapDataset.t A L V) (num_shards i : Z) :
  0 < num_shards ->
  (num_shards <= i ->
   MapDataset.shard self (Some num_shards) (Some i) true
   = Ok (MapDataset.set_new_data self []))
  /\ (num_shards < float_limit -> i < 0 \/ num_shards <= i ->
      MapDataset.shard self (Some num_shards) (Some i) false
      = Ok (MapDataset.set_new_data self [])).
Proof.
  intros Hk. split.
  - intros Hi. unfold MapDataset.shard, floordiv, modulo. simpl.
    destruct (Z.eqb_spec num_shards 0) as [?|_]; [lia|]. simpl.
    do 2 f_equal. apply slice_past_end.
    unfold MapDataset.__len__.
    pose proof (len_nonneg (MapDataset.new_data self)) as Hl.
    pose proof (Z.mod_pos_bound (len (MapDataset.new_data self)) num_shards Hk).
    pose proof (Z.div_mod (len (MapDataset.new_data self)) num_shards ltac:(lia)).
    assert (0 <= len (MapDataset.new_data self) / num_shards)
      by (apply Z.div_pos; lia).
    nia.
  - intros Hlim Hi. rewrite shard_striped by lia. do 2 f_equal.
    apply select_nothing. intros idx _.
    pose proof (Z.mod_pos_bound idx num_shards Hk). apply Z.eqb_neq. lia.
Qed.

Lemma shard_index_out_of_range_witness :
  0 < 2 /\ 2 < float_limit
  /\ MapDataset.shard (D := Demo.single) Demo.five (Some 2) (Some 2) true
     = Ok (MapDataset.set_new_data Demo.five [])
  /\ MapDataset.shard (D := Demo.single) Demo.five (Some 2) (Some (-1)) false
     = Ok (MapDataset.set_new_data Demo.five []).
Proof.
  assert (0 < 2) as Hk by lia.
  assert (2 < float_limit) as Hlim by (vm_compute; reflexivity).
  split; [exact Hk|]. split; [exact Hlim|].
  destruct (@shard_index_out_of_range Z unit unit Demo.single Demo.five
              2 2 Hk) as [Hc _].
  destruct (@shard_index_out_of_range Z unit unit Demo.single Demo.five
              2 (-1) Hk) as [_ Hs].
  split; [apply Hc; lia | apply Hs; [exact Hlim | left; lia]].
Defined.

(** X7. In a single process (one trainer, rank 0) [shard()] with its
    defaults changes nothing, under either policy. *)
Theorem shard_single_process {A L V : Type} {D : dist}
    (self : MapDataset.t A L V) (num_shards index : option Z)
    (contiguous : bool) :
  default get_world_size num_shards = 1 ->
  default get_rank index = 0 ->
  MapDataset.shard self num_shards index contiguous = Ok self.
Proof.
  intros Hn Hi. unfold MapDataset.shard. rewrite Hn, Hi.
  destruct contiguous;
    [|rewrite truediv_defined_Ok
        by (pose proof float_limit_gt_1; simpl; lia)];
    simpl.
  - rewrite Z.div_1_r, Z.mod_1_r. simpl.
    unfold MapDataset.__len__. pose proof (len_nonneg (MapDataset.new_data self)).
    rewrite slice_inside by lia.
    replace (Z.to_nat (len (MapDataset.new_data self) * 0 + 0 `min` 0))
      with 0%nat by lia.
    replace (Z.to_nat _) with (length (MapDataset.new_data self))
      by (unfold len; lia).
    by rewrite drop_0, firstn_all, set_new_data_same.
  - rewrite comprehension_select, select_everything, set_new_data_same; [done|].
    intros idx _. by rewrite Z.mod_1_r.
Qed.

Lemma shard_single_process_witness :
  default (get_world_size (dist := Demo.single)) None = 1
  /\ default (get_rank (dist := Demo.single)) None = 0
  /\ MapDataset.shard (D := Demo.single) Demo.five None None false
     = Ok Demo.five.
Proof.
  assert (default (get_world_size (dist := Demo.single)) None = 1) as Hn
    by reflexivity.
  assert (default (get_rank (dist := Demo.single)) None = 0) as Hi
    by reflexivity.
  split; [exact Hn|]. split; [exact Hi|].
  exact (@shard_single_process Z unit unit Demo.single Demo.five None None
           false Hn Hi).
Defined.

(** X8. Two [filter] calls in a row, with any numbers of workers, keep
    what one call with the conjunction of the two predicates keeps; so
    the order of the two calls does not matter. *)
Theorem filter_composes {A L V : Type} {D : dist}
    (self : MapDataset.t A L V) (f g : A -> bool) (n1 n2 n3 : Z) :
  0 <= n1 -> 0 <= n2 -> 0 <= n3 ->
  (s ← MapDataset.filter self f n1; MapDataset.filter s g n2)
  = MapDataset.filter self (fun x => f x && g x) n3
  /\ (s ← MapDataset.filter self f n1; MapDataset.filter s g n2)
     = (s ← MapDataset.filter self g n2; MapDataset.filter s f n1).
Proof.
  intros H1 H2 H3.
  assert (forall (f g : A -> bool) n1 n2, 0 <= n1 -> 0 <= n2 ->
            (s ← MapDataset.filter self f n1; MapDataset.filter s g n2)
            = Ok (MapDataset.set_new_data self
                    (List.filter (fun x => f x && g x)
                                 (MapDataset.new_data self)))) as Htwo.
  { intros f' g' m1 m2 Hm1 Hm2.
    rewrite (filter_any_workers self f' m1 Hm1), bind_Ok.
    rewrite (filter_any_workers _ g' m2 Hm2). simpl.
    by rewrite filter_filter. }
  split.
  - by rewrite Htwo, filter_any_workers.
  - rewrite !Htwo by done. do 2 f_equal.
    apply List.filter_ext. intros x. apply andb_comm.
Qed.

Lemma filter_composes_witness :
  0 <= 0 /\ 0 <= 2 /\ 0 <= 3
  /\ (s ← MapDataset.filter (D := Demo.single) Demo.five (Z.ltb 15) 0;
      MapDataset.filter (D := Demo.single) s (Z.gtb 45) 2)
     = MapDataset.filter (D := Demo.single) Demo.five
         (fun x => Z.ltb 15 x && Z.gtb 45 x) 3.
Proof.
  assert (0 <= 0) as H1 by lia. assert (0 <= 2) as H2 by lia.
  assert (0 <= 3) as H3 by lia.
  split; [exact H1|]. split; [exact H2|]. split; [exact H3|].
  exact (proj1 (@filter_composes Z unit unit Demo.single Demo.five
                  (Z.ltb 15) (Z.gtb 45) 0 2 3 H1 H2 H3)).
Defined.

(** X9. Sharding and an eager per-sample [map] commute where [shard]
    returns (for a [num_shards] other than zero, and one that a float
    can hold under the striped policy): mapping all the records and then
    taking a shard leaves the dataset that taking the shard and then
    mapping it leaves. *)
Theorem shard_commutes_with_map {A L V : Type} {D : dist}
    (self : MapDataset.t A L V) (fn : A -> A) (num_shards index : option Z)
    (contiguous : bool) :
  default get_world_size num_shards <> 0 ->
  contiguous = true
  \/ Z.abs (default get_world_size num_shards) < float_limit ->
  exists s,
    (s1 ← MapDataset.map self (MapDataset.PerSample fn) false 0;
     MapDataset.shard s1 num_shards index contiguous) = Ok s
    /\ (s2 ← MapDataset.shard self num_shards index contiguous;
        MapDataset.map s2 (MapDataset.PerSample fn) false 0) = Ok s
    /\ MapDataset.new_data s
       = fn <$> More.shard_records (MapDataset.new_data self)
                  (default get_world_size num_shards)
                  (default get_rank index) contiguous.
Proof.
  intros Hn Hlim. eexists.
  rewrite map_eager_eq, bind_Ok, !shard_eq by done. simpl.
  rewrite map_eager_eq. simpl. rewrite shard_records_fmap.
  split; [reflexivity|]. split; reflexivity.
Qed.

Lemma shard_commutes_with_map_witness :
  exists s,
    (s1 ← MapDataset.map (D := Demo.single) Demo.five
            (MapDataset.PerSample (Z.add 1)) false 0;
     MapDataset.shard (D := Demo.single) s1 (Some 2) (Some 1) false) = Ok s
    /\ (s2 ← MapDataset.shard (D := Demo.single) Demo.five (Some 2) (Some 1)
                false;
        MapDataset.map (D := Demo.single) s2 (MapDataset.PerSample (Z.add 1))
                       false 0) = Ok s
    /\ MapDataset.new_data s = [21; 41].
Proof.
  apply (@shard_commutes_with_map Z unit unit Demo.single Demo.five (Z.add 1)
           (Some 2) (Some 1) false).
  - simpl. lia.
  - right. vm_compute. reflexivity.
Defined.

(** ** IterDataset: transforms, shards, filters *)

Section MoreIterDataset.
Context {A Pred St L V : Type} {D : dist}.
Variable call : Pred -> IterDataset.arg A Pred -> bool.
Implicit Types (self : IterDataset.t A Pred St L V) (examples : list A).

Lemma iter_run_pipline_fold (fns : list (A -> A)) (x : A) :
  IterDataset.run_pipline fns x = fold_left (fun d fn => fn d) fns x.
Proof. revert x. induction fns as [|fn fns IH]; intros x; [done|]. apply IH. Qed.

Lemma emit_fold self x :
  IterDataset.emit self x
  = fold_left (fun d fn => fn d) (IterDataset._transform_pipline self) x.
Proof.
  unfold IterDataset.emit, IterDataset._transform.
  rewrite iter_run_pipline_fold. by destruct (IterDataset._transform_pipline self).
Qed.

(** Registering transforms on a fresh dataset. *)
Lemma maps_fresh (src : IterDataset.source A St) (ll : option L)
    (vi : option V) (fns pre : list (A -> A)) self :
  IterDataset._filter_pipline self = [] ->
  IterDataset._shard_filter self = (fun _ => Ok true) ->
  IterDataset.data self = src ->
  IterDataset._transform_pipline self = pre ->
  let self' := fold_left IterDataset.map fns self in
  IterDataset._filter_pipline self' = []
  /\ IterDataset._shard_filter self' = (fun _ => Ok true)
  /\ IterDataset.data self' = src
  /\ IterDataset._transform_pipline self' = pre ++ fns.
Proof.
  revert self pre. induction fns as [|fn fns IH]; intros self pre Hf Hs Hd Hp.
  - simpl. by rewrite app_nil_r.
  - simpl. destruct (IH (IterDataset.map self fn) (pre ++ [fn]))
      as (? & ? & ? & Hp'); simpl; try done.
    + by rewrite Hp.
    + by rewrite <- app_assoc in Hp'.
Qed.

End MoreIterDataset.

(** X10. A streaming dataset on which only [map] was called yields every
    sample of its source, in order, each passed through the registered
    functions in the order of their registration; an exception of the
    source ends the iteration after the samples drawn before it. *)
Theorem iter_applies_maps_in_order {A Pred St L V : Type}
    (call : Pred -> IterDataset.arg A Pred -> bool)
    (src : IterDataset.source A St) (ll : option L) (vi : option V)
    (fns : list (A -> A)) (st : St) :
  IterDataset.__iter__ call
    (fold_left IterDataset.map fns (IterDataset.__init__ src ll vi)) st
  = let '(st', (examples, ending)) := Spec.draw src st in
    (st', ((fun x => fold_left (fun d fn => fn d) fns x) <$> examples, ending)).
Proof.
  destruct (maps_fresh (Pred:=Pred) src ll vi fns []
              (IterDataset.__init__ src ll vi))
    as (Hf & Hs & Hd & Hp); try done.
  rewrite __iter___draw
    by (apply passes_total; intros p; rewrite Hs; by eexists).
  rewrite Hd. destruct (Spec.draw src st) as [st' [examples ending]].
  rewrite loop_all_or_nothing by (intros p; by rewrite Hs).
  unfold Spec.filter_test. rewrite Hf. simpl. do 2 f_equal.
  apply list_fmap_ext. intros i x _. by rewrite emit_fold, Hp.
Qed.

(** X11. Streaming [shard(num_shards, index)] selects what the striped
    [shard] of a sequence dataset selects: for a [num_shards] other than
    zero that a float can hold, iterating the sharded stream over a list
    yields the records that [MapDataset.shard] with [contiguous=False]
    stores for the same list. *)
Theorem iter_shard_matches_striped {A Pred St L V : Type} {D : dist}
    (call : Pred -> IterDataset.arg A Pred -> bool) (l : list A)
    (ll : option L) (vi : option V) (num_shards index : option Z) (st : St) :
  default get_world_size num_shards <> 0 ->
  Z.abs (default get_world_size num_shards) < float_limit ->
  exists s,
    MapDataset.shard (MapDataset.__init__ l ll vi) num_shards index false = Ok s
    /\ IterDataset.__iter__ call
         (IterDataset.shard
            (IterDataset.__init__ (IterDataset.Iterable l) ll vi)
            num_shards index) st
       = (st, (MapDataset.new_data s, None)).
Proof.
  intros Hn Hlim. eexists. split.
  - rewrite shard_eq by (done || by right). reflexivity.
  - rewrite __iter___draw
      by (apply passes_total; intros p; simpl;
          rewrite sharder_defined by done; by eexists).
    simpl.
    rewrite (loop_positions call _
               (fun p => p mod default get_world_size num_shards
                         =? default get_rank index)); [|done|].
    + by rewrite list_fmap_id.
    + intros p. by apply sharder_defined.
Qed.

Lemma iter_shard_matches_striped_witness :
  default (get_world_size (dist := Demo.single)) (Some 3) <> 0
  /\ Z.abs (default (get_world_size (dist := Demo.single)) (Some 3))
     < float_limit
  /\ exists s,
       MapDataset.shard (D := Demo.single)
         (MapDataset.__init__ [10; 20; 30; 40; 50] (@None unit) (@None unit))
         (Some 3) (Some 1) false = Ok s
       /\ IterDataset.__iter__ Demo.call
            (IterDataset.shard (D := Demo.single)
               (IterDataset.__init__
                  (IterDataset.Iterable [10; 20; 30; 40; 50])
                  (@None unit) (@None unit))
               (Some 3) (Some 1)) tt
          = (tt, (MapDataset.new_data s, None)).
Proof.
  assert (default (get_world_size (dist := Demo.single)) (Some 3) <> 0)
    as Hn by (simpl; lia).
  assert (Z.abs (default (get_world_size (dist := Demo.single)) (Some 3))
          < float_limit) as Hlim by (vm_compute; reflexivity).
  split; [exact Hn|]. split; [exact Hlim|].
  exact (@iter_shard_matches_striped Z Demo.pred unit unit unit Demo.single
           Demo.call [10; 20; 30; 40; 50] None None (Some 3) (Some 1) tt
           Hn Hlim).
Defined.

(** X12. The streaming shards [0 .. num_shards-1] of a dataset share out
    its samples: what they yield, taken together, is a permutation of
    what the source hands out, transformed (when the filter condition of
    the dataset holds). *)
Theorem iter_shards_share_out {A Pred St L V : Type} {D : dist}
    (call : Pred -> IterDataset.arg A Pred -> bool)
    (self : IterDataset.t A Pred St L V) (num_shards : Z)
    (st st' : St) (examples : list A) :
  0 < num_shards ->
  Spec.filter_test call self = true ->
  Spec.draw (IterDataset.data self) st = (st', (examples, None)) ->
  Permutation
    (concat ((fun i => fst (snd (IterDataset.__iter__ call
                                   (IterDataset.shard self (Some num_shards)
                                                      (Some i)) st)))
             <$> range num_shards))
    (IterDataset.emit self <$> examples).
Proof.
  intros Hk Hg Hdraw.
  rewrite (list_fmap_ext _
    (fun i => IterDataset.emit self
              <$> Spec.select (fun p (_ : A) => p mod num_shards =? i) id 0
                              examples) (range num_shards)).
  - assert (concat ((fun i => IterDataset.emit self
                      <$> Spec.select (fun p (_ : A) => p mod num_shards =? i)
                                      id 0 examples) <$> range num_shards)
            = IterDataset.emit self
              <$> concat ((fun i => Spec.select
                             (fun p (_ : A) => p mod num_shards =? i)
                             id 0 examples) <$> range num_shards)) as ->
      by (by rewrite fmap_concat, <- list_fmap_compose).
    apply fmap_Permutation. by apply striped_permutation.
  - intros _ i _.
    rewrite __iter___draw
      by (apply passes_total; intros p; simpl;
          rewrite sharder_defined by lia; by eexists).
    simpl. rewrite Hdraw.
    rewrite (loop_positions call _ (fun p => p mod num_shards =? i)); [done..|].
    intros p. apply sharder_defined. lia.
Qed.

Lemma iter_shards_share_out_witness :
  0 < 3
  /\ Permutation
       (concat ((fun i => fst (snd (IterDataset.__iter__ Demo.call
                                      (IterDataset.shard (D := Demo.single)
                                         Demo.ten (Some 3) (Some i)) tt)))
                <$> range 3))
       (IterDataset.emit Demo.ten
        <$> [100; 101; 102; 103; 104; 105; 106; 107; 108; 109]).
Proof.
  assert (0 < 3) as Hk by lia. split; [exact Hk|].
  exact (@iter_shards_share_out Z Demo.pred unit unit unit Demo.single
           Demo.call Demo.ten 3 tt tt
           [100; 101; 102; 103; 104; 105; 106; 107; 108; 109]
           Hk eq_refl eq_refl).
Defined.

(** X13. Whether a streaming dataset yields a sample never depends on
    the sample: the registered filter functions are called on the list of
    filter functions, so (with a shard predicate [keep] that does not
    raise) iteration yields the samples at all the positions that [keep]
    selects when every filter function holds on that list, and no sample
    at all when one of them does not. *)
Theorem iter_filters_all_or_nothing {A Pred St L V : Type}
    (call : Pred -> IterDataset.arg A Pred -> bool)
    (self : IterDataset.t A Pred St L V) (keep : Z -> bool)
    (st st' : St) (examples : list A) (ending : option exn) :
  (forall p, IterDataset._shard_filter self p = Ok (keep p)) ->
  Spec.draw (IterDataset.data self) st = (st', (examples, ending)) ->
  IterDataset.__iter__ call self st
  = (st',
     (if forallb (fun fn => call fn (IterDataset.Functions
                                       (IterDataset._filter_pipline self)))
                 (IterDataset._filter_pipline self)
      then IterDataset.emit self
             <$> Spec.select (fun p _ => keep p) id 0 examples
      else [],
      ending)).
Proof.
  intros Hkeep Hdraw.
  rewrite __iter___draw
    by (apply passes_total; intros p; rewrite Hkeep; by eexists).
  rewrite Hdraw.
  assert (Spec.filter_test call self
          = forallb (fun fn => call fn (IterDataset.Functions
                                          (IterDataset._filter_pipline self)))
                    (IterDataset._filter_pipline self)) as Htest.
  { unfold Spec.filter_test, IterDataset._filter.
    generalize (IterDataset.Functions (A:=A) (IterDataset._filter_pipline self))
      as d.
    intros d. destruct (IterDataset._filter_pipline self) as [|fn fns]; [done|].
    rewrite orb_false_l. generalize (fn :: fns) as fs. clear.
    induction fs as [|f fs IH]; [done|]. simpl. rewrite IH.
    by destruct (call f d). }
  rewrite <- Htest. destruct (Spec.filter_test call self) eqn:Hg.
  - by rewrite (loop_positions call self keep).
  - by rewrite loop_filter_fails.
Qed.

Lemma iter_filters_all_or_nothing_witness :
  IterDataset.__iter__ Demo.call Demo.one_two_three tt
  = (tt, ([1; 2; 3], None)).
Proof.
  exact (@iter_filters_all_or_nothing Z Demo.pred unit unit unit Demo.call
           Demo.one_two_three (fun _ => true) tt tt [1; 2; 3] None
           (fun p => eq_refl) eq_refl).
Defined.

(** X14. [shard] with [num_shards = 0] is accepted, and the division by
    zero shows on iteration.  When the filter condition holds, the loop
    asks the source for its first sample and raises [ZeroDivisionError]
    on it: nothing is yielded, and the source is not asked for another
    sample, so what it would have done for the later ones stays undone;
    over an empty source nothing is raised.  When the filter condition
    fails, the shard predicate is never evaluated: the source is
    traversed to its end and nothing is yielded. *)
Theorem iter_shard_zero {A Pred St L V : Type} {D : dist}
    (call : Pred -> IterDataset.arg A Pred -> bool)
    (self : IterDataset.t A Pred St L V) (num_shards index : option Z)
    (st : St) :
  default get_world_size num_shards = 0 ->
  IterDataset.__iter__ call (IterDataset.shard self num_shards index) st
  = if Spec.filter_test call self
    then match Spec.start (IterDataset.data self) st with
         | (st1, Exhausted ending) => (st1, ([], ending))
         | (st1, Suspended _ _) => (st1, ([], Some ZeroDivisionError))
         end
    else let '(st', (_, ending)) := Spec.draw (IterDataset.data self) st in
         (st', ([], ending)).
Proof.
  intros Hn. set (sharded := IterDataset.shard self num_shards index).
  assert (Spec.filter_test call sharded = Spec.filter_test call self) as Htest
    by done.
  destruct (Spec.filter_test call self) eqn:Hg.
  - assert (forall p, IterDataset.passes call sharded p
                      = Raise ZeroDivisionError) as Hp.
    { intros p. rewrite passes_filter_test, Htest. unfold sharded. simpl.
      by rewrite Hn. }
    unfold IterDataset.__iter__, Spec.start.
    change (IterDataset.data sharded) with (IterDataset.data self).
    destruct (IterDataset.data self) as [f|l|f].
    + destruct (f st) as [st1 g].
      rewrite (traverse_raises call sharded 0 g st1 ZeroDivisionError Hp).
      by destruct g.
    + destruct l as [|x l]; [done|]. simpl. by rewrite Hp.
    + destruct (f st) as [st1 g].
      rewrite (traverse_raises call sharded 0 g st1 ZeroDivisionError Hp).
      by destruct g.
  - rewrite __iter___draw.
    + change (IterDataset.data sharded) with (IterDataset.data self).
      destruct (Spec.draw (IterDataset.data self) st)
        as [st' [examples ending]].
      by rewrite loop_filter_fails.
    + intros p. exists false. by rewrite passes_filter_test, Htest.
Qed.

Lemma iter_shard_zero_witness :
  exists h1,
    IterDataset.__iter__ (fun _ _ => true)
      (IterDataset.shard (D := Demo.single)
         (IterDataset.__init__ (Pred := Demo.pred)
            (IterDataset.Generator
               (generate_examples_call (Demo.builder true [0%nat; 1%nat])
                                       "f" "train"))
            (Some Demo.labels_abc) (@None unit))
         (Some 0) (Some 0))
      Demo.heap_labels
    = (h1, ([], Some ZeroDivisionError))
    /\ h1 !! 0%nat = Demo.heap_indices !! 0%nat
    /\ h1 !! 2%nat = Demo.heap_labels !! 2%nat.
Proof.
  eexists. split.
  - rewrite (@iter_shard_zero loc Demo.pred heap (list string) unit
               Demo.single (fun _ _ => true)
               (IterDataset.__init__
                  (IterDataset.Generator
                     (generate_examples_call (Demo.builder true [0%nat; 1%nat])
                                             "f" "train"))
                  (Some Demo.labels_abc) None)
               (Some 0) (Some 0) Demo.heap_labels eq_refl).
    reflexivity.
  - split; vm_compute; reflexivity.
Defined.

(** ** DatasetBuilder: the label dictionary and the conversion *)

(** X15. The label dictionary built from [label_list] maps a string to a
    position exactly when the string stands at that position and nowhere
    after it: a label listed twice gets its last position, and a string
    that is not listed has no entry. *)
Theorem label_dict_last_position (label_list : list string) (s : string) :
  (forall i : nat,
     build_label_dict label_list !! s = Some i
     <-> label_list !! i = Some s
         /\ forall j : nat, (i < j)%nat -> label_list !! j <> Some s)
  /\ (build_label_dict label_list !! s = None <-> s ∉ label_list).
Proof.
  split; [apply build_label_dict_last | apply build_label_dict_None].
Qed.

Lemma label_dict_last_position_witness :
  build_label_dict ["a"; "b"; "a"] !! "a" = Some 2%nat.
Proof.
  apply (proj1 (@label_dict_last_position ["a"; "b"; "a"] "a") 2%nat).
  split; [reflexivity|].
  intros [|[|[|j]]] Hj; try lia; simpl; discriminate.
Defined.

Section MoreRead.
Context {V Pred : Type}.
Implicit Types (self : DatasetBuilder.t V) (h : heap) (r q : loc)
  (d : gmap string val) (ll : list string).

Lemma run_bind_fails {X Y} (m : M X) (k : X -> M Y) (h h' : heap) (e : exn) :
  m h = (h', Raise e) -> (m ≫= k) h = (h', Raise e).
Proof. intros Hm. by rewrite run_bind, Hm. Qed.

Lemma subscript_missing h r d key :
  h !! r = Some (ODict d) -> d !! key = None ->
  subscript r key h = (h, Raise KeyError).
Proof.
  intros Hr Hk. unfold subscript.
  rewrite (run_bind_Ok _ _ _ _ _ (deref_Some _ _ _ Hr)). by rewrite Hk.
Qed.

(** Eager [read] on a source whose first record has a label field
    [col] with a value that counts as true: the loop over the records
    decides the outcome. *)
Lemma read_eager_eq self filename split ll h h0 first rest d col :
  lazy self = false -> get_labels self = Some ll ->
  call_read self filename split h = (h0, (first :: rest, None)) ->
  h0 !! first = Some (ODict d) -> Spec.column_of d = Some col ->
  (v ← dict_get first (Some col); truthy v) h0 = (h0, Ok true) ->
  read (Pred:=Pred) self filename split h
  = match for_each (first :: rest)
            (fun example => convert_labels (build_label_dict ll) example col)
            h0 with
    | (h', Ok _) =>
        (h', Ok (Map (MapDataset.__init__ (first :: rest) (Some ll)
                        (get_vocab self))))
    | (h', Raise e) => (h', Raise e)
    end.
Proof.
  intros Hlazy Hll Hread Hfirst Hcol Ht. unfold read. rewrite Hlazy, Hll.
  unfold materialize at 1. rewrite run_bind, Hread. cbv iota beta.
  rewrite (run_bind_Ok _ _ _ _ _ (label_column_dict _ _ _ Hfirst)), Hcol.
  unfold wants_conversion.
  rewrite (run_bind_Ok _ _ _ _ _ Ht).
  rewrite run_bind, for_each_range.
  by destruct (for_each _ _ h0) as [h' [[]|e]].
Qed.

(** The lazy step on such a record is the conversion. *)
Lemma generate_step_truthy ll h r d col :
  h !! r = Some (ODict d) -> Spec.column_of d = Some col ->
  (v ← dict_get r (Some col); truthy v) h = (h, Ok true) ->
  generate_step (Some ll) r h = convert_labels (build_label_dict ll) r col h.
Proof.
  intros Hr Hcol Ht. unfold generate_step.
  rewrite (run_bind_Ok _ _ _ _ _ (label_column_dict _ _ _ Hr)), Hcol.
  unfold wants_conversion. by rewrite (run_bind_Ok _ _ _ _ _ Ht).
Qed.

(** When the conversion of the first record fails, both modes stop
    there, with what the conversion had written. *)
Lemma first_record_fails self filename split ll h h0 h' first rest ending d col e :
  get_labels self = Some ll ->
  call_read self filename split h = (h0, (first :: rest, ending)) ->
  h0 !! first = Some (ODict d) -> Spec.column_of d = Some col ->
  (v ← dict_get first (Some col); truthy v) h0 = (h0, Ok true) ->
  convert_labels (build_label_dict ll) first col h0 = (h', Raise e) ->
  (lazy self = false -> ending = None ->
   read (Pred:=Pred) self filename split h = (h', Raise e))
  /\ generate_examples self filename split h = (h', ([], Some e)).
Proof.
  intros Hll Hread Hfirst Hcol Ht Hconv. split.
  - intros Hlazy ->.
    rewrite (read_eager_eq self filename split ll h h0 first rest d col);
      try done.
    change (for_each (first :: rest) ?body h0)
      with ((body first ≫= fun _ => for_each rest body) h0).
    by rewrite (run_bind_fails _ _ _ _ _ Hconv).
  - unfold generate_examples. rewrite Hread, Hll. simpl.
    by rewrite (generate_step_truthy ll h0 first d col Hfirst Hcol Ht), Hconv.
Qed.

Lemma truthy_atom h a : truthy (VAtom a) h = (h, Ok (More.atom_truth a)).
Proof. by destruct a. Qed.

Lemma truthy_falsy h v : More.falsy h v = true -> truthy v h = (h, Ok false).
Proof.
  destruct v as [a|q]; unfold More.falsy.
  - intros Ha. rewrite truthy_atom. by apply negb_true_iff in Ha as ->.
  - destruct (h !! q) as [o|] eqn:Hq; [|done]. intros Ho. unfold truthy.
    rewrite (run_bind_Ok _ _ _ _ _ (deref_Some _ _ _ Hq)).
    destruct o as [items|items|d0]; simpl in Ho.
    + by destruct items.
    + by destruct items.
    + apply bool_decide_eq_true in Ho as ->. by rewrite map_size_empty.
Qed.

Lemma generate_step_skips ll h r :
  More.without_label h r = true -> generate_step (Some ll) r h = (h, Ok tt).
Proof.
  unfold More.without_label. destruct (h !! r) as [[| |d]|] eqn:Hr; try done.
  intros Hv. unfold generate_step.
  rewrite (run_bind_Ok _ _ _ _ _ (label_column_dict _ _ _ Hr)).
  unfold wants_conversion.
  rewrite run_bind, (run_bind_Ok _ _ _ _ _ (dict_get_dict _ _ _ _ Hr)).
  destruct (Spec.column_of d ≫= fun col => d !! col) as [v|] eqn:Hd.
  - simpl. by rewrite (truthy_falsy _ _ Hv).
  - done.
Qed.

Lemma for_each_skips ll h rs :
  Forall (fun r => More.without_label h r = true) rs ->
  for_each rs (generate_step (Some ll)) h = (h, Ok tt).
Proof.
  induction 1 as [|r rs Hr _ IH]; [done|].
  simpl. by rewrite run_bind, (generate_step_skips _ _ _ Hr).
Qed.

(** A dict is none of the objects written to when described records are
    converted, unless it is one of the records. *)
Lemma dict_untouched h r d (xs : list Spec.labelled) :
  h !! r = Some (ODict d) -> Forall (Spec.holds h) xs ->
  r ∉ Spec.rec <$> xs -> r ∉ Spec.touched <$> xs.
Proof.
  intros Hr Hxs Hnin Hin. apply list_elem_of_fmap in Hin as (x & Heq & Hx).
  rewrite Forall_forall in Hxs. destruct (Hxs x Hx) as [_ Hv].
  unfold Spec.touched in Heq. destruct (Spec.value x) as [s|q ss].
  - apply Hnin. rewrite Heq. apply list_elem_of_fmap. eauto.
  - destruct Hv as (_ & Hq & _). congruence.
Qed.

End MoreRead.

Section MoreProcess.
Variable label_list : list string.
Variables step1 step2 : loc -> M unit.
Implicit Types (h : heap) (x y : Spec.labelled) (xs : list Spec.labelled).

(** Two loops whose steps both convert the described records do the
    same, whether the labels are known or not. *)
Lemma process_agree xs h :
  NoDup (Spec.rec <$> xs) -> NoDup (Spec.lists xs) ->
  Forall (Spec.holds h) xs ->
  (forall x h0, x ∈ xs -> Spec.holds h0 x ->
     step1 (Spec.rec x) h0
     = convert_labels (build_label_dict label_list) (Spec.rec x) (Spec.column x) h0) ->
  (forall x h0, x ∈ xs -> Spec.holds h0 x ->
     step2 (Spec.rec x) h0
     = convert_labels (build_label_dict label_list) (Spec.rec x) (Spec.column x) h0) ->
  for_each (Spec.rec <$> xs) step1 h = for_each (Spec.rec <$> xs) step2 h.
Proof.
  revert h. induction xs as [|x xs IH]; intros h Hrecs Hlists Hh H1 H2;
    [done|].
  pose proof Hh as Hh'. apply Forall_cons in Hh' as [Hx Hxs].
  simpl. rewrite !run_bind.
  rewrite (H1 x h (list_elem_of_here _ _) Hx),
          (H2 x h (list_elem_of_here _ _) Hx).
  destruct (decide (Forall (fun s => s ∈ label_list)
                           (Spec.labels_of (Spec.value x)))) as [Hkx|Hkx].
  - destruct (convert_known label_list h x Hx Hkx) as (h1 & Hrun & _ & Hframe).
    pose proof (holds_after h h1 x xs Hrecs Hlists Hx Hxs Hframe) as Hxs1.
    rewrite Hrun. apply IH; [| |done| |].
    + rewrite fmap_cons in Hrecs. by apply NoDup_cons in Hrecs as [_ ?].
    + rewrite lists_cons in Hlists. destruct (Spec.value x); [done|].
      by apply NoDup_cons in Hlists as [_ ?].
    + intros y h0 Hy. apply H1. by right.
    + intros y h0 Hy. apply H2. by right.
  - destruct (convert_unknown label_list h x Hx Hkx) as (h1 & Hrun).
    by rewrite Hrun.
Qed.

End MoreProcess.

(** X16. Without a label list ([get_labels()] returns [None]) [read]
    converts nothing: the eager dataset holds the records as the source
    handed them out, a full traversal of the lazy generator yields them
    all, and no object is written to.  The code still asks every record
    it looks at for its keys: the eager branch the first one, the lazy
    branch each one. *)
Theorem read_without_label_list {V Pred : Type} (self : DatasetBuilder.t V)
    (filename split : string) (h h0 : heap) (first : loc) (rest : list loc)
    (d : gmap string val) :
  get_labels self = None ->
  call_read self filename split h = (h0, (first :: rest, None)) ->
  h0 !! first = Some (ODict d) ->
  (lazy self = false ->
   read (Pred:=Pred) self filename split h
   = (h0, Ok (Map (MapDataset.__init__ (first :: rest) None
                     (get_vocab self)))))
  /\ (Forall (fun r => exists d', h0 !! r = Some (ODict d')) rest ->
      generate_examples self filename split h
      = (h0, (first :: rest, None))).
Proof.
  intros Hll Hread Hfirst. split.
  - intros Hlazy. unfold read. rewrite Hlazy, Hll.
    unfold materialize at 1. rewrite run_bind, Hread. cbv iota beta.
    by rewrite (run_bind_Ok _ _ _ _ _ (label_column_dict _ _ _ Hfirst)).
  - intros Hrest. unfold generate_examples. rewrite Hread, Hll.
    assert (Forall (fun r => exists d', h0 !! r = Some (ODict d'))
                   (first :: rest)) as Hall by (constructor; eauto).
    clear Hfirst Hrest Hread. induction Hall as [|r rs [d' Hr] _ IH]; [done|].
    simpl. unfold generate_step at 1.
    rewrite (run_bind_Ok _ _ _ _ _ (label_column_dict _ _ _ Hr)).
    simpl. by rewrite IH.
Qed.

Lemma read_without_label_list_witness :
  generate_examples (More.plain_builder true [0%nat; 1%nat])
    "f" "train" Demo.heap_labels
  = (Demo.heap_labels, ([0%nat; 1%nat], None)).
Proof.
  refine (proj2 (@read_without_label_list unit Demo.pred
                   (More.plain_builder true [0%nat; 1%nat]) "f" "train"
                   Demo.heap_labels Demo.heap_labels 0%nat [1%nat]
                   {[ "label" := VAtom (AStr "b") ]}
                   eq_refl eq_refl eq_refl) _).
  repeat constructor. by exists {[ "labels" := VRef 2%nat ]}.
Defined.

(** X17. Eager [read] uses the label field name of the first record for
    every record: when the first records are converted under that name
    and a later record is a dict without that key, the call raises
    [KeyError], whatever else that record holds. *)
Theorem read_eager_missing_column {V Pred : Type} (self : DatasetBuilder.t V)
    (filename split : string) (label_list : list string)
    (first : Spec.labelled) (xs : list Spec.labelled) (r : loc)
    (post : list loc) (d : gmap string val) (h h0 : heap) :
  lazy self = false ->
  get_labels self = Some label_list ->
  call_read self filename split h
  = (h0, ((Spec.rec <$> (first :: xs)) ++ r :: post, None)) ->
  NoDup (Spec.rec <$> (first :: xs)) -> NoDup (Spec.lists (first :: xs)) ->
  Forall (Spec.holds h0) (first :: xs) ->
  Forall (Spec.known label_list) (first :: xs) ->
  Spec.column_of (Spec.fields first) = Some (Spec.column first) ->
  Forall (fun x => Spec.column x = Spec.column first) xs ->
  h0 !! r = Some (ODict d) -> d !! Spec.column first = None ->
  r ∉ Spec.rec <$> (first :: xs) ->
  exists h',
    read (Pred:=Pred) self filename split h = (h', Raise KeyError).
Proof.
  intros Hlazy Hll Hread Hrecs Hlists Hh Hk Hcol Hcols Hr Hmiss Hnin.
  set (step := fun example : loc =>
         convert_labels (build_label_dict label_list) example
                        (Spec.column first)).
  destruct (process_all label_list step (first :: xs) h0 Hrecs Hlists Hh Hk)
    as (h1 & Hrun & _ & Hframe).
  { intros y h2 Hy _. unfold step. apply elem_of_cons in Hy as [->|Hy]; [done|].
    rewrite Forall_forall in Hcols. by rewrite (Hcols y Hy). }
  assert (h1 !! r = Some (ODict d)) as Hr1.
  { rewrite Hframe; [done|]. by eapply dict_untouched. }
  exists h1.
  rewrite (read_eager_eq self filename split label_list h h0
             (Spec.rec first) ((Spec.rec <$> xs) ++ r :: post)
             (Spec.fields first) (Spec.column first));
    try done;
    [|by apply (Forall_inv Hh)|by apply truthy_holds, (Forall_inv Hh)].
  change (Spec.rec first :: (Spec.rec <$> xs) ++ r :: post)
    with ((Spec.rec <$> first :: xs) ++ r :: post).
  rewrite (for_each_app _ _ _ _ _ Hrun).
  assert (step r h1 = (h1, Raise KeyError)) as Hstep.
  { unfold step, convert_labels.
    by rewrite (run_bind_fails _ _ _ _ _ (subscript_missing _ _ _ _ Hr1 Hmiss)). }
  change (for_each (r :: post) step h1)
    with ((step r ≫= fun _ => for_each post step) h1).
  by rewrite (run_bind_fails _ _ _ _ _ Hstep).
Qed.

Lemma read_eager_missing_column_witness :
  exists h',
    read (Pred:=Demo.pred) (Demo.builder false [1%nat; 0%nat]) "f" "train"
         Demo.heap_text_first
    = (h', Raise KeyError).
Proof.
  apply (@read_eager_missing_column unit Demo.pred
           (Demo.builder false [1%nat; 0%nat]) "f" "train" Demo.labels_abc
           More.record_b_second [] 0%nat []
           {[ "text" := VAtom (AStr "x") ]}
           Demo.heap_text_first Demo.heap_text_first).
  - reflexivity.
  - reflexivity.
  - reflexivity.
  - apply (bool_decide_unpack _). vm_compute. exact I.
  - apply (bool_decide_unpack _). vm_compute. exact I.
  - repeat constructor; vm_compute; congruence.
  - repeat constructor; apply (bool_decide_unpack _); vm_compute; exact I.
  - reflexivity.
  - constructor.
  - reflexivity.
  - reflexivity.
  - apply (bool_decide_unpack _). vm_compute. exact I.
Defined.

Section MoreConvert.
Implicit Types (h : heap) (r q : loc) (d : gmap string val) (col : string)
  (ll : list string).

(** A label value that is neither a string nor a sequence counts as
    true, and its lookup fails before anything is written. *)
Lemma convert_refused ll h r d col v e :
  h !! r = Some (ODict d) -> d !! col = Some v -> More.refused h v = Some e ->
  (v ← dict_get r (Some col); truthy v) h = (h, Ok true)
  /\ convert_labels (build_label_dict ll) r col h = (h, Raise e).
Proof.
  intros Hr Hc Hv.
  rewrite (run_bind_Ok _ _ _ _ _ (dict_get_dict _ _ _ _ Hr)). simpl.
  rewrite Hc. simpl. unfold convert_labels.
  rewrite (run_bind_Ok _ _ _ _ _ (subscript_Some _ _ _ _ _ Hr Hc)).
  destruct v as [a|q]; simpl in Hv.
  - rewrite truthy_atom.
    rewrite (run_bind_Ok (is_list_or_tuple (VAtom a)) _ h h false eq_refl).
    rewrite (run_bind_Ok _ _ _ _ _ (subscript_Some _ _ _ _ _ Hr Hc)).
    destruct a as [|b|n|s]; try done; simpl in *.
    + destruct b; [|done]. by injection Hv as <-.
    + destruct (n =? 0); [done|]. by injection Hv as <-.
  - destruct (h !! q) as [[| |d0]|] eqn:Hq; try done.
    case_bool_decide as Hd0; [done|]. injection Hv as <-.
    split.
    + unfold truthy.
      rewrite (run_bind_Ok _ _ _ _ _ (deref_Some _ _ _ Hq)), run_ret.
      do 2 f_equal. apply negb_true_iff, Nat.eqb_neq.
      intros Hsize. by apply map_size_empty_iff in Hsize.
    + unfold is_list_or_tuple.
      rewrite run_bind, (run_bind_Ok _ _ _ _ _ (deref_Some _ _ _ Hq)), run_ret.
      by rewrite (run_bind_Ok _ _ _ _ _ (subscript_Some _ _ _ _ _ Hr Hc)).
Qed.

(** A non-empty tuple of labels counts as true and goes to the
    element-wise branch, which fails on the first item. *)
Lemma convert_tuple ll h r d col q a items :
  h !! r = Some (ODict d) -> d !! col = Some (VRef q) ->
  h !! q = Some (OTuple (a :: items)) ->
  (v ← dict_get r (Some col); truthy v) h = (h, Ok true)
  /\ convert_labels (build_label_dict ll) r col h
     = (h, Raise (More.tuple_error ll a)).
Proof.
  intros Hr Hc Hq.
  rewrite (run_bind_Ok _ _ _ _ _ (dict_get_dict _ _ _ _ Hr)). simpl.
  rewrite Hc. simpl. split.
  { by rewrite (run_bind_Ok _ _ _ _ _ (deref_Some _ _ _ Hq)). }
  unfold convert_labels.
  rewrite (run_bind_Ok _ _ _ _ _ (subscript_Some _ _ _ _ _ Hr Hc)).
  unfold is_list_or_tuple.
  rewrite run_bind, (run_bind_Ok _ _ _ _ _ (deref_Some _ _ _ Hq)), run_ret.
  rewrite (run_bind_Ok _ _ _ _ _ (subscript_Some _ _ _ _ _ Hr Hc)).
  unfold seq_len.
  rewrite run_bind, (run_bind_Ok _ _ _ _ _ (deref_Some _ _ _ Hq)), run_ret.
  rewrite range_len. simpl. rewrite run_bind.
  rewrite (run_bind_Ok _ _ _ _ _ (subscript_Some _ _ _ _ _ Hr Hc)).
  unfold seq_getitem at 1.
  rewrite run_bind, (run_bind_Ok _ _ _ _ _ (deref_Some _ _ _ Hq)).
  unfold lift. pose proof (getitem_middle [] items a) as Hg. simpl in Hg.
  rewrite Hg. rewrite run_bind. unfold More.tuple_error.
  destruct a as [|b|n|s]; try done. simpl.
  case_bool_decide as Hs.
  - destruct (build_label_dict_elem ll s Hs) as (i & -> & _). rewrite run_ret.
    rewrite (run_bind_Ok _ _ _ _ _ (subscript_Some _ _ _ _ _ Hr Hc)).
    unfold seq_setitem.
    by rewrite (run_bind_Ok _ _ _ _ _ (deref_Some _ _ _ Hq)).
  - apply build_label_dict_None in Hs. by rewrite Hs.
Qed.

(** The element-wise loop up to the first label that is no key: the
    items before it have been replaced. *)
Lemma rewriting_loop_fails (label_dict : gmap string nat) h r d col q
    positions pre bad post more :
  h !! r = Some (ODict d) -> d !! col = Some (VRef q) -> r <> q ->
  mapM (fun s => label_dict !! s) pre = Some more ->
  label_dict !! bad = None ->
  for_each (Z.of_nat <$> seq (length positions) (length (pre ++ bad :: post)))
           (fun label_idx =>
              v ← subscript r col;
              label ← seq_getitem v label_idx;
              i ← label_index label_dict label;
              target ← subscript r col;
              seq_setitem target label_idx (AInt i))
           (Spec.rewriting h q positions (pre ++ bad :: post))
  = (Spec.rewriting h q (positions ++ more) (bad :: post), Raise KeyError).
Proof.
  intros Hr Hc Hne Hm Hbad. revert positions more Hm.
  induction pre as [|s pre IH]; intros positions more Hm.
  - injection Hm as <-. simpl. rewrite run_bind.
    pose proof (rewriting_step label_dict h r d col q positions bad post
                  Hr Hc Hne) as Hs.
    simpl in Hs. rewrite Hs, Hbad. by rewrite app_nil_r.
  - simpl in Hm. destruct (label_dict !! s) as [i|] eqn:Hi; [|done].
    simpl in Hm. destruct (mapM _ pre) as [more'|] eqn:Hm'; [|done].
    injection Hm as <-. simpl. rewrite run_bind.
    pose proof (rewriting_step label_dict h r d col q positions s
                  (pre ++ bad :: post) Hr Hc Hne) as Hs.
    simpl in Hs. rewrite Hs, Hi.
    pose proof (IH (positions ++ [i]) more' eq_refl) as Hrest.
    rewrite length_app, Nat.add_1_r, <- app_assoc in Hrest. exact Hrest.
Qed.

Lemma convert_sequence_fails (label_dict : gmap string nat) h r d col q
    pre bad post more :
  h !! r = Some (ODict d) -> d !! col = Some (VRef q) ->
  h !! q = Some (OList (AStr <$> (pre ++ bad :: post))) ->
  mapM (fun s => label_dict !! s) pre = Some more ->
  label_dict !! bad = None ->
  (v ← dict_get r (Some col); truthy v) h = (h, Ok true)
  /\ convert_labels label_dict r col h
     = (Spec.rewriting h q more (bad :: post), Raise KeyError).
Proof.
  intros Hr Hc Hq Hm Hbad. assert (r <> q) as Hne by congruence. split.
  { rewrite (run_bind_Ok _ _ _ _ _ (dict_get_dict _ _ _ _ Hr)). simpl.
    rewrite Hc. simpl.
    rewrite (run_bind_Ok _ _ _ _ _ (deref_Some _ _ _ Hq)).
    by destruct pre. }
  unfold convert_labels.
  rewrite (run_bind_Ok _ _ _ _ _ (subscript_Some _ _ _ _ _ Hr Hc)).
  unfold is_list_or_tuple.
  rewrite run_bind, (run_bind_Ok _ _ _ _ _ (deref_Some _ _ _ Hq)), run_ret.
  rewrite (run_bind_Ok _ _ _ _ _ (subscript_Some _ _ _ _ _ Hr Hc)).
  unfold seq_len.
  rewrite run_bind, (run_bind_Ok _ _ _ _ _ (deref_Some _ _ _ Hq)), run_ret.
  rewrite range_len, length_fmap.
  pose proof (rewriting_loop_fails label_dict h r d col q [] pre bad post more
                Hr Hc Hne Hm Hbad) as Hloop.
  assert (Spec.rewriting h q [] (pre ++ bad :: post) = h) as Hid
    by (unfold Spec.rewriting; simpl; by apply insert_id).
  simpl in Hloop. rewrite Hid in Hloop. exact Hloop.
Qed.

Lemma positions_of ll (ss : list string) :
  Forall (fun s => s ∈ ll) ss ->
  exists positions,
    mapM (fun s => build_label_dict ll !! s) ss = Some positions
    /\ Forall2 (Spec.index_in ll) ss positions.
Proof.
  induction 1 as [|s ss Hs _ (positions & Hm & Hp)].
  - exists []. split; [done|constructor].
  - destruct (build_label_dict_index ll s Hs) as (i & Hi & Hl).
    exists (i :: positions). split.
    + simpl. rewrite Hi. simpl. by rewrite Hm.
    + by constructor.
Qed.

(** The lazy generator against the loop of its steps. *)
Lemma generate_loop_eq (label_list : option (list string)) (rs : list loc) h :
  match for_each rs (generate_step label_list) h with
  | (h', Ok _) => generate_loop label_list rs None h = (h', (rs, None))
  | (h', Raise e) =>
      exists ys, generate_loop label_list rs None h = (h', (ys, Some e))
  end.
Proof.
  revert h. induction rs as [|r rs IH]; intros h; [done|].
  simpl. rewrite run_bind.
  destruct (generate_step label_list r h) as [h1 [[]|e]]; [|by exists []].
  specialize (IH h1). destruct (for_each rs _ h1) as [h2 [[]|e]].
  - by rewrite IH.
  - destruct IH as [ys ->]. by exists (r :: ys).
Qed.

End MoreConvert.

(** X18. A record that is a dict without a label field, or whose label
    counts as false ([None], [False], [0], the empty string, an empty
    list, tuple or dict), is not converted.  The lazy generator decides
    this for each record: a source of such records is yielded as it is.
    The eager branch decides on the first record for all of them: when
    the first record is of that kind, no record is converted, whatever
    the others hold. *)
Theorem falsy_labels_are_skipped {V Pred : Type} (self : DatasetBuilder.t V)
    (filename split : string) (label_list : list string) (first : loc)
    (rest : list loc) (ending : option exn) (h h0 : heap) :
  get_labels self = Some label_list ->
  call_read self filename split h = (h0, (first :: rest, ending)) ->
  More.without_label h0 first = true ->
  (Forall (fun r => More.without_label h0 r = true) rest ->
   generate_examples self filename split h = (h0, (first :: rest, ending)))
  /\ (lazy self = false -> ending = None ->
      read (Pred:=Pred) self filename split h
      = (h0, Ok (Map (MapDataset.__init__ (first :: rest) (Some label_list)
                        (get_vocab self))))).
Proof.
  intros Hll Hread Hfirst. split.
  - intros Hrest. unfold generate_examples. rewrite Hread, Hll.
    apply generate_loop_Ok, for_each_skips. by constructor.
  - intros Hlazy ->. unfold read. rewrite Hlazy, Hll.
    unfold materialize at 1. rewrite run_bind, Hread. cbv iota beta.
    unfold More.without_label in Hfirst.
    destruct (h0 !! first) as [[| |d]|] eqn:Hd; try done.
    rewrite (run_bind_Ok _ _ _ _ _ (label_column_dict _ _ _ Hd)).
    unfold wants_conversion.
    rewrite run_bind, (run_bind_Ok _ _ _ _ _ (dict_get_dict _ _ _ _ Hd)).
    destruct (Spec.column_of d ≫= fun col => d !! col) as [v|]; [|done].
    simpl. by rewrite (truthy_falsy _ _ Hfirst).
Qed.

Lemma falsy_labels_are_skipped_witness :
  generate_examples (Demo.builder true [0%nat; 1%nat; 3%nat]) "f" "train"
                    More.heap_falsy
  = (More.heap_falsy, ([0%nat; 1%nat; 3%nat], None)).
Proof.
  refine (proj1 (@falsy_labels_are_skipped unit Demo.pred
                   (Demo.builder true [0%nat; 1%nat; 3%nat]) "f" "train"
                   Demo.labels_abc 0%nat [1%nat; 3%nat] None
                   More.heap_falsy More.heap_falsy
                   eq_refl eq_refl eq_refl) _).
  repeat constructor.
Defined.

(** X19. With a label list, a first record whose label is a scalar that
    counts as true but is no string ([True], a number other than 0)
    makes [read] raise [KeyError], and one whose label is a non-empty
    dict makes it raise [TypeError]; nothing has been written by then.
    The eager call raises, the lazy generator raises before its first
    record. *)
Theorem non_string_labels_raise {V Pred : Type} (self : DatasetBuilder.t V)
    (filename split : string) (label_list : list string) (first : loc)
    (rest : list loc) (ending : option exn) (d : gmap string val)
    (col : string) (v : val) (e : exn) (h h0 : heap) :
  get_labels self = Some label_list ->
  call_read self filename split h = (h0, (first :: rest, ending)) ->
  h0 !! first = Some (ODict d) ->
  Spec.column_of d = Some col -> d !! col = Some v ->
  More.refused h0 v = Some e ->
  (lazy self = false -> ending = None ->
   read (Pred:=Pred) self filename split h = (h0, Raise e))
  /\ generate_examples self filename split h = (h0, ([], Some e)).
Proof.
  intros Hll Hread Hfirst Hcol Hv He.
  destruct (convert_refused label_list h0 first d col v e Hfirst Hv He)
    as [Ht Hconv].
  by apply (first_record_fails self filename split label_list h h0 h0
              first rest ending d col e).
Qed.

Lemma non_string_labels_raise_witness :
  generate_examples (Demo.builder true [0%nat; 1%nat]) "f" "train"
                    Demo.heap_indices
  = (Demo.heap_indices, ([], Some KeyError)).
Proof.
  exact (proj2 (@non_string_labels_raise unit Demo.pred
                  (Demo.builder true [0%nat; 1%nat]) "f" "train"
                  Demo.labels_abc 0%nat [1%nat] None
                  {[ "label" := VAtom (AInt 1) ]} "label" (VAtom (AInt 1))
                  KeyError Demo.heap_indices Demo.heap_indices
                  eq_refl eq_refl eq_refl eq_refl eq_refl eq_refl)).
Defined.

(** X20. A non-empty tuple of labels is taken into the element-wise
    branch like a list, and the first item already fails: with
    [KeyError] when it is no label of the list, else with [TypeError],
    since a tuple refuses the assignment.  Nothing has been written. *)
Theorem tuple_labels_raise {V Pred : Type} (self : DatasetBuilder.t V)
    (filename split : string) (label_list : list string) (first : loc)
    (rest : list loc) (ending : option exn) (d : gmap string val)
    (col : string) (q : loc) (a : atom) (items : list atom) (h h0 : heap) :
  get_labels self = Some label_list ->
  call_read self filename split h = (h0, (first :: rest, ending)) ->
  h0 !! first = Some (ODict d) ->
  Spec.column_of d = Some col -> d !! col = Some (VRef q) ->
  h0 !! q = Some (OTuple (a :: items)) ->
  (lazy self = false -> ending = None ->
   read (Pred:=Pred) self filename split h
   = (h0, Raise (More.tuple_error label_list a)))
  /\ generate_examples self filename split h
     = (h0, ([], Some (More.tuple_error label_list a))).
Proof.
  intros Hll Hread Hfirst Hcol Hv Hq.
  destruct (convert_tuple label_list h0 first d col q a items Hfirst Hv Hq)
    as [Ht Hconv].
  by apply (first_record_fails self filename split label_list h h0 h0
              first rest ending d col).
Qed.

Lemma tuple_labels_raise_witness :
  read (Pred:=Demo.pred) (Demo.builder false [0%nat]) "f" "train"
       Demo.heap_tuple
  = (Demo.heap_tuple, Raise TypeError).
Proof.
  exact (proj1 (@tuple_labels_raise unit Demo.pred
                  (Demo.builder false [0%nat]) "f" "train"
                  Demo.labels_abc 0%nat [] None
                  {[ "labels" := VRef 1%nat ]} "labels" 1%nat
                  (AStr "a") [AStr "c"] Demo.heap_tuple Demo.heap_tuple
                  eq_refl eq_refl eq_refl eq_refl eq_refl eq_refl)
               eq_refl eq_refl).
Defined.

(** X21. The conversion of a list of labels works in place and is not
    undone when it fails: when the labels before the first unknown one
    are known, [read] raises [KeyError] and leaves the list with those
    labels replaced by their positions and the others as they were. *)
Theorem failed_conversion_keeps_writes {V Pred : Type}
    (self : DatasetBuilder.t V) (filename split : string)
    (label_list : list string) (first : loc) (rest : list loc)
    (ending : option exn) (d : gmap string val) (col : string) (q : loc)
    (pre : list string) (bad : string) (post : list string) (h h0 : heap) :
  get_labels self = Some label_list ->
  call_read self filename split h = (h0, (first :: rest, ending)) ->
  h0 !! first = Some (ODict d) ->
  Spec.column_of d = Some col -> d !! col = Some (VRef q) ->
  h0 !! q = Some (OList (AStr <$> (pre ++ bad :: post))) ->
  Forall (fun s => s ∈ label_list) pre -> bad ∉ label_list ->
  exists positions : list nat,
    Forall2 (Spec.index_in label_list) pre positions
    /\ (lazy self = false -> ending = None ->
        read (Pred:=Pred) self filename split h
        = (Spec.rewriting h0 q positions (bad :: post), Raise KeyError))
    /\ generate_examples self filename split h
       = (Spec.rewriting h0 q positions (bad :: post), ([], Some KeyError)).
Proof.
  intros Hll Hread Hfirst Hcol Hv Hq Hpre Hbad.
  destruct (positions_of label_list pre Hpre) as (positions & Hm & Hp).
  apply build_label_dict_None in Hbad.
  destruct (convert_sequence_fails (build_label_dict label_list) h0 first d
              col q pre bad post positions Hfirst Hv Hq Hm Hbad)
    as [Ht Hconv].
  exists positions. split; [done|].
  by apply (first_record_fails self filename split label_list h h0 _
              first rest ending d col).
Qed.

Lemma failed_conversion_keeps_writes_witness :
  exists positions : list nat,
    Forall2 (Spec.index_in Demo.labels_abc) ["a"] positions
    /\ generate_examples (Demo.builder true [0%nat]) "f" "train"
                         More.heap_unknown
       = (Spec.rewriting More.heap_unknown 1%nat positions ["z"; "c"],
          ([], Some KeyError)).
Proof.
  destruct (@failed_conversion_keeps_writes unit Demo.pred
              (Demo.builder true [0%nat]) "f" "train" Demo.labels_abc
              0%nat [] None {[ "labels" := VRef 1%nat ]} "labels" 1%nat
              ["a"] "z" ["c"] More.heap_unknown More.heap_unknown
              eq_refl eq_refl eq_refl eq_refl eq_refl eq_refl)
    as (positions & Hp & _ & Hgen).
  - repeat constructor.
  - apply (bool_decide_unpack _). vm_compute. exact I.
  - exists positions. split; [exact Hp | exact Hgen].
Defined.

(** X22. On a source of separate records that all carry their label
    under the field name of the first, the eager branch does to the
    records what a full traversal of the lazy generator does: the same
    objects end up in the same state, the eager call returns the records
    when the generator yields them all, and raises the exception the
    generator raises. *)
Theorem lazy_and_eager_agree {V Pred : Type} (self : DatasetBuilder.t V)
    (filename split : string) (label_list : list string) (col : string)
    (x : Spec.labelled) (xs : list Spec.labelled) (h h0 : heap) :
  lazy self = false ->
  get_labels self = Some label_list ->
  call_read self filename split h = (h0, (Spec.rec <$> x :: xs, None)) ->
  NoDup (Spec.rec <$> x :: xs) -> NoDup (Spec.lists (x :: xs)) ->
  Forall (Spec.holds h0) (x :: xs) ->
  Forall (fun y => Spec.column_of (Spec.fields y) = Some col
                   /\ Spec.column y = col) (x :: xs) ->
  read (Pred:=Pred) self filename split h
  = match generate_examples self filename split h with
    | (h', (ys, None)) =>
        (h', Ok (Map (MapDataset.__init__ ys (Some label_list)
                        (get_vocab self))))
    | (h', (_, Some e)) => (h', Raise e)
    end.
Proof.
  intros Hlazy Hll Hread Hrecs Hlists Hh Hcols.
  pose proof (Forall_inv Hh) as Hx. pose proof (Forall_inv Hcols) as [Hcx Hx'].
  rewrite Forall_forall in Hcols.
  rewrite (read_eager_eq self filename split label_list h h0 (Spec.rec x)
             (fmap (M:=list) Spec.rec xs) (Spec.fields x) col Hlazy Hll Hread
             (proj1 Hx) Hcx);
    [|rewrite <- Hx'; by apply truthy_holds].
  change (Spec.rec x :: (Spec.rec <$> xs)) with (Spec.rec <$> x :: xs).
  rewrite (process_agree label_list
             (fun example => convert_labels (build_label_dict label_list)
                                            example col)
             (generate_step (Some label_list)) (x :: xs) h0 Hrecs Hlists Hh).
  - unfold generate_examples. rewrite Hread, Hll.
    pose proof (generate_loop_eq (Some label_list) (Spec.rec <$> x :: xs) h0)
      as Hloop.
    destruct (for_each _ (generate_step _) h0) as [h' [[]|e]].
    + by rewrite Hloop.
    + destruct Hloop as [ys ->]. done.
  - intros y h1 Hy _. by rewrite (proj2 (Hcols y Hy)).
  - intros y h1 Hy Hy1. apply generate_step_holds; [done|].
    destruct (Hcols y Hy) as [Hc ->]. done.
Qed.

Lemma lazy_and_eager_agree_witness :
  read (Pred:=Demo.pred) (Demo.builder false [0%nat; 1%nat]) "f" "train"
       More.heap_two
  = match generate_examples (Demo.builder false [0%nat; 1%nat]) "f" "train"
                            More.heap_two with
    | (h', (ys, None)) =>
        (h', Ok (Map (MapDataset.__init__ ys (Some Demo.labels_abc) None)))
    | (h', (_, Some e)) => (h', Raise e)
    end.
Proof.
  apply (@lazy_and_eager_agree unit Demo.pred
           (Demo.builder false [0%nat; 1%nat]) "f" "train" Demo.labels_abc
           "label" Demo.record_b [More.record_c] More.heap_two More.heap_two).
  - reflexivity.
  - reflexivity.
  - reflexivity.
  - apply (bool_decide_unpack _). vm_compute. exact I.
  - apply (bool_decide_unpack _). vm_compute. exact I.
  - repeat constructor; vm_compute; congruence.
  - repeat constructor.
Defined.

(** ** DatasetBuilder: read_datasets *)

Section MoreReadDatasets.
Context {V Pred : Type}.
Implicit Types (self : DatasetBuilder.t V) (h : heap).

Lemma jobs_truth (splits : option splits_arg)
    (data_files : option data_files_arg) :
  Spec.jobs splits data_files <> [] ->
  splits_truth splits || files_truth data_files = true.
Proof.
  unfold Spec.jobs, Spec.file_jobs, Spec.split_jobs.
  destruct data_files as [[s|[|? l]|[|? l]|[|? items]|[]]|];
    destruct splits as [[s'|[|? l']|[|? l']|[]]|]; simpl;
    repeat match goal with
           | |- context [String.eqb ?s ""] => destruct (String.eqb s "")
           end;
    simpl; done.
Qed.

Lemma read_datasets_eq self splits data_files h :
  splits_truth splits || files_truth data_files = true ->
  data_files <> Some (OtherFiles true) -> splits <> Some (OtherSplits true) ->
  read_datasets (Pred:=Pred) self splits data_files h
  = match mapM (Spec.run_job self) (Spec.jobs splits data_files) h with
    | (h', Ok ds) => (h', Ok (Spec.pack ds))
    | (h', Raise e) => (h', Raise e)
    end.
Proof.
  intros Htruth Hf Hs. unfold read_datasets. rewrite Htruth.
  cbn [negb]. rewrite run_bind, (read_data_files_jobs self data_files [] h Hf).
  unfold Spec.jobs. rewrite mapM_run_app.
  destruct (mapM (Spec.run_job self) (Spec.file_jobs data_files) h)
    as [h1 [ds1|e]] eqn:H1; [|done].
  rewrite app_nil_l, run_bind, (read_splits_jobs self splits ds1 h1 Hs).
  destruct (mapM (Spec.run_job self) (Spec.split_jobs splits) h1)
    as [h2 [ds2|e]] eqn:H2; [|done].
  pose proof (mapM_run_length _ _ _ _ _ H1) as Hl1.
  pose proof (mapM_run_length _ _ _ _ _ H2) as Hl2.
  pose proof (jobs_nonempty splits data_files Htruth Hf Hs) as Hne.
  unfold Spec.jobs in Hne.
  assert (length (ds1 ++ ds2) <> 0%nat) as Hlen.
  { rewrite length_app, Hl1, Hl2, <- length_app. by destruct (_ ++ _). }
  destruct (ds1 ++ ds2) as [|d [|d' ds]]; done.
Qed.

End MoreReadDatasets.

(** X23. [read_datasets] checks the type of [data_files] before it
    reads anything, and the type of [splits] only after the data files
    have been read: with a [data_files] of a wrong type the call raises
    [AssertionError] at once; with a [splits] of a wrong type it first
    reads every data file, keeps what these reads did to the records,
    and then raises [AssertionError] (or what a read raised). *)
Theorem read_datasets_checks_types {V Pred : Type} (self : DatasetBuilder.t V)
    (splits : option splits_arg) (data_files : option data_files_arg)
    (h : heap) :
  read_datasets (Pred:=Pred) self splits (Some (OtherFiles true)) h
  = (h, Raise AssertionError)
  /\ (data_files <> Some (OtherFiles true) ->
      read_datasets (Pred:=Pred) self (Some (OtherSplits true)) data_files h
      = match mapM (Spec.run_job (Pred:=Pred) self) (Spec.file_jobs data_files) h with
        | (h', Ok _) => (h', Raise AssertionError)
        | (h', Raise e) => (h', Raise e)
        end).
Proof.
  split.
  - unfold read_datasets. cbn [files_truth]. by rewrite orb_true_r.
  - intros Hf. unfold read_datasets. cbn [splits_truth orb negb].
    rewrite run_bind, (read_data_files_jobs self data_files [] h Hf).
    by destruct (mapM (Spec.run_job (Pred:=Pred) self) (Spec.file_jobs data_files) h)
      as [h1 [ds1|e]].
Qed.

Lemma read_datasets_checks_types_witness :
  read_datasets (Pred:=Demo.pred) (Demo.builder false [0%nat])
    (Some (OtherSplits true)) (Some (FileStr "a.tsv")) Demo.heap_labels
  = match mapM (Spec.run_job (Pred:=Demo.pred) (Demo.builder false [0%nat]))
               (Spec.file_jobs (Some (FileStr "a.tsv"))) Demo.heap_labels with
    | (h', Ok _) => (h', Raise AssertionError)
    | (h', Raise e) => (h', Raise e)
    end.
Proof.
  apply (proj2 (@read_datasets_checks_types unit Demo.pred
                  (Demo.builder false [0%nat]) None
                  (Some (FileStr "a.tsv")) Demo.heap_labels)).
  discriminate.
Defined.

(** X24. [read_datasets] stops at the first read that raises: the reads
    before it have been done, their effects stay, the exception is
    passed on, and nothing after it is read. *)
Theorem read_datasets_stops_at_failure {V Pred : Type}
    (self : DatasetBuilder.t V) (splits : option splits_arg)
    (data_files : option data_files_arg)
    (pre : list Spec.job) (j : Spec.job) (post : list Spec.job)
    (ds : list (dataset V Pred)) (e : exn) (h h1 h2 : heap) :
  data_files <> Some (OtherFiles true) ->
  splits <> Some (OtherSplits true) ->
  Spec.jobs splits data_files = pre ++ j :: post ->
  mapM (Spec.run_job (Pred:=Pred) self) pre h = (h1, Ok ds) ->
  Spec.run_job (Pred:=Pred) self j h1 = (h2, Raise e) ->
  read_datasets (Pred:=Pred) self splits data_files h = (h2, Raise e).
Proof.
  intros Hf Hs Hjobs Hpre Hj.
  assert (splits_truth splits || files_truth data_files = true) as Htruth.
  { apply jobs_truth. rewrite Hjobs. by destruct pre. }
  rewrite (read_datasets_eq self splits data_files h Htruth Hf Hs).
  rewrite Hjobs, mapM_run_app, Hpre. simpl. by rewrite run_bind, Hj.
Qed.

Lemma read_datasets_stops_at_failure_witness :
  read_datasets (Pred:=Demo.pred) More.builder_by_file None
    (Some (FileList ["a.tsv"; "empty.tsv"; "b.tsv"])) Demo.heap_labels
  = (Demo.heap_labels, Raise ValueError).
Proof.
  apply (@read_datasets_stops_at_failure unit Demo.pred More.builder_by_file
           None (Some (FileList ["a.tsv"; "empty.tsv"; "b.tsv"]))
           [Spec.FromFile "train" "a.tsv"] (Spec.FromFile "train" "empty.tsv")
           [Spec.FromFile "train" "b.tsv"]
           [Map (MapDataset.__init__ [0%nat] None None)] ValueError
           Demo.heap_labels Demo.heap_labels Demo.heap_labels).
  - discriminate.
  - discriminate.
  - reflexivity.
  - reflexivity.
  - reflexivity.
Defined.

(** ** SimpleBuilder and load_dataset *)

Section MoreLoader.
Context {A X V Pred L : Type}.

Lemma select_kwargs_fold (ps : list string)
    (kwargs acc : gmap string (Loader.kw X)) (k : string) :
  fold_left (fun custom_kwargs name =>
               match kwargs !! name with
               | Some v => <[name:=v]> custom_kwargs
               | None => custom_kwargs
               end) ps acc !! k
  = if bool_decide (k ∈ ps)
    then match kwargs !! k with Some v => Some v | None => acc !! k end
    else acc !! k.
Proof.
  revert acc. induction ps as [|p ps IH]; intros acc; [done|].
  cbn [fold_left]. rewrite IH. destruct (decide (k = p)) as [->|Hne].
  - rewrite (bool_decide_eq_true_2 (p ∈ p :: ps)) by left.
    destruct (kwargs !! p) as [v|] eqn:Hv.
    + rewrite lookup_insert_eq. by case_bool_decide.
    + by case_bool_decide.
  - assert (bool_decide (k ∈ p :: ps) = bool_decide (k ∈ ps)) as ->.
    { apply bool_decide_ext. rewrite elem_of_cons. tauto. }
    destruct (kwargs !! p) as [v|]; [|done].
    by rewrite lookup_insert_ne.
Qed.

Lemma select_kwargs_lookup (ps : list string)
    (kwargs : gmap string (Loader.kw X)) (k : string) :
  Loader.select_kwargs ps kwargs !! k
  = if bool_decide (k ∈ ps) then kwargs !! k else None.
Proof.
  unfold Loader.select_kwargs. rewrite select_kwargs_fold, lookup_empty.
  case_bool_decide; [|done]. by destruct (kwargs !! k).
Qed.

Lemma find_main_cls_Some (items : list (string * Loader.member X V))
    (cls : Loader.builder_class X V) :
  Loader.find_main_cls items = Some cls
  <-> exists pre name post,
        items = pre ++ (name, Loader.BuilderClass cls) :: post
        /\ name <> "DatasetBuilder"
        /\ Forall (fun item => More.qualifies item = false) pre.
Proof.
  split.
  - induction items as [|[name obj] items IH]; [done|]. simpl.
    destruct obj as [c|].
    + destruct (String.eqb_spec name "DatasetBuilder") as [->|Hname].
      * intros Hfind. destruct (IH Hfind) as (pre & n & post & -> & Hn & Hpre).
        exists (("DatasetBuilder", Loader.BuilderClass c) :: pre), n, post.
        split; [done|]. split; [done|]. by constructor.
      * intros [= ->]. exists [], name, items. split; [done|].
        split; [done|]. constructor.
    + intros Hfind. destruct (IH Hfind) as (pre & n & post & -> & Hn & Hpre).
      exists ((name, Loader.OtherMember) :: pre), n, post.
      split; [done|]. split; [done|]. by constructor.
  - intros (pre & name & post & -> & Hname & Hpre).
    induction Hpre as [|[n obj] pre Hq _ IH]; simpl.
    + by destruct (String.eqb_spec name "DatasetBuilder").
    + destruct obj as [c|]; [|done]. simpl in Hq.
      apply negb_false_iff in Hq. by rewrite Hq.
Qed.

Lemma find_main_cls_None (items : list (string * Loader.member X V)) :
  Loader.find_main_cls items = None
  <-> Forall (fun item => More.qualifies item = false) items.
Proof.
  induction items as [|[name obj] items IH]; simpl.
  - split; [constructor|done].
  - rewrite Forall_cons, <- IH. simpl. destruct obj as [c|].
    + destruct (String.eqb name "DatasetBuilder"); simpl;
        split; try tauto; try discriminate; intros [? _]; discriminate.
    + tauto.
Qed.



End MoreLoader.

Section MoreKinds.
Context {V Pred : Type}.
Implicit Types (self : DatasetBuilder.t V) (h : heap).

Lemma read_kind self filename split h h' (d : dataset V Pred) :
  read self filename split h = (h', Ok d) -> More.kind_of (lazy self) d.
Proof.
  unfold read. destruct (lazy self).
  - rewrite run_ret. by intros [= _ <-].
  - rewrite run_bind.
    destruct (materialize self filename split h) as [h0 [[|first rest]|e]];
      [done| |done].
    rewrite run_bind. destruct (label_column first h0) as [h1 [col|e]]; [|done].
    rewrite run_bind.
    destruct (wants_conversion _ first col h1) as [h2 [c|e]]; [|done].
    rewrite run_bind.
    match goal with
    | |- context [(if c then ?m else _) h2] =>
        destruct ((if c then m else mret tt) h2) as [h3 [[]|e]]
    end; [|done].
    rewrite run_ret. by intros [= _ <-].
Qed.

Lemma run_job_kind self (j : Spec.job) h h' (d : dataset V Pred) :
  Spec.run_job self j h = (h', Ok d) -> More.kind_of (lazy self) d.
Proof.
  destruct j as [split filename|split]; simpl.
  - apply read_kind.
  - unfold read_split. rewrite run_bind.
    destruct (_get_data self split h) as [h0 [filename|e]]; [|done].
    apply read_kind.
Qed.

Lemma mapM_run_Forall {W Y} (f : W -> M Y) (P : Y -> Prop) (l : list W)
    h h' (ys : list Y) :
  (forall w h0 h1 y, f w h0 = (h1, Ok y) -> P y) ->
  mapM f l h = (h', Ok ys) -> Forall P ys.
Proof.
  intros Hf. revert h ys. induction l as [|w l IH]; intros h ys; simpl.
  - rewrite run_ret. intros [= _ <-]. constructor.
  - rewrite run_bind. destruct (f w h) as [h0 [y|e]] eqn:Hw; [|done].
    rewrite run_bind. destruct (mapM f l h0) as [h1 [ys1|e]] eqn:Hl; [|done].
    rewrite run_ret. intros [= -> <-].
    constructor; [by eapply Hf | by eapply IH].
Qed.

Lemma datasets_of_pack (ds : list (dataset V Pred)) :
  More.datasets_of (Spec.pack ds) = ds.
Proof. by destruct ds as [|d [|d' ds]]. Qed.

Lemma read_datasets_kind self splits data_files h h'
    (r : datasets_result V Pred) :
  read_datasets self splits data_files h = (h', Ok r) ->
  Forall (More.kind_of (lazy self)) (More.datasets_of r).
Proof.
  intros Hrun.
  assert (data_files = Some (OtherFiles true)
          \/ data_files <> Some (OtherFiles true)) as [->|Hf]
    by (destruct data_files as [[s|l|l|items|[]]|];
        try (right; discriminate); by left).
  { unfold read_datasets in Hrun. cbn [files_truth] in Hrun.
    rewrite orb_true_r in Hrun. done. }
  destruct (splits_truth splits || files_truth data_files) eqn:Htruth;
    [|unfold read_datasets in Hrun; by rewrite Htruth in Hrun].
  assert (splits = Some (OtherSplits true)
          \/ splits <> Some (OtherSplits true)) as [->|Hs]
    by (destruct splits as [[s|l|l|[]]|];
        try (right; discriminate); by left).
  { unfold read_datasets in Hrun. cbn [splits_truth orb negb] in Hrun.
    rewrite run_bind, (read_data_files_jobs self data_files [] h Hf) in Hrun.
    by destruct (mapM (Spec.run_job (Pred:=Pred) self)
                      (Spec.file_jobs data_files) h) as [h1 [ds1|e]]. }
  rewrite (read_datasets_eq self splits data_files h Htruth Hf Hs) in Hrun.
  destruct (mapM (Spec.run_job (Pred:=Pred) self)
                 (Spec.jobs splits data_files) h) as [h1 [ds|e]] eqn:Hjobs;
    [|done].
  injection Hrun as _ <-. rewrite datasets_of_pack.
  eapply mapM_run_Forall; [|exact Hjobs].
  intros j h0 h2 d. apply run_job_kind.
Qed.

End MoreKinds.

(** X25. [SimpleBuilder.read] wraps what the reading function hands out
    and nothing else: the eager call runs the function once and stores
    its examples (an empty source included), or raises what the function
    raised; the lazy call does not run the function, and each traversal
    of the dataset it returns runs the function anew and yields its
    examples.  Neither dataset carries a label list or vocab. *)
Theorem simple_builder_read {A K St Pred L V : Type}
    (call : Pred -> IterDataset.arg A Pred -> bool)
    (lazy : bool) (read_func : K -> St -> St * trace A) (kwargs : K) (st : St) :
  (lazy = false ->
   SimpleBuilder.read (L:=L) (V:=V) (Pred:=Pred)
     (SimpleBuilder.__init__ lazy read_func) kwargs st
   = match read_func kwargs st with
     | (st', (examples, None)) =>
         (st', Ok (SimpleBuilder.Map (MapDataset.__init__ examples None None)))
     | (st', (_, Some e)) => (st', Raise e)
     end)
  /\ (lazy = true ->
      exists ds : IterDataset.t A Pred St L V,
        SimpleBuilder.read (SimpleBuilder.__init__ lazy read_func) kwargs st
        = (st, Ok (SimpleBuilder.Iter ds))
        /\ IterDataset.label_list ds = None
        /\ IterDataset.vocab_info ds = None
        /\ forall st0, IterDataset.__iter__ call ds st0 = read_func kwargs st0).
Proof.
  split; intros ->.
  - unfold SimpleBuilder.read. simpl.
    by destruct (read_func kwargs st) as [st' [examples [e|]]].
  - eexists. split; [reflexivity|]. split; [done|]. split; [done|].
    intros st0. rewrite iter_fresh.
    unfold Spec.draw, SimpleBuilder.generate_examples. simpl.
    destruct (read_func kwargs st0) as [st' [examples ending]].
    apply exhaust_hand_out.
Qed.

Lemma simple_builder_read_witness :
  SimpleBuilder.read (L:=unit) (V:=unit) (Pred:=Demo.pred)
    (SimpleBuilder.__init__ false
       (fun (n : nat) (st : nat) => (S st, (seq st n, @None exn)))) 3%nat 5%nat
  = (6%nat, Ok (SimpleBuilder.Map (MapDataset.__init__ [5%nat; 6%nat; 7%nat]
                                     None None))).
Proof.
  exact (proj1 (@simple_builder_read nat nat nat Demo.pred unit unit
                  (fun _ _ => true) false
                  (fun (n : nat) (st : nat) => (S st, (seq st n, @None exn)))
                  3%nat 5%nat) eq_refl).
Defined.

(** X26. [load_dataset] with a reading function: without [lazy] it
    raises [AssertionError] and does not call the function.  Otherwise
    the function is called with those of [name], [data_files], [splits]
    and the extra keyword arguments that its signature names, the others
    being dropped; with [lazy=False] its examples are stored, with
    [lazy=True] they are produced when the dataset is traversed. *)
Theorem load_dataset_custom {A X V Pred L : Type}
    (import_module : string -> list (string * Loader.member X V))
    (call : Pred -> IterDataset.arg A Pred -> bool)
    (f : Loader.read_func A X) (name : option string)
    (data_files : option data_files_arg)
    (splits : option Loader.splits_object)
    (kwargs : gmap string (Loader.kw X)) (h : heap) :
  exists custom_kwargs : gmap string (Loader.kw X),
    (forall k : string,
       custom_kwargs !! k
       = if bool_decide (k ∈ Loader.parameters f)
         then (<["splits":=Loader.KwSplits splits]>
                 (<["data_files":=Loader.KwFiles data_files]>
                    (<["name":=Loader.KwName name]> kwargs))) !! k
         else None)
    /\ Loader.load_dataset (Pred:=Pred) (L:=L) import_module (Loader.ReadFunc f)
         name data_files splits None kwargs h
       = (h, Raise AssertionError)
    /\ Loader.load_dataset (Pred:=Pred) (L:=L) import_module (Loader.ReadFunc f)
         name data_files splits (Some false) kwargs h
       = match Loader.call_func f custom_kwargs h with
         | (h', (examples, None)) =>
             (h', Ok (Loader.Custom
                        (SimpleBuilder.Map
                           (MapDataset.__init__ examples None None))))
         | (h', (_, Some e)) => (h', Raise e)
         end
    /\ exists ds : IterDataset.t A Pred heap L V,
         Loader.load_dataset import_module (Loader.ReadFunc f)
           name data_files splits (Some true) kwargs h
         = (h, Ok (Loader.Custom (SimpleBuilder.Iter ds)))
         /\ forall h0 : heap,
              IterDataset.__iter__ call ds h0
              = Loader.call_func f custom_kwargs h0.
Proof.
  eexists. split; [intros k; apply select_kwargs_lookup|].
  split; [done|]. split.
  - unfold Loader.load_dataset. rewrite run_bind.
    unfold SimpleBuilder.read. simpl.
    by destruct (Loader.call_func f _ h) as [h' [examples [e|]]].
  - eexists. split; [reflexivity|].
    intros h0. rewrite iter_fresh.
    unfold Spec.draw, SimpleBuilder.generate_examples. simpl.
    destruct (Loader.call_func f _ h0) as [h' [examples ending]].
    apply exhaust_hand_out.
Qed.

(** X27. [import_main_class] returns the first member of the module at
    ["paddlenlp.datasets." + module_path] that is a subclass of
    [DatasetBuilder] bound to a name other than ["DatasetBuilder"], and
    [None] when the module has no such member. *)
Theorem import_main_class_first {X V : Type}
    (import_module : string -> list (string * Loader.member X V))
    (module_path : string) :
  let items := import_module ("paddlenlp.datasets." ++ module_path)%string in
  (forall cls : Loader.builder_class X V,
     Loader.import_main_class import_module module_path = Some cls
     <-> exists pre name post,
           items = pre ++ (name, Loader.BuilderClass cls) :: post
           /\ name <> "DatasetBuilder"
           /\ Forall (fun item => More.qualifies item = false) pre)
  /\ (Loader.import_main_class import_module module_path = None
      <-> Forall (fun item => More.qualifies item = false) items).
Proof.
  intros items. split.
  - intros cls. apply find_main_cls_Some.
  - apply find_main_cls_None.
Qed.

Lemma import_main_class_first_witness :
  Loader.import_main_class More.demo_module "demo"
  = Some (More.demo_class false).
Proof.
  apply (proj1 (@import_main_class_first unit unit More.demo_module "demo")
               (More.demo_class false)).
  exists [("DatasetBuilder", Loader.BuilderClass (More.demo_class true));
          ("os", Loader.OtherMember)],
         "Demo", [("Other", Loader.BuilderClass (More.demo_class true))].
  split; [reflexivity|]. split; [discriminate|]. repeat constructor.
Defined.



(** X29. [load_dataset] with the name of a builder raises before an
    instance reads anything when the selection of the builder fails:
    [TypeError] when the module has no builder class, [ValueError] when
    the class has [BUILDER_CONFIGS] and [name] is not one of its keys
    ([name=None] included, and whether or not it has [SPLITS]), and
    [AttributeError] when it has neither [BUILDER_CONFIGS] nor
    [SPLITS]. *)
Theorem load_dataset_rejects_builder {A X V Pred L : Type}
    (import_module : string -> list (string * Loader.member X V))
    (path : string) (name : option string)
    (data_files : option data_files_arg)
    (splits : option Loader.splits_object)
    (lazy : option bool) (kwargs : gmap string (Loader.kw X)) (h : heap) :
  (Loader.import_main_class import_module path = None ->
   Loader.load_dataset (A:=A) (Pred:=Pred) (L:=L) import_module
     (Loader.Path path) name data_files splits lazy kwargs h
   = (h, Raise TypeError))
  /\ (forall reader_cls configs,
        Loader.import_main_class import_module path = Some reader_cls ->
        Loader.BUILDER_CONFIGS reader_cls = Some configs ->
        (name ≫= fun n => configs !! n) = None ->
        Loader.load_dataset (A:=A) (Pred:=Pred) (L:=L) import_module
          (Loader.Path path) name data_files splits lazy kwargs h
        = (h, Raise ValueError))
  /\ (forall reader_cls,
        Loader.import_main_class import_module path = Some reader_cls ->
        Loader.BUILDER_CONFIGS reader_cls = None ->
        Loader.SPLITS reader_cls = None ->
        Loader.load_dataset (A:=A) (Pred:=Pred) (L:=L) import_module
          (Loader.Path path) name data_files splits lazy kwargs h
        = (h, Raise AttributeError)).
Proof.
  split; [|split].
  - intros Himport. unfold Loader.load_dataset. by rewrite Himport.
  - intros reader_cls configs Himport Hconfigs Hname.
    unfold Loader.load_dataset. rewrite Himport, run_bind.
    unfold lift, Loader.split_names_of. by rewrite Hconfigs, Hname.
  - intros reader_cls Himport Hconfigs Hsplits.
    unfold Loader.load_dataset. rewrite Himport, run_bind.
    unfold lift, Loader.split_names_of. by rewrite Hconfigs, Hsplits.
Qed.

Lemma load_dataset_rejects_builder_witness :
  Loader.load_dataset (A:=unit) (X:=unit) (V:=unit) (Pred:=Demo.pred) (L:=unit)
    (fun _ => [("DatasetBuilder", Loader.BuilderClass (More.demo_class true));
               ("os", Loader.OtherMember)])
    (Loader.Path "demo") None None (Some (Loader.Plain (SplitStr "train")))
    None ∅ Demo.heap_labels
  = (Demo.heap_labels, Raise TypeError).
Proof.
  exact (proj1 (@load_dataset_rejects_builder unit unit unit Demo.pred unit
                  (fun _ => [("DatasetBuilder",
                              Loader.BuilderClass (More.demo_class true));
                             ("os", Loader.OtherMember)])
                  "demo" None None (Some (Loader.Plain (SplitStr "train")))
                  None ∅ Demo.heap_labels) eq_refl).
Defined.

(** X30. The [lazy] argument of [load_dataset] decides the kind of every
    dataset a builder returns, and the class attribute [lazy] does when
    the argument is [None]: streaming datasets when it is true, stored
    ones when it is false. *)
Theorem load_dataset_kind {A X V Pred L : Type}
    (import_module : string -> list (string * Loader.member X V))
    (path : string) (reader_cls : Loader.builder_class X V)
    (name : option string) (data_files : option data_files_arg)
    (splits : option Loader.splits_object) (lazy : option bool)
    (kwargs : gmap string (Loader.kw X)) (h h' : heap)
    (datasets : datasets_result V Pred) :
  Loader.import_main_class import_module path = Some reader_cls ->
  Loader.load_dataset (A:=A) (L:=L) import_module (Loader.Path path)
    name data_files splits lazy kwargs h
  = (h', Ok (Loader.Built datasets)) ->
  Forall (More.kind_of (default (Loader.class_lazy reader_cls) lazy))
         (More.datasets_of datasets).
Proof.
  intros Himport. unfold Loader.load_dataset. rewrite Himport, run_bind.
  unfold lift at 1.
  destruct (Loader.split_names_of reader_cls name) as [split_names|e]; [|done].
  rewrite run_bind. unfold lift.
  destruct (Loader.check_splits _ _) as [[]|e]; [|done].
  rewrite run_bind.
  destruct (read_datasets _ (Loader.as_splits_arg <$> splits) data_files h)
    as [h1 [r|e]] eqn:Hrun;
    [|done].
  rewrite run_ret. intros [= _ <-].
  apply (read_datasets_kind _ _ _ _ _ _ Hrun).
Qed.

Lemma load_dataset_kind_witness :
  Forall (More.kind_of (V:=unit) (Pred:=Demo.pred) true)
    [Iter (IterDataset.__init__
             (IterDataset.Generator
                (generate_examples_call
                   (Loader.__init__ (More.demo_class false) (Some true) None ∅)
                   "train" "train"))
             (Some Demo.labels_abc) None)].
Proof.
  exact (@load_dataset_kind unit unit unit Demo.pred unit More.demo_module
           "demo" (More.demo_class false) None None
           (Some (Loader.Plain (SplitStr "train")))
           (Some true) ∅ Demo.heap_labels Demo.heap_labels
           (Single
              (Iter (IterDataset.__init__
                       (IterDataset.Generator
                          (generate_examples_call
                             (Loader.__init__ (More.demo_class false)
                                (Some true) None ∅)
                             "train" "train"))
                       (Some Demo.labels_abc) None)))
           eq_refl eq_refl).
Defined.
